(** * Order-settlement core of the storefront API

    A shallow embedding of the Hono worker (index.ts / admin.ts) and of the
    PostgreSQL schema it talks to.

    - Every [sql`...`] template of the worker is one auto-committed statement
      (the Neon HTTP driver is used without [sql.transaction]); it is modelled
      as one action of the monad [M], which threads the database and lets the
      database survive a thrown exception.
    - Tables with a primary-key lookup only (users, products, variants,
      stripe_webhook_events) are finite maps keyed by the primary key; tables
      that are scanned, ordered by creation time or may hold duplicates
      (carts, cart_items, orders, order_items) are lists in creation order.
    - Integers are [Z]; timestamps are left out ([ORDER BY created_at] is the
      list order).
    - A handler that binds a path parameter to a [uuid] column or a number
      of the request to an [INT] column is modelled twice: once for values
      PostgreSQL has accepted (an id, a number in range), and once as the
      route, which takes the text and the number as they are sent and is
      refused by the database when they cannot be read.
    - The schema's NOT NULL, UNIQUE, CHECK and FOREIGN KEY constraints that a
      handler can hit are modelled inside the statement that can hit them. *)

From Stdlib Require Import ZArith String Ascii List Lia.
From stdpp Require Import base option gmap strings list fin_maps pretty.

Local Open Scope string_scope.
Local Open Scope list_scope.
Local Open Scope Z_scope.

(** ** Schema (schema.sql) *)

Record user := {
  u_email : string;
  u_stripe_customer_id : option string }.

Record product := {
  p_slug : string;
  p_name : string;
  p_price_cents : Z;
  p_image : option string;
  p_is_active : bool }.

Record variant := {
  v_product_id : string;
  v_name : string;
  v_price_cents : option Z;
  v_stock_qty : Z }.

Record cart := {
  cart_id : string;
  cart_user_id : option string;
  cart_session_token : option string;
  cart_stripe_session_id : option string }.

Record cart_item := {
  ci_id : string;
  ci_cart_id : string;
  ci_product_id : string;
  ci_variant_id : option string;
  ci_quantity : Z;
  ci_price_cents : Z }.

Inductive order_status :=
  | pending | payment_processing | paid | fulfilling
  | shipped | delivered | cancelled | refunded.

Record order := {
  o_id : string;
  o_user_id : option string;
  o_status : order_status;
  o_stripe_session_id : option string;
  o_stripe_payment_intent_id : option string;
  o_subtotal_cents : Z;
  o_total_cents : Z;
  o_currency : string;
  o_customer_email : string;
  o_customer_name : option string;
  o_shipping_address : string }.

Record order_item := {
  oi_id : string;
  oi_order_id : string;
  oi_product_id : string;
  oi_product_name : string;
  oi_quantity : Z;
  oi_unit_price_cents : Z;
  oi_total_cents : Z }.

(** ** Stripe objects, as far as the worker reads them *)

(** [event.data.object]: an untyped JSON object that the worker casts to a
    Checkout.Session, a PaymentIntent or a Charge. *)
Record stripe_object := {
  obj_id : string;
  obj_metadata_cart_id : option string;
  obj_metadata_user_id : option string;
  obj_payment_intent : option string;
  obj_amount_subtotal : option Z;
  obj_amount_total : option Z;
  obj_currency : option string;
  obj_customer_email : option string;
  obj_customer_name : option string;
  obj_shipping_address : option string;
  obj_customer : option string }.

Record event := {
  ev_id : string;
  ev_type : string;
  ev_object : stripe_object }.

(** An expanded line item of a retrieved session. *)
Record line_item := {
  li_description : option string;
  li_quantity : option Z;
  li_unit_amount : option Z;
  li_product_id : option string;
  li_variant_id : option string }.

Record webhook_event := {
  we_type : string;
  we_payload : event;
  we_error : option string }.

Record Db := {
  users : gmap string user;
  products : gmap string product;
  variants : gmap string variant;
  carts : list cart;
  cart_items : list cart_item;
  orders : list order;
  order_items : list order_item;
  stripe_webhook_events : gmap string webhook_event;
  uuid_counter : N }.

#[global] Instance order_status_eq_dec : EqDecision order_status.
Proof. solve_decision. Defined.

(** Field updates. *)

Definition set_users (f : gmap string user → gmap string user) (db : Db) : Db :=
  {| users := f (users db); products := products db; variants := variants db;
     carts := carts db; cart_items := cart_items db; orders := orders db;
     order_items := order_items db;
     stripe_webhook_events := stripe_webhook_events db;
     uuid_counter := uuid_counter db |}.

Definition set_variants (f : gmap string variant → gmap string variant) (db : Db) : Db :=
  {| users := users db; products := products db; variants := f (variants db);
     carts := carts db; cart_items := cart_items db; orders := orders db;
     order_items := order_items db;
     stripe_webhook_events := stripe_webhook_events db;
     uuid_counter := uuid_counter db |}.

Definition set_carts (f : list cart → list cart) (db : Db) : Db :=
  {| users := users db; products := products db; variants := variants db;
     carts := f (carts db); cart_items := cart_items db; orders := orders db;
     order_items := order_items db;
     stripe_webhook_events := stripe_webhook_events db;
     uuid_counter := uuid_counter db |}.

Definition set_cart_items (f : list cart_item → list cart_item) (db : Db) : Db :=
  {| users := users db; products := products db; variants := variants db;
     carts := carts db; cart_items := f (cart_items db); orders := orders db;
     order_items := order_items db;
     stripe_webhook_events := stripe_webhook_events db;
     uuid_counter := uuid_counter db |}.

Definition set_orders (f : list order → list order) (db : Db) : Db :=
  {| users := users db; products := products db; variants := variants db;
     carts := carts db; cart_items := cart_items db; orders := f (orders db);
     order_items := order_items db;
     stripe_webhook_events := stripe_webhook_events db;
     uuid_counter := uuid_counter db |}.

Definition set_order_items (f : list order_item → list order_item) (db : Db) : Db :=
  {| users := users db; products := products db; variants := variants db;
     carts := carts db; cart_items := cart_items db; orders := orders db;
     order_items := f (order_items db);
     stripe_webhook_events := stripe_webhook_events db;
     uuid_counter := uuid_counter db |}.

Definition set_events
    (f : gmap string webhook_event → gmap string webhook_event) (db : Db) : Db :=
  {| users := users db; products := products db; variants := variants db;
     carts := carts db; cart_items := cart_items db; orders := orders db;
     order_items := order_items db;
     stripe_webhook_events := f (stripe_webhook_events db);
     uuid_counter := uuid_counter db |}.

Definition set_uuid_counter (f : N → N) (db : Db) : Db :=
  {| users := users db; products := products db; variants := variants db;
     carts := carts db; cart_items := cart_items db; orders := orders db;
     order_items := order_items db;
     stripe_webhook_events := stripe_webhook_events db;
     uuid_counter := f (uuid_counter db) |}.

(** ** Exceptions and the handler monad *)

Inductive exn :=
  | HTTPException (status : Z) (message : string)
  | DbError (message : string)
  | StripeError (message : string).

(** [err.message] *)
Definition exn_message (e : exn) : string :=
  match e with
  | HTTPException _ m => m
  | DbError m => m
  | StripeError m => m
  end.

Inductive result (A : Type) :=
  | Ok (a : A)
  | Throw (e : exn).
Arguments Ok {A} a.
Arguments Throw {A} e.

(** A handler step: it may change the database and then return or throw.
    What was written before a throw stays written. *)
Definition M (A : Type) : Type := Db → Db * result A.

#[global] Instance M_ret : MRet M := λ A a db, (db, Ok a).

#[global] Instance M_bind : MBind M := λ A B f m db,
  match m db with
  | (db', Ok a) => f a db'
  | (db', Throw e) => (db', Throw e)
  end.

Definition throw {A} (e : exn) : M A := λ db, (db, Throw e).

Definition gets {A} (f : Db → A) : M A := λ db, (db, Ok (f db)).

Definition modify (f : Db → Db) : M unit := λ db, (f db, Ok tt).

(** [try { m } catch (err) { h err }] *)
Definition try_catch {A} (m : M A) (h : exn → M A) : M A := λ db,
  match m db with
  | (db', Throw e) => h e db'
  | r => r
  end.

(** A value coming back from an awaited Stripe call. *)
Definition lift_result {A} (r : result A) : M A := λ db, (db, r).

(** [crypto.randomUUID()], and [uuid_generate_v4()] for the ids that no
    request carries back (carts, order items): a fresh text per call. *)
Definition gen_uuid : M string := λ db,
  (set_uuid_counter N.succ db, Ok ("uuid-" +:+ pretty (uuid_counter db))).

(** JS truthiness of a [string | undefined | null] value: [Some s] when the
    value is a non-empty string. *)
Definition truthy (s : option string) : option string :=
  match s with
  | Some "" => None
  | o => o
  end.

(** ** UUID texts and int4 numbers

    What PostgreSQL accepts when a text parameter is bound to a [uuid]
    column (string_to_uuid: sixteen bytes of two hexadecimal digits each,
    with an optional hyphen after every second byte, and an optional pair of
    braces around the whole), and the text it gives back for the value
    (uuid_out: lower case, hyphens after bytes 4, 6, 8 and 10).  Two texts
    denote the same uuid when they are read to the same text. *)

Definition hex_value (a : ascii) : option N :=
  let n := N_of_ascii a in
  if ((48 <=? n) && (n <=? 57))%N then Some (n - 48)%N
  else if ((97 <=? n) && (n <=? 102))%N then Some (n - 87)%N
  else if ((65 <=? n) && (n <=? 70))%N then Some (n - 55)%N
  else None.

Definition hex_digit (v : N) : ascii :=
  ascii_of_N (if (v <? 10)%N then 48 + v else 87 + v).

(** [if (src[0] == '-' && (i % 2) == 1 && i < UUID_LEN - 1) src++]: the
    hyphen that may follow byte [i]. *)
Definition skip_hyphen (i : nat) (rest : string) : string :=
  match rest with
  | String "-"%char r => if (Nat.odd i && (i <? 15)%nat)%bool then r else rest
  | _ => rest
  end.

(** The loop of string_to_uuid: [count] bytes are still to be read, the next
    one is byte [i]; the result is the list of half-bytes and the text left. *)
Fixpoint read_uuid_bytes (count i : nat) (src : string)
    : option (list N * string) :=
  match count with
  | O => Some ([], src)
  | S count' =>
      match src with
      | String a (String b rest) =>
          match hex_value a, hex_value b with
          | Some x, Some y =>
              match read_uuid_bytes count' (S i) (skip_hyphen i rest) with
              | Some (nibbles, tail) => Some (x :: y :: nibbles, tail)
              | None => None
              end
          | _, _ => None
          end
      | _ => None
      end
  end.

Fixpoint uuid_out_from (i : nat) (nibbles : list N) : string :=
  match nibbles with
  | [] => ""
  | v :: rest =>
      let tail := String (hex_digit v) (uuid_out_from (S i) rest) in
      if ((i =? 8) || (i =? 12) || (i =? 16) || (i =? 20))%nat
      then String "-"%char tail else tail
  end.

Definition uuid_out (nibbles : list N) : string := uuid_out_from 0 nibbles.

(** [$1::uuid]: the stored text of the uuid that [s] denotes, [None] when
    PostgreSQL answers "invalid input syntax for type uuid". *)
Definition uuid_in (s : string) : option string :=
  let '(braces, src) :=
    match s with
    | String "{"%char r => (true, r)
    | _ => (false, s)
    end in
  match read_uuid_bytes 16 0 src with
  | Some (nibbles, tail) =>
      if decide (tail = if braces : bool then "}" else "")
      then Some (uuid_out nibbles) else None
  | None => None
  end.

Arguments uuid_in : simpl never.

(** The range of an [INT] column or parameter. *)
Definition int4 (n : Z) : Prop := -2147483648 ≤ n ≤ 2147483647.

#[global] Instance int4_dec n : Decision (int4 n).
Proof. unfold int4. apply _. Defined.

(** The half-bytes of [n], most significant first. *)
Fixpoint nibbles_of (count : nat) (n : N) (acc : list N) : list N :=
  match count with
  | O => acc
  | S count' => nibbles_of count' (n / 16)%N ((n mod 16)%N :: acc)
  end.

Definition uuid_of_N (n : N) : string := uuid_out (nibbles_of 32 n []).
Arguments uuid_of_N : simpl never.

(** [uuid_generate_v4()] for the ids that come back to the worker as path
    parameters (cart items, orders): a fresh uuid per call, in the text
    PostgreSQL returns it in. *)
Definition uuid_generate_v4 : M string := λ db,
  (set_uuid_counter N.succ db, Ok (uuid_of_N (uuid_counter db))).

(** ** Requests and replies *)

(** What the [optionalAuth] middleware and the request headers leave in the
    Hono context: the verified user id, if any, and the X-Cart-Token header. *)
Record ctx := {
  ctx_userId : option string;
  ctx_cart_token : option string }.

(** [c.json(body, status, headers)] *)
Record reply (A : Type) := {
  re_status : Z;
  re_headers : list (string * string);
  re_body : A }.
Arguments re_status {A} _.
Arguments re_headers {A} _.
Arguments re_body {A} _.

Definition json {A} (body : A) : reply A :=
  {| re_status := 200; re_headers := []; re_body := body |}.

(** [app.onError]: what the client sees of a thrown exception. *)
Definition onError (e : exn) : Z * string :=
  match e with
  | HTTPException status message => (status, message)
  | _ => (500, "Internal server error")
  end.

(** ** CART routes *)

(** A nullable [user_id] column that REFERENCES users(id): NULL, or the id of
    a row of users. *)
Definition user_known (db : Db) (user_id : option string) : Prop :=
  match user_id with
  | Some u => is_Some (users db !! u)
  | None => True
  end.

#[global] Instance user_known_dec db user_id : Decision (user_known db user_id).
Proof. destruct user_id; simpl; apply _. Defined.

(** [INSERT INTO carts (user_id | session_token) VALUES (..) RETURNING *];
    [user_id] references [users(id)]. *)
Definition insert_cart (user_id session_token : option string) : M cart :=
  db ← gets id;
  if decide (user_known db user_id) then
    id ← gen_uuid;
    let row := {| cart_id := id; cart_user_id := user_id;
                  cart_session_token := session_token;
                  cart_stripe_session_id := None |} in
    modify (set_carts (λ l, l ++ [row]));;
    mret row
  else throw (DbError "insert on carts violates foreign key constraint carts_user_id_fkey").

Definition resolveCart (c : ctx) (create : bool) : M (option cart) :=
  match truthy (ctx_userId c) with
  | Some userId =>
      (* SELECT * FROM carts WHERE user_id = $1 ORDER BY created_at DESC LIMIT 1 *)
      cartRow ← gets (λ db, last (filter (λ r, cart_user_id r = Some userId) (carts db)));
      match cartRow with
      | None => if create then r ← insert_cart (Some userId) None; mret (Some r)
                else mret None
      | Some r => mret (Some r)
      end
  | None =>
      match truthy (ctx_cart_token c) with
      | Some sessionToken =>
          (* SELECT * FROM carts WHERE session_token = $1 *)
          cartRow ← gets (λ db,
            head (filter (λ r, cart_session_token r = Some sessionToken) (carts db)));
          match cartRow with
          | None => if create then r ← insert_cart None (Some sessionToken); mret (Some r)
                    else mret None
          | Some r => mret (Some r)
          end
      | None =>
          if create then
            token ← gen_uuid;
            r ← insert_cart None (Some token);
            mret (Some r)
          else mret None
      end
  end.

(** A row of the join in [getCartWithItems]. *)
Record cart_line := {
  cl_item : cart_item;
  cl_product_name : string;
  cl_product_slug : string;
  cl_image : option string;
  cl_variant_name : option string }.

Record cart_snapshot := {
  items : list cart_line;
  subtotal : Z;
  item_count : Z }.

(** [JOIN products p ON p.id = ci.product_id LEFT JOIN variants v ON v.id = ci.variant_id] *)
Definition join_line (db : Db) (ci : cart_item) : option cart_line :=
  match products db !! ci_product_id ci with
  | Some p =>
      Some {| cl_item := ci;
              cl_product_name := p_name p;
              cl_product_slug := p_slug p;
              cl_image := p_image p;
              cl_variant_name :=
                match ci_variant_id ci with
                | Some v => v_name <$> variants db !! v
                | None => None
                end |}
  | None => None
  end.

Definition getCartWithItems (cartId : string) : M cart_snapshot :=
  its ← gets (λ db,
    omap (join_line db) (filter (λ ci, ci_cart_id ci = cartId) (cart_items db)));
  let subtotal :=
    foldl (λ s i, s + ci_price_cents (cl_item i) * ci_quantity (cl_item i)) 0 its in
  mret {| items := its; subtotal := subtotal;
          item_count := foldl (λ s i, s + ci_quantity (cl_item i)) 0 its |}.

Definition empty_snapshot : cart_snapshot :=
  {| items := []; subtotal := 0; item_count := 0 |}.

(** [{ cart_id, session_token, items, subtotal, item_count }]; the two
    identifiers are absent from the reply for a request without a cart. *)
Record cart_reply := {
  cr_cart_id : option string;
  cr_session_token : option string;
  cr_data : cart_snapshot }.

(** GET /cart *)
Definition get_cart (c : ctx) : M (reply cart_reply) :=
  cartRow ← resolveCart c false;
  match cartRow with
  | None =>
      mret (json {| cr_cart_id := None; cr_session_token := None;
                    cr_data := empty_snapshot |})
  | Some cartRow =>
      data ← getCartWithItems (cart_id cartRow);
      mret (json {| cr_cart_id := Some (cart_id cartRow);
                    cr_session_token := cart_session_token cartRow;
                    cr_data := data |})
  end.

(** A row that the arbiter constraint [UNIQUE(cart_id, product_id, variant_id)]
    sees as conflicting with a proposed row.  PostgreSQL's unique constraints
    treat NULLs as distinct (the schema does not say NULLS NOT DISTINCT), so a
    proposed row whose [variant_id] is NULL conflicts with no row. *)
Definition conflicts (cartId productId : string) (variantId : option string)
    (ci : cart_item) : Prop :=
  ci_cart_id ci = cartId ∧ ci_product_id ci = productId ∧
  is_Some variantId ∧ ci_variant_id ci = variantId.

#[global] Instance conflicts_dec cartId productId variantId ci :
  Decision (conflicts cartId productId variantId ci).
Proof. unfold conflicts. apply _. Defined.

Definition bump_quantity (quantity : Z) (ci : cart_item) : cart_item :=
  {| ci_id := ci_id ci; ci_cart_id := ci_cart_id ci;
     ci_product_id := ci_product_id ci; ci_variant_id := ci_variant_id ci;
     ci_quantity := ci_quantity ci + quantity;
     ci_price_cents := ci_price_cents ci |}.

(** [INSERT INTO cart_items (cart_id, product_id, [variant_id,] quantity, price_cents)
     VALUES (..) ON CONFLICT (cart_id, product_id, variant_id)
     DO UPDATE SET quantity = cart_items.quantity + $q RETURNING *]

    [CHECK (quantity > 0)] is evaluated on the proposed row before the
    conflict is looked for.  The row's foreign keys hold at the call site:
    the handler has read the product and the variant and resolved the cart. *)
Definition upsert_cart_item (cartId productId : string) (variantId : option string)
    (quantity price_cents : Z) : M cart_item :=
  if decide (quantity ≤ 0) then
    throw (DbError "new row for relation cart_items violates check constraint cart_items_quantity_check")
  else
    hit ← gets (λ db, head (filter (conflicts cartId productId variantId) (cart_items db)));
    match hit with
    | Some old =>
        modify (set_cart_items (fmap (λ ci,
          if decide (conflicts cartId productId variantId ci)
          then bump_quantity quantity ci else ci)));;
        mret (bump_quantity quantity old)
    | None =>
        id ← uuid_generate_v4;
        let row := {| ci_id := id; ci_cart_id := cartId; ci_product_id := productId;
                      ci_variant_id := variantId; ci_quantity := quantity;
                      ci_price_cents := price_cents |} in
        modify (set_cart_items (λ l, l ++ [row]));;
        mret row
    end.

Record add_item_body := {
  body_product_id : option string;
  body_variant_id : option string;
  body_quantity : option Z }.

Record add_item_reply := {
  air_item : cart_item;
  air_data : cart_snapshot }.

(** POST /cart/items *)
Definition post_cart_items (c : ctx) (b : add_item_body) : M (reply add_item_reply) :=
  let quantity := default 1 (body_quantity b) in
  match truthy (body_product_id b) with
  | None => throw (HTTPException 400 "product_id required")
  | Some product_id =>
      (* SELECT id, price_cents FROM products WHERE id = $1 AND is_active = TRUE *)
      found ← gets (λ db, match products db !! product_id with
                           | Some p => if p_is_active p then Some p else None
                           | None => None
                           end);
      match found with
      | None => throw (HTTPException 404 "Product not found")
      | Some product =>
          price_cents ←
            match truthy (body_variant_id b) with
            | Some variant_id =>
                (* SELECT price_cents, stock_qty FROM variants WHERE id = $1 *)
                v ← gets (λ db, variants db !! variant_id);
                match v with
                | None => throw (HTTPException 404 "Variant not found")
                | Some variant =>
                    if decide (v_stock_qty variant < quantity)
                    then throw (HTTPException 400 "Insufficient stock")
                    else mret (default (p_price_cents product) (v_price_cents variant))
                end
            | None => mret (p_price_cents product)
            end;
          cartRow ← resolveCart c true;
          match cartRow with
          | None => throw (DbError "Cannot read properties of undefined (reading 'id')")
          | Some cartRow =>
              item ←
                match truthy (body_variant_id b) with
                | Some variant_id =>
                    upsert_cart_item (cart_id cartRow) product_id (Some variant_id)
                      quantity price_cents
                | None =>
                    upsert_cart_item (cart_id cartRow) product_id None
                      quantity price_cents
                end;
              data ← getCartWithItems (cart_id cartRow);
              mret {| re_status := 201;
                      re_headers :=
                        match truthy (cart_session_token cartRow) with
                        | Some t => [("X-Cart-Token", t)]
                        | None => []
                        end;
                      re_body := {| air_item := item; air_data := data |} |}
          end
      end
  end.

Definition set_quantity (quantity : Z) (ci : cart_item) : cart_item :=
  {| ci_id := ci_id ci; ci_cart_id := ci_cart_id ci;
     ci_product_id := ci_product_id ci; ci_variant_id := ci_variant_id ci;
     ci_quantity := quantity;
     ci_price_cents := ci_price_cents ci |}.

(** PATCH /cart/items/:itemId, from the point where PostgreSQL has bound the
    parameters of the UPDATE: [itemId] is the uuid the path parameter
    denotes and [quantity] a number an INT column takes.  The route as it is
    called, with the parameter as text, is [patch_cart_items_itemId]. *)
Definition patch_cart_item (c : ctx) (itemId : string) (quantity : Z)
    : M (reply cart_snapshot) :=
  if decide (quantity < 1) then throw (HTTPException 400 "quantity must be ≥ 1")
  else
    cartRow ← resolveCart c false;
    match cartRow with
    | None => throw (HTTPException 404 "Cart not found")
    | Some cartRow =>
        (* UPDATE cart_items SET quantity = $1 WHERE id = $2 AND cart_id = $3 *)
        modify (set_cart_items (fmap (λ ci,
          if decide (ci_id ci = itemId ∧ ci_cart_id ci = cart_id cartRow)
          then set_quantity quantity ci else ci)));;
        data ← getCartWithItems (cart_id cartRow);
        mret (json data)
    end.

(** DELETE /cart/items/:itemId, from the point where PostgreSQL has bound
    the parameters of the DELETE: [itemId] is the uuid the path parameter
    denotes.  The route as it is called, with the parameter as text, is
    [delete_cart_items_itemId]. *)
Definition delete_cart_item (c : ctx) (itemId : string) : M (reply cart_snapshot) :=
  cartRow ← resolveCart c false;
  match cartRow with
  | None => throw (HTTPException 404 "Cart not found")
  | Some cartRow =>
      (* DELETE FROM cart_items WHERE id = $1 AND cart_id = $2 *)
      modify (set_cart_items
        (filter (λ ci, ¬ (ci_id ci = itemId ∧ ci_cart_id ci = cart_id cartRow))));;
      data ← getCartWithItems (cart_id cartRow);
      mret (json data)
  end.

(** ** The Stripe client

    The payment processor is an external collaborator: the three calls the
    worker makes are the fields of the client it is handed. *)

Record session_line := {
  sl_unit_amount : Z;
  sl_name : string;
  sl_images : list string;
  sl_product_id : string;
  sl_variant_id : string;
  sl_quantity : Z }.

Record session_params := {
  sp_line_items : list session_line;
  sp_customer : option string;
  sp_customer_creation : option string;
  sp_cart_id : string;
  sp_user_id : string;
  sp_success_url : string;
  sp_cancel_url : string }.

Record session_created := {
  sc_id : string;
  sc_url : option string }.

Record Stripe := {
  (* stripe.webhooks.constructEventAsync(body, sig, secret): throws on a bad signature *)
  constructEventAsync : string → string → string → result event;
  (* stripe.checkout.sessions.retrieve(id, {expand}): line_items?.data *)
  sessions_retrieve : string → result (option (list line_item));
  (* stripe.checkout.sessions.create(params) *)
  sessions_create : session_params → result session_created }.

(** ** CHECKOUT routes *)

Definition freeze_line (item : cart_line) : session_line :=
  {| sl_unit_amount := ci_price_cents (cl_item item);
     sl_name := cl_product_name item +:+
                match truthy (cl_variant_name item) with
                | Some n => " — " +:+ n
                | None => ""
                end;
     sl_images := match truthy (cl_image item) with Some i => [i] | None => [] end;
     sl_product_id := ci_product_id (cl_item item);
     sl_variant_id := default "" (ci_variant_id (cl_item item));
     sl_quantity := ci_quantity (cl_item item) |}.

Definition set_stripe_session_id (sid : option string) (r : cart) : cart :=
  {| cart_id := cart_id r; cart_user_id := cart_user_id r;
     cart_session_token := cart_session_token r;
     cart_stripe_session_id := sid |}.

(** POST /checkout/session *)
Definition post_checkout_session (stripe : Stripe) (c : ctx)
    (success_url cancel_url : string) : M (reply session_created) :=
  cartRow ← resolveCart c false;
  match cartRow with
  | None => throw (HTTPException 400 "Cart is empty")
  | Some cartRow =>
      data ← getCartWithItems (cart_id cartRow);
      match items data with
      | [] => throw (HTTPException 400 "Cart is empty")
      | _ :: _ =>
          let lineItems := freeze_line <$> items data in
          customer ←
            match truthy (ctx_userId c) with
            | Some userId =>
                (* SELECT stripe_customer_id FROM users WHERE id = $1 *)
                gets (λ db, match users db !! userId with
                            | Some u => truthy (u_stripe_customer_id u)
                            | None => None
                            end)
            | None => mret None
            end;
          session ← lift_result (sessions_create stripe
            {| sp_line_items := lineItems;
               sp_customer := customer;
               sp_customer_creation :=
                 match customer with Some _ => None | None => Some "always" end;
               sp_cart_id := cart_id cartRow;
               sp_user_id := default "anonymous" (ctx_userId c);
               sp_success_url := success_url +:+ "?session_id={CHECKOUT_SESSION_ID}";
               sp_cancel_url := cancel_url |});
          (* UPDATE carts SET stripe_session_id = $1 WHERE id = $2 *)
          modify (set_carts (fmap (λ r,
            if decide (cart_id r = cart_id cartRow)
            then set_stripe_session_id (Some (sc_id session)) r else r)));;
          mret (json session)
      end
  end.

(** ** STRIPE WEBHOOK *)

Definition upper_ascii (a : ascii) : ascii :=
  let n := nat_of_ascii a in
  if (Nat.leb 97 n && Nat.leb n 122)%bool then ascii_of_nat (n - 32) else a.

Fixpoint toUpperCase (s : string) : string :=
  match s with
  | EmptyString => EmptyString
  | String a s' => String (upper_ascii a) (toUpperCase s')
  end.

(** The row that [INSERT INTO orders (..) VALUES (..)] writes for a completed
    checkout session. *)
Definition order_row (oid : string) (userId : option string)
    (session : stripe_object) : order :=
  {| o_id := oid; o_user_id := userId; o_status := paid;
     o_stripe_session_id := Some (obj_id session);
     o_stripe_payment_intent_id := obj_payment_intent session;
     o_subtotal_cents := default 0 (obj_amount_subtotal session);
     o_total_cents := default 0 (obj_amount_total session);
     o_currency := default "USD" (toUpperCase <$> obj_currency session);
     o_customer_email := default "" (obj_customer_email session);
     o_customer_name := obj_customer_name session;
     o_shipping_address := default "{}" (obj_shipping_address session) |}.

(** [INSERT INTO orders (..) VALUES (..) RETURNING id]: [stripe_session_id]
    and [stripe_payment_intent_id] are UNIQUE, [user_id] references users. *)
Definition insert_order (userId : option string) (session : stripe_object) : M order :=
  db ← gets id;
  if decide (¬ user_known db userId) then
    throw (DbError "insert on orders violates foreign key constraint orders_user_id_fkey")
  else if decide (Exists (λ o, o_stripe_session_id o = Some (obj_id session)) (orders db)) then
    throw (DbError "duplicate key value violates unique constraint orders_stripe_session_id_key")
  else if decide (is_Some (obj_payment_intent session) ∧
                  Exists (λ o, o_stripe_payment_intent_id o = obj_payment_intent session)
                         (orders db)) then
    throw (DbError "duplicate key value violates unique constraint orders_stripe_payment_intent_id_key")
  else
    oid ← uuid_generate_v4;
    modify (set_orders (λ l, l ++ [order_row oid userId session]));;
    mret (order_row oid userId session).

(** [INSERT INTO order_items (..) VALUES (..)]: [product_id] is NOT NULL and
    references products. *)
Definition insert_order_item (orderId : string) (li : line_item) : M unit :=
  match li_product_id li with
  | None =>
      throw (DbError "null value in column product_id of relation order_items violates not-null constraint")
  | Some pid =>
      known ← gets (λ db, bool_decide (is_Some (products db !! pid)));
      if known : bool then
        iid ← gen_uuid;
        modify (set_order_items (λ l, l ++ [
          {| oi_id := iid; oi_order_id := orderId; oi_product_id := pid;
             oi_product_name := default "" (li_description li);
             oi_quantity := default 1 (li_quantity li);
             oi_unit_price_cents := default 0 (li_unit_amount li);
             oi_total_cents := default 0 (li_unit_amount li) * default 1 (li_quantity li) |}]))
      else
        throw (DbError "insert on order_items violates foreign key constraint order_items_product_id_fkey")
  end.

Definition set_stock_qty (q : Z) (v : variant) : variant :=
  {| v_product_id := v_product_id v; v_name := v_name v;
     v_price_cents := v_price_cents v; v_stock_qty := q |}.

(** [UPDATE variants SET stock_qty = GREATEST(0, stock_qty - $q) WHERE id = $id] *)
Definition decrement_stock (variantId : string) (q : Z) : M unit :=
  modify (set_variants
    (alter (λ v, set_stock_qty (Z.max 0 (v_stock_qty v - q)) v) variantId)).

(** The body of [for (const li of lineItems)]. *)
Definition settle_line_item (orderId : string) (li : line_item) : M unit :=
  insert_order_item orderId li;;
  match truthy (li_variant_id li) with
  | Some vid => decrement_stock vid (default 1 (li_quantity li))
  | None => mret tt
  end.

Fixpoint settle_line_items (orderId : string) (lineItems : list line_item) : M unit :=
  match lineItems with
  | [] => mret tt
  | li :: rest => settle_line_item orderId li;; settle_line_items orderId rest
  end.

(** [UPDATE users SET stripe_customer_id = $1 WHERE id = $2];
    [stripe_customer_id] is UNIQUE. *)
Definition update_user_customer (userId customer : string) : M unit :=
  db ← gets id;
  if decide (is_Some (users db !! userId) ∧
             map_Exists (λ k u, k ≠ userId ∧ u_stripe_customer_id u = Some customer)
                        (users db)) then
    throw (DbError "duplicate key value violates unique constraint users_stripe_customer_id_key")
  else
    modify (set_users (alter (λ u,
      {| u_email := u_email u; u_stripe_customer_id := Some customer |}) userId)).

Definition set_status (s : order_status) (o : order) : order :=
  {| o_id := o_id o; o_user_id := o_user_id o; o_status := s;
     o_stripe_session_id := o_stripe_session_id o;
     o_stripe_payment_intent_id := o_stripe_payment_intent_id o;
     o_subtotal_cents := o_subtotal_cents o; o_total_cents := o_total_cents o;
     o_currency := o_currency o; o_customer_email := o_customer_email o;
     o_customer_name := o_customer_name o;
     o_shipping_address := o_shipping_address o |}.

(** [UPDATE orders SET status = $s WHERE stripe_payment_intent_id = $pi];
    a NULL parameter matches no row. *)
Definition update_order_status (pi : option string) (s : order_status) : M unit :=
  modify (set_orders (fmap (λ o,
    if decide (is_Some pi ∧ o_stripe_payment_intent_id o = pi)
    then set_status s o else o))).

(** [session.metadata?.user_id !== 'anonymous' ? session.metadata?.user_id : null] *)
Definition session_userId (session : stripe_object) : option string :=
  if decide (obj_metadata_user_id session ≠ Some "anonymous")
  then obj_metadata_user_id session else None.

Definition processStripeEvent (stripe : Stripe) (event : event) : M unit :=
  if decide (ev_type event = "checkout.session.completed") then
    let session := ev_object event in
    let cartId := obj_metadata_cart_id session in
    let userId := session_userId session in
    match truthy cartId with
    | None => mret tt
    | Some cartId =>
        fullSession ← lift_result (sessions_retrieve stripe (obj_id session));
        let lineItems := default [] fullSession in
        order ← insert_order userId session;
        settle_line_items (o_id order) lineItems;;
        match truthy userId, truthy (obj_customer session) with
        | Some u, Some customer => update_user_customer u customer
        | _, _ => mret tt
        end;;
        (* DELETE FROM cart_items WHERE cart_id = $1 *)
        modify (set_cart_items (filter (λ ci, ci_cart_id ci ≠ cartId)))
    end
  else if decide (ev_type event = "payment_intent.payment_failed") then
    update_order_status (Some (obj_id (ev_object event))) pending
  else if decide (ev_type event = "charge.refunded") then
    update_order_status (obj_payment_intent (ev_object event)) refunded
  else mret tt.

(** [INSERT INTO stripe_webhook_events (id, type, payload) VALUES (..)].
    The payload is the event as Stripe signed it, and [JSON.stringify] of it
    is taken to be text that the JSONB column accepts; the insert is refused
    on the primary key only. *)
Definition insert_webhook_event (event : event) : M unit :=
  seen ← gets (λ db, stripe_webhook_events db !! ev_id event);
  match seen with
  | Some _ =>
      throw (DbError "duplicate key value violates unique constraint stripe_webhook_events_pkey")
  | None =>
      modify (set_events (insert (ev_id event)
        {| we_type := ev_type event; we_payload := event; we_error := None |}))
  end.

(** [INSERT INTO stripe_webhook_events (id, type, payload, error) VALUES (..)
     ON CONFLICT (id) DO UPDATE SET error = $msg], for a payload that the
    JSONB column accepts, as in [insert_webhook_event]: the statement then
    always goes through, as an insert or as the update of the row of an
    overlapping delivery. *)
Definition upsert_webhook_event_error (event : event) (message : string) : M unit :=
  modify (set_events (λ m,
    match m !! ev_id event with
    | Some row =>
        <[ev_id event := {| we_type := we_type row; we_payload := we_payload row;
                            we_error := Some message |}]> m
    | None =>
        <[ev_id event := {| we_type := ev_type event; we_payload := event;
                            we_error := Some message |}]> m
    end)).

(** [{ received: true }] and [{ received: true, duplicate: true }] *)
Record webhook_ack := {
  received : bool;
  duplicate : bool }.

(** POST /webhooks/stripe *)
Definition post_webhooks_stripe (stripe : Stripe) (webhook_secret body sig : string)
    : M (reply webhook_ack) :=
  event ← try_catch
    (lift_result (constructEventAsync stripe body sig webhook_secret))
    (λ err, throw (HTTPException 400 ("Webhook error: " +:+ exn_message err)));
  (* SELECT id FROM stripe_webhook_events WHERE id = $1 *)
  existing ← gets (λ db, stripe_webhook_events db !! ev_id event);
  match existing with
  | Some _ => mret (json {| received := true; duplicate := true |})
  | None =>
      try_catch
        (processStripeEvent stripe event;;
         insert_webhook_event event)
        (λ err,
           upsert_webhook_event_error event (exn_message err);;
           throw (HTTPException 500 "Webhook processing failed"));;
      mret (json {| received := true; duplicate := false |})
  end.

(** ** Admin: PATCH /admin/variants/:id/stock (behind the admin middleware)

    The two UPDATE statements on values PostgreSQL has bound and can store:
    [variantId] is the uuid the path parameter denotes, the numbers and the
    sum are in the range of INT.  The route as it is called is
    [patch_admin_variants_id_stock]. *)

Definition admin_patch_variant_stock (variantId : string)
    (stock_qty adjustment : option Z) : M (reply (string * variant)) :=
  updated ←
    match stock_qty, adjustment with
    | Some q, _ =>
        (* UPDATE variants SET stock_qty = $1 WHERE id = $2 RETURNING ..;
           CHECK (stock_qty >= 0) *)
        old ← gets (λ db, variants db !! variantId);
        match old with
        | Some v =>
            if decide (q < 0) then
              throw (DbError "new row for relation variants violates check constraint variants_stock_qty_check")
            else
              modify (set_variants (insert variantId (set_stock_qty q v)));;
              mret (Some (set_stock_qty q v))
        | None => mret None
        end
    | None, Some a =>
        (* UPDATE variants SET stock_qty = GREATEST(0, stock_qty + $1) WHERE id = $2 *)
        modify (set_variants
          (alter (λ v, set_stock_qty (Z.max 0 (v_stock_qty v + a)) v) variantId));;
        gets (λ db, variants db !! variantId)
    | None, None =>
        throw (HTTPException 400 "Provide stock_qty (absolute) or adjustment (relative)")
    end;
  match updated with
  | None => throw (HTTPException 404 "Variant not found")
  | Some v => mret (json (variantId, v))
  end.

(** ** Sequences of requests

    Requests served one after the other, each handled to its reply before
    the next one starts; an exception ends the request it was thrown in, not
    the ones that follow. *)

(** Deliveries of webhook requests, each given as (body, signature), none
    overlapping another. *)
Fixpoint deliver_all (stripe : Stripe) (webhook_secret : string)
    (reqs : list (string * string)) (db : Db)
    : Db * list (result (reply webhook_ack)) :=
  match reqs with
  | [] => (db, [])
  | (body, sig) :: rest =>
      let '(db1, r) := post_webhooks_stripe stripe webhook_secret body sig db in
      let '(db2, rs) := deliver_all stripe webhook_secret rest db1 in
      (db2, r :: rs)
  end.

(** The two requests that lower a stock counter. *)
Inductive stock_request :=
  | WebhookDelivery (body sig : string)
  | AdminAdjustment (variantId : string) (adjustment : Z).

Definition serve_stock_request (stripe : Stripe) (webhook_secret : string)
    (db : Db) (r : stock_request) : Db :=
  match r with
  | WebhookDelivery body sig =>
      (post_webhooks_stripe stripe webhook_secret body sig db).1
  | AdminAdjustment variantId adjustment =>
      (admin_patch_variant_stock variantId None (Some adjustment) db).1
  end.

(** Successive POST /cart/items requests of one client, the catalog being
    edited arbitrarily (by the admin routes) before each of them; [None] as
    soon as one of the requests fails. *)
Definition set_catalog (ps : gmap string product) (vs : gmap string variant)
    (db : Db) : Db :=
  {| users := users db; products := ps; variants := vs;
     carts := carts db; cart_items := cart_items db; orders := orders db;
     order_items := order_items db;
     stripe_webhook_events := stripe_webhook_events db;
     uuid_counter := uuid_counter db |}.

Fixpoint add_items (c : ctx) (product_id variant_id : option string)
    (steps : list (gmap string product * gmap string variant * Z)) (db : Db)
    : option Db :=
  match steps with
  | [] => Some db
  | (ps, vs, q) :: rest =>
      match post_cart_items c
              {| body_product_id := product_id; body_variant_id := variant_id;
                 body_quantity := Some q |} (set_catalog ps vs db) with
      | (db1, Ok _) => add_items c product_id variant_id rest db1
      | (_, Throw _) => None
      end
  end.

(** The rows of one (cart, product, variant) line, the variant possibly
    absent. *)
Definition line_rows (cartId productId : string) (variantId : option string)
    (db : Db) : list cart_item :=
  filter (λ ci, ci_cart_id ci = cartId ∧ ci_product_id ci = productId ∧
                ci_variant_id ci = variantId) (cart_items db).

(** The variants table after one decrement per line item that carries a
    variant reference. *)
Definition settled_stock (lineItems : list line_item)
    (vs : gmap string variant) : gmap string variant :=
  foldl (λ m li,
    match truthy (li_variant_id li) with
    | Some vid =>
        alter (λ v, set_stock_qty (Z.max 0 (v_stock_qty v - default 1 (li_quantity li))) v)
              vid m
    | None => m
    end) vs lineItems.

Definition stock_nonneg (db : Db) : Prop :=
  map_Forall (λ _ v, 0 ≤ v_stock_qty v) (variants db).

(** A property of the database that a handler step keeps, whether the step
    returns or throws. *)
Definition stable {A} (P : Db → Prop) (m : M A) : Prop :=
  ∀ db, P db → P (m db).1.

(** The ledger rows and the replies of the intake. *)
Definition recorded_success (ev : event) : webhook_event :=
  {| we_type := ev_type ev; we_payload := ev; we_error := None |}.

Definition recorded_failure (ev : event) (message : string) : webhook_event :=
  {| we_type := ev_type ev; we_payload := ev; we_error := Some message |}.

Definition ack_processed : result (reply webhook_ack) :=
  Ok (json {| received := true; duplicate := false |}).

Definition ack_duplicate : result (reply webhook_ack) :=
  Ok (json {| received := true; duplicate := true |}).

Definition processing_failed : result (reply webhook_ack) :=
  Throw (HTTPException 500 "Webhook processing failed").

(** An order item that denormalizes a frozen line item for an order. *)
Definition settles (orderId : string) (oi : order_item) (li : line_item) : Prop :=
  oi_order_id oi = orderId ∧
  li_product_id li = Some (oi_product_id oi) ∧
  oi_product_name oi = default "" (li_description li) ∧
  oi_quantity oi = default 1 (li_quantity li) ∧
  oi_unit_price_cents oi = default 0 (li_unit_amount li) ∧
  oi_total_cents oi = default 0 (li_unit_amount li) * default 1 (li_quantity li).

(** Two databases that differ at most in their order items, their stock
    counters and the UUID source: what the loop over the line items writes. *)
Definition same_but_settlement (db db1 : Db) : Prop :=
  users db1 = users db ∧ products db1 = products db ∧ carts db1 = carts db ∧
  cart_items db1 = cart_items db ∧ orders db1 = orders db ∧
  stripe_webhook_events db1 = stripe_webhook_events db.

(** A redelivery of the event [id]: a request whose signature verifies and
    whose payload carries that event identifier. *)
Definition redelivers (stripe : Stripe) (webhook_secret id : string)
    (req : string * string) : Prop :=
  ∃ ev, constructEventAsync stripe req.1 req.2 webhook_secret = Ok ev ∧ ev_id ev = id.

(** ** Sample data

    A shop with product A at 1000 and product B at 2500 whose variant "v1"
    has five pieces in stock; an anonymous cart holding A x 2 and B/v1 x 1. *)

Definition sample_products : gmap string product :=
  <["p1" := {| p_slug := "a"; p_name := "A"; p_price_cents := 1000;
               p_image := None; p_is_active := true |}]>
  (<["p2" := {| p_slug := "b"; p_name := "B"; p_price_cents := 2500;
                p_image := None; p_is_active := true |}]> ∅).

Definition sample_variants : gmap string variant :=
  <["v1" := {| v_product_id := "p2"; v_name := "Large"; v_price_cents := None;
               v_stock_qty := 5 |}]> ∅.

Definition sample_cart : cart :=
  {| cart_id := "c1"; cart_user_id := None; cart_session_token := Some "tok";
     cart_stripe_session_id := None |}.

Definition sample_cart_items : list cart_item :=
  [ {| ci_id := "i1"; ci_cart_id := "c1"; ci_product_id := "p1";
       ci_variant_id := None; ci_quantity := 2; ci_price_cents := 1000 |};
    {| ci_id := "i2"; ci_cart_id := "c1"; ci_product_id := "p2";
       ci_variant_id := Some "v1"; ci_quantity := 1; ci_price_cents := 2500 |} ].

Definition sample_db : Db :=
  {| users := ∅; products := sample_products; variants := sample_variants;
     carts := [sample_cart]; cart_items := sample_cart_items;
     orders := []; order_items := []; stripe_webhook_events := ∅;
     uuid_counter := 0 |}.

(** The same shop before anyone has put anything in a cart. *)
Definition empty_shop : Db :=
  {| users := ∅; products := sample_products; variants := sample_variants;
     carts := []; cart_items := []; orders := []; order_items := [];
     stripe_webhook_events := ∅; uuid_counter := 0 |}.

Definition sample_ctx : ctx :=
  {| ctx_userId := None; ctx_cart_token := Some "tok" |}.

Definition sample_session (sid : string) : stripe_object :=
  {| obj_id := sid; obj_metadata_cart_id := Some "c1";
     obj_metadata_user_id := Some "anonymous";
     obj_payment_intent := Some ("pi_" +:+ sid);
     obj_amount_subtotal := Some 4500; obj_amount_total := Some 4500;
     obj_currency := Some "usd"; obj_customer_email := Some "shopper@example.com";
     obj_customer_name := None; obj_shipping_address := None;
     obj_customer := Some "cus_1" |}.

(** A completed checkout of the sample cart. *)
Definition sample_event : event :=
  {| ev_id := "evt_1"; ev_type := "checkout.session.completed";
     ev_object := sample_session "cs_1" |}.

(** A completed checkout whose second line item has lost its product
    metadata. *)
Definition broken_event : event :=
  {| ev_id := "evt_2"; ev_type := "checkout.session.completed";
     ev_object := sample_session "cs_2" |}.

(** A refund of a payment that no order carries. *)
Definition refund_event : event :=
  {| ev_id := "evt_3"; ev_type := "charge.refunded";
     ev_object :=
       {| obj_id := "ch_1"; obj_metadata_cart_id := None;
          obj_metadata_user_id := None; obj_payment_intent := Some "pi_unknown";
          obj_amount_subtotal := None; obj_amount_total := None;
          obj_currency := None; obj_customer_email := None;
          obj_customer_name := None; obj_shipping_address := None;
          obj_customer := None |} |}.

(** A refund of the payment of the sample checkout. *)
Definition refund_paid_event : event :=
  {| ev_id := "evt_4"; ev_type := "charge.refunded";
     ev_object :=
       {| obj_id := "ch_2"; obj_metadata_cart_id := None;
          obj_metadata_user_id := None; obj_payment_intent := Some "pi_cs_1";
          obj_amount_subtotal := None; obj_amount_total := None;
          obj_currency := None; obj_customer_email := None;
          obj_customer_name := None; obj_shipping_address := None;
          obj_customer := None |} |}.

Definition sample_line_items : list line_item :=
  [ {| li_description := Some "A"; li_quantity := Some 2;
       li_unit_amount := Some 1000; li_product_id := Some "p1";
       li_variant_id := Some "" |};
    {| li_description := Some "B — Large"; li_quantity := Some 1;
       li_unit_amount := Some 2500; li_product_id := Some "p2";
       li_variant_id := Some "v1" |} ].

Definition broken_line_items : list line_item :=
  [ {| li_description := Some "B — Large"; li_quantity := Some 1;
       li_unit_amount := Some 2500; li_product_id := Some "p2";
       li_variant_id := Some "v1" |};
    {| li_description := Some "A"; li_quantity := Some 2;
       li_unit_amount := Some 1000; li_product_id := None;
       li_variant_id := None |} ].

(** A Stripe client that accepts the signature "good" only; the request body
    names the event it carries. *)
Definition sample_stripe : Stripe :=
  {| constructEventAsync body sig secret :=
       if decide (sig = "good" ∧ secret = "whsec") then
         if decide (body = "evt_1") then Ok sample_event
         else if decide (body = "evt_2") then Ok broken_event
         else if decide (body = "evt_4") then Ok refund_paid_event
         else Ok refund_event
       else Throw (StripeError
         "No signatures found matching the expected signature for payload");
     sessions_retrieve sid :=
       if decide (sid = "cs_1") then Ok (Some sample_line_items)
       else if decide (sid = "cs_2") then Ok (Some broken_line_items)
       else Throw (StripeError "No such checkout.session");
     sessions_create params :=
       Ok {| sc_id := "cs_1";
             sc_url := Some "https://checkout.stripe.com/c/pay/cs_1" |} |}.


(** Two databases that differ at most in the carts table and the UUID
    source: what cart resolution writes. *)
Definition same_but_carts (db db1 : Db) : Prop :=
  users db1 = users db ∧ products db1 = products db ∧
  variants db1 = variants db ∧ cart_items db1 = cart_items db ∧
  orders db1 = orders db ∧ order_items db1 = order_items db ∧
  stripe_webhook_events db1 = stripe_webhook_events db.

(** The unit price a catalog gives a (product, variant) pair: the variant's
    price when it has one, the product's otherwise. *)
Definition unit_price (ps : gmap string product) (vs : gmap string variant)
    (productId variantId : string) : option Z :=
  match ps !! productId, vs !! variantId with
  | Some p, Some v => Some (default (p_price_cents p) (v_price_cents v))
  | _, _ => None
  end.

Definition total_quantity
    (steps : list (gmap string product * gmap string variant * Z)) : Z :=
  foldr (λ step s, step.2 + s) 0 steps.


(** ** ORDERS routes (behind [requireAuth], which supplies the user id) *)

(** [SELECT id, status, total_cents, currency, customer_email, created_at] *)
Record order_summary := {
  os_id : string;
  os_status : order_status;
  os_total_cents : Z;
  os_currency : string;
  os_customer_email : string }.

Definition summary (o : order) : order_summary :=
  {| os_id := o_id o; os_status := o_status o; os_total_cents := o_total_cents o;
     os_currency := o_currency o; os_customer_email := o_customer_email o |}.

(** GET /orders:
    [... FROM orders WHERE user_id = $1 ORDER BY created_at DESC LIMIT 50] *)
Definition get_orders (userId : string) : M (reply (list order_summary)) :=
  rows ← gets (λ db,
    take 50 (reverse (filter (λ o, o_user_id o = Some userId) (orders db))));
  mret (json (summary <$> rows)).

(** [{ ...order, items }] *)
Record order_detail := {
  od_order : order;
  od_items : list order_item }.

(** GET /orders/:id for an [orderId] that PostgreSQL has read as a uuid; the
    route with the path parameter as text is [get_orders_id]. *)
Definition get_order (userId orderId : string) : M (reply order_detail) :=
  (* SELECT * FROM orders WHERE id = $1 AND user_id = $2 *)
  found ← gets (λ db,
    head (filter (λ o, o_id o = orderId ∧ o_user_id o = Some userId) (orders db)));
  match found with
  | None => throw (HTTPException 404 "Order not found")
  | Some order =>
      (* SELECT * FROM order_items WHERE order_id = $1 *)
      its ← gets (λ db, filter (λ oi, oi_order_id oi = o_id order) (order_items db));
      mret (json {| od_order := order; od_items := its |})
  end.

(** * The routes on text parameters

    The path parameter of a route is text, and a number of the body is any
    number.  PostgreSQL reads them when the statement that uses them is
    bound, and refuses the statement when the text does not denote a uuid or
    the number is outside INT; the worker validates neither, so the refusal
    reaches [app.onError]. *)

(** PATCH /cart/items/:itemId *)
Definition patch_cart_items_itemId (c : ctx) (itemId : string) (quantity : Z)
    : M (reply cart_snapshot) :=
  if decide (quantity < 1) then throw (HTTPException 400 "quantity must be ≥ 1")
  else
    cartRow ← resolveCart c false;
    match cartRow with
    | None => throw (HTTPException 404 "Cart not found")
    | Some cartRow =>
        (* UPDATE cart_items SET quantity = $1 WHERE id = $2 AND cart_id = $3 *)
        if decide (int4 quantity) then
          match uuid_in itemId with
          | Some id =>
              modify (set_cart_items (fmap (λ ci,
                if decide (ci_id ci = id ∧ ci_cart_id ci = cart_id cartRow)
                then set_quantity quantity ci else ci)));;
              data ← getCartWithItems (cart_id cartRow);
              mret (json data)
          | None => throw (DbError "invalid input syntax for type uuid")
          end
        else throw (DbError "value out of range for type integer")
    end.

(** DELETE /cart/items/:itemId *)
Definition delete_cart_items_itemId (c : ctx) (itemId : string)
    : M (reply cart_snapshot) :=
  cartRow ← resolveCart c false;
  match cartRow with
  | None => throw (HTTPException 404 "Cart not found")
  | Some cartRow =>
      (* DELETE FROM cart_items WHERE id = $1 AND cart_id = $2 *)
      match uuid_in itemId with
      | Some id =>
          modify (set_cart_items
            (filter (λ ci, ¬ (ci_id ci = id ∧ ci_cart_id ci = cart_id cartRow))));;
          data ← getCartWithItems (cart_id cartRow);
          mret (json data)
      | None => throw (DbError "invalid input syntax for type uuid")
      end
  end.

(** GET /orders/:id; [userId] is the id that [requireAuth] read off the
    verified token, which the worker itself signed for a stored user. *)
Definition get_orders_id (userId orderId : string) : M (reply order_detail) :=
  (* SELECT * FROM orders WHERE id = $1 AND user_id = $2 *)
  match uuid_in orderId with
  | Some id =>
      found ← gets (λ db,
        head (filter (λ o, o_id o = id ∧ o_user_id o = Some userId) (orders db)));
      match found with
      | None => throw (HTTPException 404 "Order not found")
      | Some order =>
          (* SELECT * FROM order_items WHERE order_id = $1 *)
          its ← gets (λ db,
            filter (λ oi, oi_order_id oi = o_id order) (order_items db));
          mret (json {| od_order := order; od_items := its |})
      end
  | None => throw (DbError "invalid input syntax for type uuid")
  end.

(** PATCH /admin/variants/:id/stock *)
Definition patch_admin_variants_id_stock (variantId : string)
    (stock_qty adjustment : option Z) : M (reply (string * variant)) :=
  updated ←
    match stock_qty, adjustment with
    | Some q, _ =>
        (* UPDATE variants SET stock_qty = $1 WHERE id = $2 RETURNING ..;
           CHECK (stock_qty >= 0) *)
        if decide (int4 q) then
          match uuid_in variantId with
          | Some id =>
              old ← gets (λ db, variants db !! id);
              match old with
              | Some v =>
                  if decide (q < 0) then
                    throw (DbError "new row for relation variants violates check constraint variants_stock_qty_check")
                  else
                    modify (set_variants (insert id (set_stock_qty q v)));;
                    mret (Some (id, set_stock_qty q v))
              | None => mret None
              end
          | None => throw (DbError "invalid input syntax for type uuid")
          end
        else throw (DbError "value out of range for type integer")
    | None, Some a =>
        (* UPDATE variants SET stock_qty = GREATEST(0, stock_qty + $1) WHERE id = $2 *)
        if decide (int4 a) then
          match uuid_in variantId with
          | Some id =>
              old ← gets (λ db, variants db !! id);
              match old with
              | Some v =>
                  if decide (int4 (v_stock_qty v + a)) then
                    let v' := set_stock_qty (Z.max 0 (v_stock_qty v + a)) v in
                    modify (set_variants (insert id v'));;
                    mret (Some (id, v'))
                  else throw (DbError "integer out of range")
              | None => mret None
              end
          | None => throw (DbError "invalid input syntax for type uuid")
          end
        else throw (DbError "value out of range for type integer")
    | None, None =>
        throw (HTTPException 400 "Provide stock_qty (absolute) or adjustment (relative)")
    end;
  match updated with
  | None => throw (HTTPException 404 "Variant not found")
  | Some row => mret (json row)
  end.

(** ** Overlapping deliveries

    The intake is two awaits with nothing to hold other requests off between
    them (no transaction, no lock, the ledger row is written last): the
    dedup SELECT, and everything from the test of its result on. *)

Definition webhook_select (stripe : Stripe) (webhook_secret body sig : string)
    : M (event * option webhook_event) :=
  event ← try_catch
    (lift_result (constructEventAsync stripe body sig webhook_secret))
    (λ err, throw (HTTPException 400 ("Webhook error: " +:+ exn_message err)));
  (* SELECT id FROM stripe_webhook_events WHERE id = $1 *)
  existing ← gets (λ db, stripe_webhook_events db !! ev_id event);
  mret (event, existing).

Definition webhook_settle (stripe : Stripe) (event : event)
    (existing : option webhook_event) : M (reply webhook_ack) :=
  match existing with
  | Some _ => mret (json {| received := true; duplicate := true |})
  | None =>
      try_catch
        (processStripeEvent stripe event;;
         insert_webhook_event event)
        (λ err,
           upsert_webhook_event_error event (exn_message err);;
           throw (HTTPException 500 "Webhook processing failed"));;
      mret (json {| received := true; duplicate := false |})
  end.



(** A shop whose ids are uuid texts: product A, its variant with five pieces
    in stock, a guest cart holding two of it, and one paid order of a
    member. *)
Definition uuid_users : gmap string user :=
  <["00000000-0000-4000-8000-0000000000b1" :=
      {| u_email := "member@example.com"; u_stripe_customer_id := None |}]> ∅.

Definition uuid_products : gmap string product :=
  <["00000000-0000-4000-8000-0000000000a1" :=
      {| p_slug := "a"; p_name := "A"; p_price_cents := 1000;
         p_image := None; p_is_active := true |}]> ∅.

Definition uuid_variant : variant :=
  {| v_product_id := "00000000-0000-4000-8000-0000000000a1";
     v_name := "Large"; v_price_cents := None; v_stock_qty := 5 |}.

Definition uuid_variants : gmap string variant :=
  <["00000000-0000-4000-8000-0000000000a2" := uuid_variant]> ∅.

Definition uuid_cart : cart :=
  {| cart_id := "00000000-0000-4000-8000-0000000000c1";
     cart_user_id := None; cart_session_token := Some "tok";
     cart_stripe_session_id := None |}.

Definition uuid_shop : Db :=
  {| users := uuid_users; products := uuid_products; variants := uuid_variants;
     carts := [uuid_cart];
     cart_items := [{| ci_id := "00000000-0000-4000-8000-0000000000d1";
                       ci_cart_id := "00000000-0000-4000-8000-0000000000c1";
                       ci_product_id := "00000000-0000-4000-8000-0000000000a1";
                       ci_variant_id := Some "00000000-0000-4000-8000-0000000000a2";
                       ci_quantity := 2; ci_price_cents := 1000 |}];
     orders := [{| o_id := "00000000-0000-4000-8000-0000000000e1";
                   o_user_id := Some "00000000-0000-4000-8000-0000000000b1";
                   o_status := paid; o_stripe_session_id := Some "cs_9";
                   o_stripe_payment_intent_id := Some "pi_9";
                   o_subtotal_cents := 1000; o_total_cents := 1000;
                   o_currency := "USD";
                   o_customer_email := "member@example.com";
                   o_customer_name := None; o_shipping_address := "{}" |}];
     order_items := []; stripe_webhook_events := ∅; uuid_counter := 0 |}.

(** ** The worker as a whole

    The requests of the routes modelled here, as they are sent, and the
    database each of them leaves, whether it is answered or ends in an
    error. *)
Inductive request :=
  | GetCart (c : ctx)
  | AddItem (c : ctx) (b : add_item_body)
  | UpdateItem (c : ctx) (itemId : string) (quantity : Z)
  | RemoveItem (c : ctx) (itemId : string)
  | CreateSession (c : ctx) (success_url cancel_url : string)
  | GetOrders (userId : string)
  | GetOrder (userId orderId : string)
  | StripeWebhook (body sig : string)
  | AdminStock (variantId : string) (stock_qty adjustment : option Z).

Definition serve (stripe : Stripe) (webhook_secret : string)
    (db : Db) (r : request) : Db :=
  match r with
  | GetCart c => (get_cart c db).1
  | AddItem c b => (post_cart_items c b db).1
  | UpdateItem c itemId quantity =>
      (patch_cart_items_itemId c itemId quantity db).1
  | RemoveItem c itemId => (delete_cart_items_itemId c itemId db).1
  | CreateSession c su cu => (post_checkout_session stripe c su cu db).1
  | GetOrders userId => (get_orders userId db).1
  | GetOrder userId orderId => (get_orders_id userId orderId db).1
  | StripeWebhook body sig =>
      (post_webhooks_stripe stripe webhook_secret body sig db).1
  | AdminStock variantId stock_qty adjustment =>
      (patch_admin_variants_id_stock variantId stock_qty adjustment db).1
  end.

(** The same for a request whose path parameter and numbers PostgreSQL has
    read. *)
Definition serve_bound (stripe : Stripe) (webhook_secret : string)
    (db : Db) (r : request) : Db :=
  match r with
  | GetCart c => (get_cart c db).1
  | AddItem c b => (post_cart_items c b db).1
  | UpdateItem c itemId quantity => (patch_cart_item c itemId quantity db).1
  | RemoveItem c itemId => (delete_cart_item c itemId db).1
  | CreateSession c su cu => (post_checkout_session stripe c su cu db).1
  | GetOrders userId => (get_orders userId db).1
  | GetOrder userId orderId => (get_order userId orderId db).1
  | StripeWebhook body sig =>
      (post_webhooks_stripe stripe webhook_secret body sig db).1
  | AdminStock variantId stock_qty adjustment =>
      (admin_patch_variant_stock variantId stock_qty adjustment db).1
  end.

Definition serve_all (stripe : Stripe) (webhook_secret : string)
    (db : Db) (rs : list request) : Db :=
  foldl (serve stripe webhook_secret) db rs.

(** The schema's [CHECK (quantity > 0)] on cart_items. *)
Definition quantities_positive (db : Db) : Prop :=
  Forall (λ ci, 0 < ci_quantity ci) (cart_items db).

(** The schema's [UNIQUE] on orders.stripe_session_id (a NULL repeats
    freely). *)
Definition sessions_unique (db : Db) : Prop :=
  NoDup (omap o_stripe_session_id (orders db)).

(** A list of orders that comes from another by changing statuses and by
    appending orders: no order is dropped, reordered or rewritten in any
    other column. *)
Definition orders_evolve (l l' : list order) : Prop :=
  ∃ kept new, l' = kept ++ new ∧
    Forall2 (λ o o', ∃ s, o' = set_status s o) l kept.

(** A variants table that comes from another by changing stock counters
    only. *)
Definition stock_only (vs vs' : gmap string variant) : Prop :=
  ∀ k, match vs !! k, vs' !! k with
       | Some v, Some v' => v' = set_stock_qty (v_stock_qty v') v
       | None, None => True
       | _, _ => False
       end.

(** Two databases that differ at most in the carts, the cart items and the
    UUID source: what the cart routes write. *)
Definition same_outside_cart (db db1 : Db) : Prop :=
  users db1 = users db ∧ products db1 = products db ∧
  variants db1 = variants db ∧ orders db1 = orders db ∧
  order_items db1 = order_items db ∧
  stripe_webhook_events db1 = stripe_webhook_events db.

(** The sample shop after the sample checkout has been settled. *)
Definition paid_db : Db :=
  (post_webhooks_stripe sample_stripe "whsec" "evt_1" "good" sample_db).1.

(** A client that signs every payload and sends the one event [ev]. *)
Definition stripe_sending (ev : event) : Stripe :=
  {| constructEventAsync body sig secret := Ok ev;
     sessions_retrieve := sessions_retrieve sample_stripe;
     sessions_create := sessions_create sample_stripe |}.

(** The payment of the sample checkout reported as failed. *)
Definition payment_failed_event : event :=
  {| ev_id := "evt_5"; ev_type := "payment_intent.payment_failed";
     ev_object :=
       {| obj_id := "pi_cs_1"; obj_metadata_cart_id := None;
          obj_metadata_user_id := None; obj_payment_intent := None;
          obj_amount_subtotal := None; obj_amount_total := None;
          obj_currency := None; obj_customer_email := None;
          obj_customer_name := None; obj_shipping_address := None;
          obj_customer := None |} |}.

(** A second event, with an identifier of its own, for the sample checkout
    session. *)
Definition second_event : event :=
  {| ev_id := "evt_6"; ev_type := "checkout.session.completed";
     ev_object := sample_session "cs_1" |}.

(** A completed checkout session without the cart metadata. *)
Definition foreign_event : event :=
  {| ev_id := "evt_7"; ev_type := "checkout.session.completed";
     ev_object :=
       {| obj_id := "cs_7"; obj_metadata_cart_id := None;
          obj_metadata_user_id := None; obj_payment_intent := Some "pi_7";
          obj_amount_subtotal := Some 900; obj_amount_total := Some 900;
          obj_currency := Some "usd"; obj_customer_email := None;
          obj_customer_name := None; obj_shipping_address := None;
          obj_customer := None |} |}.




Definition sum_Z (qs : list Z) : Z := foldr Z.add 0 qs.

(** The carts a request has a claim to: the carts of the verified identity
    when there is one, the carts carrying the request's cart token
    otherwise. *)
Definition callers_cart (c : ctx) (r : cart) : Prop :=
  match truthy (ctx_userId c) with
  | Some userId => cart_user_id r = Some userId
  | None =>
      match truthy (ctx_cart_token c) with
      | Some sessionToken => cart_session_token r = Some sessionToken
      | None => False
      end
  end.

(** The sample shop with a second anonymous cart, holding three B/v1. *)
Definition other_cart : cart :=
  {| cart_id := "c2"; cart_user_id := None; cart_session_token := Some "tok2";
     cart_stripe_session_id := None |}.

Definition other_item : cart_item :=
  {| ci_id := "i3"; ci_cart_id := "c2"; ci_product_id := "p2";
     ci_variant_id := Some "v1"; ci_quantity := 3; ci_price_cents := 2500 |}.

Definition two_carts_db : Db :=
  set_cart_items (λ l, l ++ [other_item])
    (set_carts (λ l, l ++ [other_cart]) sample_db).

(** * The storefront client

    [lib/api.ts] and the cart context of [hooks/useCart.tsx].  A call of the
    client runs the worker's route on the database; [identify] is the user
    id that the worker's auth middleware derives from a bearer token, [None]
    when the token does not verify. *)

(** [localStorage], with the two keys the client uses. *)
Record storage := {
  auth_token : option string;
  cart_token : option string }.

Definition setCartToken (t : string) (st : storage) : storage :=
  {| auth_token := auth_token st; cart_token := Some t |}.

(** [res.headers.get(name)] *)
Definition headers_get (name : string) (headers : list (string * string))
    : option string :=
  snd <$> head (filter (λ h, h.1 = name) headers).

(** [new ApiError(message, status)] *)
Record ApiError := {
  err_message : string;
  err_status : Z }.

Inductive fetched (A : Type) :=
  | Resolved (data : A)
  | Rejected (err : ApiError).
Arguments Resolved {A} _.
Arguments Rejected {A} _.

(** The context the worker sees for a request that [apiFetch] sends from
    [st]: an Authorization header when [auth] is asked for and a token is
    stored, an X-Cart-Token header when a cart token is stored. *)
Definition request_ctx (identify : string → option string) (auth : bool)
    (st : storage) : ctx :=
  {| ctx_userId := if auth then truthy (auth_token st) ≫= identify else None;
     ctx_cart_token := truthy (cart_token st) |}.

(** [apiFetch]: send the request, keep the cart token the server issued, and
    throw an [ApiError] with the message of the error body unless the
    response is ok. *)
Definition apiFetch {A} (identify : string → option string) (auth : bool)
    (route : ctx → M (reply A)) (st : storage) (db : Db)
    : Db * storage * fetched A :=
  match route (request_ctx identify auth st) db with
  | (db1, Ok rep) =>
      (db1,
       match truthy (headers_get "X-Cart-Token" (re_headers rep)) with
       | Some newCartToken => setCartToken newCartToken st
       | None => st
       end,
       Resolved (re_body rep))
  | (db1, Throw e) =>
      (db1, st,
       Rejected {| err_message := (onError e).2; err_status := (onError e).1 |})
  end.

(** [CartState], as the client reads it off the body of a cart reply. *)
Record CartState := {
  cs_cart_id : option string;
  cs_session_token : option string;
  cs_items : list cart_line;
  cs_subtotal : Z;
  cs_item_count : Z }.

Definition state_of_snapshot (cart_id session_token : option string)
    (data : cart_snapshot) : CartState :=
  {| cs_cart_id := cart_id; cs_session_token := session_token;
     cs_items := items data; cs_subtotal := subtotal data;
     cs_item_count := item_count data |}.

Definition fetched_map {A B} (f : A → B) (r : fetched A) : fetched B :=
  match r with
  | Resolved a => Resolved (f a)
  | Rejected e => Rejected e
  end.

Definition cartApi_get (identify : string → option string)
    (st : storage) (db : Db) : Db * storage * fetched CartState :=
  let '(db1, st1, r) := apiFetch identify true get_cart st db in
  (db1, st1,
   fetched_map (λ b, state_of_snapshot (cr_cart_id b) (cr_session_token b)
                       (cr_data b)) r).

Definition cartApi_addItem (identify : string → option string)
    (product_id : string) (variant_id : option string) (quantity : Z)
    (st : storage) (db : Db) : Db * storage * fetched CartState :=
  let '(db1, st1, r) :=
    apiFetch identify true
      (λ c, post_cart_items c {| body_product_id := Some product_id;
                                 body_variant_id := variant_id;
                                 body_quantity := Some quantity |}) st db in
  (db1, st1, fetched_map (λ b, state_of_snapshot None None (air_data b)) r).

(** [updateItem] and [removeItem] are called by the cart page with the id of
    a line the worker has sent, which is the uuid as stored: the request is
    the one on the bound id. *)
Definition cartApi_updateItem (identify : string → option string)
    (itemId : string) (quantity : Z)
    (st : storage) (db : Db) : Db * storage * fetched CartState :=
  let '(db1, st1, r) :=
    apiFetch identify true (λ c, patch_cart_item c itemId quantity) st db in
  (db1, st1, fetched_map (state_of_snapshot None None) r).

Definition cartApi_removeItem (identify : string → option string)
    (itemId : string)
    (st : storage) (db : Db) : Db * storage * fetched CartState :=
  let '(db1, st1, r) :=
    apiFetch identify true (λ c, delete_cart_item c itemId) st db in
  (db1, st1, fetched_map (state_of_snapshot None None) r).

(** ** The cart context *)

Inductive CartAction :=
  | SET (payload : CartState)
  | LOADING (value : bool)
  | ERROR (message : option string).

Record State := {
  st_cart : CartState;
  st_loading : bool;
  st_error : option string }.

Definition emptyCart : CartState :=
  {| cs_cart_id := None; cs_session_token := None;
     cs_items := []; cs_subtotal := 0; cs_item_count := 0 |}.

Definition reducer (state : State) (action : CartAction) : State :=
  match action with
  | SET payload =>
      {| st_cart := payload; st_loading := st_loading state; st_error := None |}
  | LOADING value =>
      {| st_cart := st_cart state; st_loading := value;
         st_error := st_error state |}
  | ERROR message =>
      {| st_cart := st_cart state; st_loading := false; st_error := message |}
  end.

(** The dispatches of [refresh], [addItem] and [updateItem] around a call:
    LOADING true, then SET or ERROR, and LOADING false in the end. *)
Definition guarded (call : storage → Db → Db * storage * fetched CartState)
    (state : State) (st : storage) (db : Db) : Db * storage * State :=
  let state1 := reducer state (LOADING true) in
  let '(db1, st1, r) := call st db in
  let state2 :=
    match r with
    | Resolved data => reducer state1 (SET data)
    | Rejected err => reducer state1 (ERROR (Some (err_message err)))
    end in
  (db1, st1, reducer state2 (LOADING false)).

Definition useCart_refresh identify := guarded (cartApi_get identify).

Definition useCart_addItem identify (productId : string)
    (variantId : option string) (qty : option Z) :=
  guarded (cartApi_addItem identify productId variantId (default 1 qty)).

Definition useCart_updateItem identify (itemId : string) (qty : Z) :=
  guarded (cartApi_updateItem identify itemId qty).

(** The optimistic update of [removeItem]. *)
Definition optimistic (itemId : string) (cart : CartState) : CartState :=
  {| cs_cart_id := cs_cart_id cart; cs_session_token := cs_session_token cart;
     cs_items := filter (λ i, ci_id (cl_item i) ≠ itemId) (cs_items cart);
     cs_subtotal := cs_subtotal cart;
     cs_item_count := cs_item_count cart - 1 |}.

Definition useCart_removeItem identify (itemId : string)
    (state : State) (st : storage) (db : Db) : Db * storage * State :=
  let state1 := reducer state (SET (optimistic itemId (st_cart state))) in
  let '(db1, st1, r) := cartApi_removeItem identify itemId st db in
  (db1, st1,
   match r with
   | Resolved data => reducer state1 (SET data)
   | Rejected err =>
       reducer (reducer state1 (SET (st_cart state)))
               (ERROR (Some (err_message err)))
   end).

(** A visitor who has never been to the shop, and the sum of the quantities
    of the lines of a cart that carry a given id. *)
Definition new_visitor : storage :=
  {| auth_token := None; cart_token := None |}.

Definition quantity_of (itemId : string) (lines : list cart_line) : Z :=
  sum_Z (ci_quantity ∘ cl_item <$>
         filter (λ i, ci_id (cl_item i) = itemId) lines).

(** The same request with another X-Cart-Token header. *)
Definition with_cart_token (token : option string) (c : ctx) : ctx :=
  {| ctx_userId := ctx_userId c; ctx_cart_token := token |}.

(** The sample shop with a registered user, and that user's request carrying
    the token of the sample guest cart. *)
Definition member_db : Db :=
  set_users (insert "u1" {| u_email := "member@example.com";
                            u_stripe_customer_id := None |}) sample_db.

Definition member_ctx : ctx :=
  {| ctx_userId := Some "u1"; ctx_cart_token := Some "tok" |}.

(** What the lines of a cart that carry a given id add to its subtotal. *)
Definition amount_of (itemId : string) (lines : list cart_line) : Z :=
  sum_Z ((λ i, ci_price_cents (cl_item i) * ci_quantity (cl_item i)) <$>
         filter (λ i, ci_id (cl_item i) = itemId) lines).

(** The guest of the sample cart, and a cart context that shows the sample
    cart as the worker holds it. *)
Definition sample_storage : storage :=
  {| auth_token := None; cart_token := Some "tok" |}.

Definition sample_state : State :=
  {| st_cart :=
       match getCartWithItems "c1" sample_db with
       | (_, Ok snap) => state_of_snapshot (Some "c1") (Some "tok") snap
       | _ => emptyCart
       end;
     st_loading := false; st_error := None |}.

(** * Properties *)

(** ** UUID texts

    The text PostgreSQL gives back for a uuid is read back as itself, so an
    id the database has generated can be sent back as a path parameter. *)

Lemma hex_nibble (v : N) : (v < 16)%N →
  v = 0%N ∨ v = 1%N ∨ v = 2%N ∨ v = 3%N ∨ v = 4%N ∨ v = 5%N ∨ v = 6%N ∨
  v = 7%N ∨ v = 8%N ∨ v = 9%N ∨ v = 10%N ∨ v = 11%N ∨ v = 12%N ∨ v = 13%N ∨
  v = 14%N ∨ v = 15%N.
Proof. lia. Qed.

Lemma hex_value_digit v : (v < 16)%N → hex_value (hex_digit v) = Some v.
Proof.
  intros H. destruct (hex_nibble v H) as [->|[->|[->|[->|[->|[->|[->|[->|[->|[->|[->|[->|[->|[->|[->| ->]]]]]]]]]]]]]]];
    reflexivity.
Qed.

Lemma skip_hyphen_digit i v rest : (v < 16)%N →
  skip_hyphen i (String (hex_digit v) rest) = String (hex_digit v) rest.
Proof.
  intros H. destruct (hex_nibble v H) as [->|[->|[->|[->|[->|[->|[->|[->|[->|[->|[->|[->|[->|[->|[->| ->]]]]]]]]]]]]]]];
    reflexivity.
Qed.

Lemma read_uuid_byte c i x y rest : (x < 16)%N → (y < 16)%N →
  read_uuid_bytes (S c) i (String (hex_digit x) (String (hex_digit y) rest)) =
  match read_uuid_bytes c (S i) (skip_hyphen i rest) with
  | Some (nibbles, tail) => Some (x :: y :: nibbles, tail)
  | None => None
  end.
Proof.
  intros Hx Hy. cbn [read_uuid_bytes].
  by rewrite (hex_value_digit x Hx), (hex_value_digit y Hy).
Qed.

Lemma not_brace v rest (A : Type) (f : string → A) (g : A) : (v < 16)%N →
  match String (hex_digit v) rest with
  | String "{"%char r => f r
  | _ => g
  end = g.
Proof.
  intros H. destruct (hex_nibble v H) as [->|[->|[->|[->|[->|[->|[->|[->|[->|[->|[->|[->|[->|[->|[->| ->]]]]]]]]]]]]]]];
    reflexivity.
Qed.

Lemma uuid_in_out (l : list N) :
  length l = 32%nat → Forall (λ v, (v < 16)%N) l →
  uuid_in (uuid_out l) = Some (uuid_out l).
Proof.
  intros Hlen Hall.
  do 32 (destruct l as [|? l]; [discriminate|]).
  destruct l; [|discriminate]. clear Hlen.
  repeat match goal with
  | H : Forall _ (_ :: _) |- _ => apply Forall_cons in H as [? H]
  end.
  unfold uuid_in, uuid_out.
  cbn [uuid_out_from Nat.eqb orb].
  rewrite not_brace by done.
  repeat (rewrite read_uuid_byte by done;
          first [ rewrite skip_hyphen_digit by done
                | cbn [skip_hyphen Nat.odd Nat.even Nat.ltb Nat.leb andb negb] ]).
  cbn [read_uuid_bytes skip_hyphen].
  by rewrite decide_True.
Qed.

Lemma nibbles_of_length count n acc :
  length (nibbles_of count n acc) = (count + length acc)%nat.
Proof.
  revert n acc. induction count as [|count IH]; intros n acc; [done|].
  cbn [nibbles_of]. rewrite IH. simpl. lia.
Qed.

Lemma nibbles_of_small count n acc :
  Forall (λ v, (v < 16)%N) acc → Forall (λ v, (v < 16)%N) (nibbles_of count n acc).
Proof.
  revert n acc. induction count as [|count IH]; intros n acc Hacc; [done|].
  cbn [nibbles_of]. apply IH. constructor; [|done].
  apply N.mod_lt. done.
Qed.

Lemma uuid_in_uuid_of_N n : uuid_in (uuid_of_N n) = Some (uuid_of_N n).
Proof.
  unfold uuid_of_N. apply uuid_in_out.
  - by rewrite nibbles_of_length.
  - by apply nibbles_of_small.
Qed.


(** However it is written, a text denotes the id it is read to. *)
Example uuid_in_scenarios :
  uuid_in "A0EEBC99-9C0B-4EF8-BB6D-6BB9BD380A11" =
    Some "a0eebc99-9c0b-4ef8-bb6d-6bb9bd380a11" ∧
  uuid_in "{a0eebc99-9c0b4ef8-bb6d6bb9-bd380a11}" =
    Some "a0eebc99-9c0b-4ef8-bb6d-6bb9bd380a11" ∧
  uuid_in "a0eebc999c0b4ef8bb6d6bb9bd380a11" =
    Some "a0eebc99-9c0b-4ef8-bb6d-6bb9bd380a11" ∧
  uuid_in "a0eebc99-9c0b-4ef8-bb6d-6bb9bd380a1" = None ∧
  uuid_in "a0eebc99-9c0b-4ef8-bb6d-6bb9bd380a11 " = None ∧
  uuid_in "a0eebc9-99c0b-4ef8-bb6d-6bb9bd380a11" = None ∧
  uuid_in "not-a-uuid" = None ∧
  uuid_in "" = None.
Proof. split_and!; vm_compute; reflexivity. Qed.


(** ** Reasoning about handler steps *)

Ltac unfold_M :=
  unfold mbind, M_bind, mret, M_ret, throw, gets, modify, try_catch,
    lift_result in *.

Section Stable.
Context {A B : Type} (P : Db → Prop).

Lemma stable_ret (a : A) : stable P (mret a).
Proof. intros db H. exact H. Qed.

Lemma stable_throw (e : exn) : stable P (@throw A e).
Proof. intros db H. exact H. Qed.

Lemma stable_gets (f : Db → A) : stable P (gets f).
Proof. intros db H. exact H. Qed.

Lemma stable_lift (r : result A) : stable P (lift_result r).
Proof. intros db H. exact H. Qed.

Lemma stable_modify (f : Db → Db) :
  (∀ db, P db → P (f db)) → stable P (modify f).
Proof. intros Hf db H. apply Hf, H. Qed.

Lemma stable_bind (m : M A) (k : A → M B) :
  stable P m → (∀ a, stable P (k a)) → stable P (m ≫= k).
Proof.
  intros Hm Hk db H. specialize (Hm db H). unfold_M.
  destruct (m db) as [db1 [a|e]]; simpl in *; [by apply Hk | done].
Qed.

Lemma stable_try_catch (m : M A) (h : exn → M A) :
  stable P m → (∀ e, stable P (h e)) → stable P (try_catch m h).
Proof.
  intros Hm Hh db H. specialize (Hm db H). unfold_M.
  destruct (m db) as [db1 [a|e]]; simpl in *; [done | by apply Hh].
Qed.
End Stable.

Lemma stable_gen_uuid (P : Db → Prop) :
  (∀ db, P db → P (set_uuid_counter N.succ db)) → stable P gen_uuid.
Proof. intros Hf db H. apply Hf, H. Qed.

Lemma stable_uuid_generate_v4 (P : Db → Prop) :
  (∀ db, P db → P (set_uuid_counter N.succ db)) → stable P uuid_generate_v4.
Proof. intros Hf db H. apply Hf, H. Qed.

Ltac stable_step :=
  lazymatch goal with
  | |- stable _ (mret _) => apply stable_ret
  | |- stable _ (throw _) => apply stable_throw
  | |- stable _ (gets _) => apply stable_gets
  | |- stable _ (lift_result _) => apply stable_lift
  | |- stable _ (_ ≫= _) => apply stable_bind; [| intros ?]
  | |- stable _ (try_catch _ _) => apply stable_try_catch; [| intros ?]
  | |- stable _ (modify _) => apply stable_modify; intros ? ?
  | |- stable _ gen_uuid => apply stable_gen_uuid; intros ? ?
  | |- stable _ uuid_generate_v4 => apply stable_uuid_generate_v4; intros ? ?
  | |- stable _ (match ?x with _ => _ end) => destruct x eqn:?
  end.

Ltac solve_stable := repeat stable_step.

(** ** The dedup ledger is written by the intake only *)

Lemma settle_line_items_ledger m orderId lineItems :
  stable (λ d, stripe_webhook_events d = m) (settle_line_items orderId lineItems).
Proof.
  induction lineItems as [|li rest IH]; simpl.
  - solve_stable.
  - apply stable_bind; [| intros ?; exact IH].
    unfold settle_line_item, insert_order_item, decrement_stock.
    solve_stable; done.
Qed.

Lemma processStripeEvent_ledger m stripe ev :
  stable (λ d, stripe_webhook_events d = m) (processStripeEvent stripe ev).
Proof.
  unfold processStripeEvent, insert_order, update_user_customer,
    update_order_status.
  solve_stable; try done; try apply settle_line_items_ledger.
Qed.

(** ** The intake, step by step *)

Lemma webhook_bad_signature stripe secret body sig e db :
  constructEventAsync stripe body sig secret = Throw e →
  post_webhooks_stripe stripe secret body sig db =
    (db, Throw (HTTPException 400 ("Webhook error: " +:+ exn_message e))).
Proof.
  intros Hsig. unfold post_webhooks_stripe. unfold_M. by rewrite Hsig.
Qed.

Lemma webhook_duplicate stripe secret body sig ev db :
  constructEventAsync stripe body sig secret = Ok ev →
  is_Some (stripe_webhook_events db !! ev_id ev) →
  post_webhooks_stripe stripe secret body sig db = (db, ack_duplicate).
Proof.
  intros Hsig [row Hrow]. unfold post_webhooks_stripe. unfold_M.
  by rewrite Hsig, Hrow.
Qed.

Lemma webhook_first_delivery stripe secret body sig ev db :
  constructEventAsync stripe body sig secret = Ok ev →
  stripe_webhook_events db !! ev_id ev = None →
  post_webhooks_stripe stripe secret body sig db =
    match processStripeEvent stripe ev db with
    | (db1, Ok _) =>
        (set_events (insert (ev_id ev) (recorded_success ev)) db1, ack_processed)
    | (db1, Throw e) =>
        (set_events (insert (ev_id ev) (recorded_failure ev (exn_message e))) db1,
         processing_failed)
    end.
Proof.
  intros Hsig Hnew.
  pose proof (processStripeEvent_ledger (stripe_webhook_events db) stripe ev db eq_refl)
    as Hkeep.
  unfold post_webhooks_stripe, insert_webhook_event, upsert_webhook_event_error.
  unfold_M. rewrite Hsig, Hnew.
  destruct (processStripeEvent stripe ev db) as [db1 [[]|e]]; simpl in *.
  - by rewrite Hkeep, Hnew.
  - unfold set_events; simpl. by rewrite Hkeep, Hnew.
Qed.

(** ** Settlement of the line items *)

Lemma bind_Ok {A B} (m : M A) (k : A → M B) db db2 b :
  (m ≫= k) db = (db2, Ok b) →
  ∃ db1 a, m db = (db1, Ok a) ∧ k a db1 = (db2, Ok b).
Proof.
  unfold_M. destruct (m db) as [db1 [a|e]]; [eauto | discriminate].
Qed.

Lemma bind_run {A B} (m : M A) (k : A → M B) db db1 a :
  m db = (db1, Ok a) → (m ≫= k) db = k a db1.
Proof. intros H. unfold_M. by rewrite H. Qed.

Lemma bind_Throw {A B} (m : M A) (k : A → M B) db db1 e :
  m db = (db1, Throw e) → (m ≫= k) db = (db1, Throw e).
Proof. intros H. unfold_M. by rewrite H. Qed.

Lemma settled_stock_cons li rest vs :
  settled_stock (li :: rest) vs =
  settled_stock rest (settled_stock [li] vs).
Proof. reflexivity. Qed.

Lemma settle_line_item_Ok orderId li db db1 :
  settle_line_item orderId li db = (db1, Ok tt) →
  variants db1 = settled_stock [li] (variants db) ∧
  (∃ oi, order_items db1 = order_items db ++ [oi] ∧ settles orderId oi li) ∧
  same_but_settlement db db1.
Proof.
  unfold settle_line_item, insert_order_item, decrement_stock, settled_stock,
    same_but_settlement, settles, gen_uuid.
  unfold_M. simpl. intros H.
  repeat (case_match; simplify_eq/=); eauto 20.
Qed.

Lemma settle_line_items_Ok orderId lineItems db db1 :
  settle_line_items orderId lineItems db = (db1, Ok tt) →
  variants db1 = settled_stock lineItems (variants db) ∧
  (∃ new, order_items db1 = order_items db ++ new ∧
          Forall2 (settles orderId) new lineItems) ∧
  same_but_settlement db db1.
Proof.
  revert db. induction lineItems as [|li rest IH]; intros db H; simpl in H.
  - unfold_M. simplify_eq. split; [done|]. split; [|done].
    exists []. by rewrite app_nil_r.
  - apply bind_Ok in H as (db0 & [] & Hli & Hrest).
    apply settle_line_item_Ok in Hli as (Hv & (oi & Hoi & Hs) & Hsame).
    apply IH in Hrest as (Hv' & (new & Hnew & Hall) & Hsame').
    rewrite settled_stock_cons, <- Hv, <- Hv'. split; [done|]. split.
    + exists (oi :: new). split; [|by constructor].
      by rewrite Hnew, Hoi, <- app_assoc.
    + unfold same_but_settlement in *. intuition congruence.
Qed.

(** ** A completed checkout session that settles *)

Lemma insert_order_Ok userId session db db1 order :
  insert_order userId session db = (db1, Ok order) →
  order = order_row (o_id order) userId session ∧
  orders db1 = orders db ++ [order] ∧
  users db1 = users db ∧ products db1 = products db ∧
  variants db1 = variants db ∧ carts db1 = carts db ∧
  cart_items db1 = cart_items db ∧ order_items db1 = order_items db ∧
  stripe_webhook_events db1 = stripe_webhook_events db.
Proof.
  unfold insert_order, gen_uuid. unfold_M. simpl. intros H.
  repeat (case_decide; simplify_eq/=). done.
Qed.

Lemma update_user_customer_Ok u customer db db1 :
  update_user_customer u customer db = (db1, Ok tt) →
  products db1 = products db ∧ variants db1 = variants db ∧
  carts db1 = carts db ∧ cart_items db1 = cart_items db ∧
  orders db1 = orders db ∧ order_items db1 = order_items db ∧
  stripe_webhook_events db1 = stripe_webhook_events db.
Proof.
  unfold update_user_customer. unfold_M. simpl. intros H.
  case_decide; simplify_eq/=. done.
Qed.

Lemma checkout_completed_Ok stripe ev db db1 cartId :
  ev_type ev = "checkout.session.completed" →
  truthy (obj_metadata_cart_id (ev_object ev)) = Some cartId →
  processStripeEvent stripe ev db = (db1, Ok tt) →
  ∃ fullSession order new,
    sessions_retrieve stripe (obj_id (ev_object ev)) = Ok fullSession ∧
    order = order_row (o_id order) (session_userId (ev_object ev)) (ev_object ev) ∧
    orders db1 = orders db ++ [order] ∧
    order_items db1 = order_items db ++ new ∧
    Forall2 (settles (o_id order)) new (default [] fullSession) ∧
    variants db1 = settled_stock (default [] fullSession) (variants db) ∧
    cart_items db1 = filter (λ ci, ci_cart_id ci ≠ cartId) (cart_items db) ∧
    carts db1 = carts db ∧ products db1 = products db ∧
    stripe_webhook_events db1 = stripe_webhook_events db.
Proof.
  intros Hty Hcart. unfold processStripeEvent.
  rewrite decide_True by done. rewrite Hcart. intros H.
  apply bind_Ok in H as (d0 & fullSession & Hret & H).
  apply bind_Ok in H as (d1 & order & Hord & H).
  apply bind_Ok in H as (d2 & [] & Hloop & H).
  apply bind_Ok in H as (d3 & [] & Hcust & H).
  unfold lift_result in Hret. unfold modify in H.
  apply insert_order_Ok in Hord as (Hrow & Ho & ? & ? & ? & ? & ? & ? & ?).
  apply settle_line_items_Ok in Hloop
    as (Hv & (new & Hnew & Hall) & (? & ? & ? & ? & ? & ?)).
  assert (products d3 = products d2 ∧ variants d3 = variants d2 ∧
          carts d3 = carts d2 ∧ cart_items d3 = cart_items d2 ∧
          orders d3 = orders d2 ∧ order_items d3 = order_items d2 ∧
          stripe_webhook_events d3 = stripe_webhook_events d2)
    as (? & ? & ? & ? & ? & ? & ?).
  { repeat case_match; try by apply update_user_customer_Ok in Hcust.
    all: unfold_M; by simplify_eq. }
  simplify_eq/=. exists fullSession, order, new.
  repeat split; congruence.
Qed.

(** ** Redelivery *)

Lemma redeliveries_acknowledged stripe secret id reqs db :
  is_Some (stripe_webhook_events db !! id) →
  Forall (redelivers stripe secret id) reqs →
  deliver_all stripe secret reqs db = (db, replicate (length reqs) ack_duplicate).
Proof.
  intros Hseen Hall. induction Hall as [|[body sig] rest (ev & Hsig & Hid) _ IH];
    simpl in *; [done|].
  rewrite (webhook_duplicate _ _ _ _ ev) by (by rewrite ?Hid).
  by rewrite IH.
Qed.

Lemma first_then_redeliveries stripe secret body sig ev reqs db :
  constructEventAsync stripe body sig secret = Ok ev →
  Forall (redelivers stripe secret (ev_id ev)) reqs →
  stripe_webhook_events db !! ev_id ev = None →
  deliver_all stripe secret ((body, sig) :: reqs) db =
    ((post_webhooks_stripe stripe secret body sig db).1,
     (post_webhooks_stripe stripe secret body sig db).2
       :: replicate (length reqs) ack_duplicate).
Proof.
  intros Hsig Hall Hnew. simpl.
  pose proof (webhook_first_delivery _ _ _ _ _ _ Hsig Hnew) as Hfirst.
  destruct (post_webhooks_stripe stripe secret body sig db) as [db1 r] eqn:Hpost.
  rewrite (redeliveries_acknowledged _ _ (ev_id ev)); [done| |done].
  destruct (processStripeEvent stripe ev db) as [d [[]|e]]; simplify_eq/=;
    rewrite lookup_insert_eq; eauto.
Qed.

(** ** When a completed checkout settles *)




(** ** Idempotent delivery (C1) *)

Lemma post_webhooks_stripe_split stripe secret body sig db :
  post_webhooks_stripe stripe secret body sig db =
  (selected ← webhook_select stripe secret body sig;
   webhook_settle stripe selected.1 selected.2) db.
Proof.
  unfold post_webhooks_stripe, webhook_select, webhook_settle. unfold_M.
  destruct (constructEventAsync stripe body sig secret) as [ev|e]; [|done].
  simpl. by destruct (stripe_webhook_events db !! ev_id ev).
Qed.




(** The scenario of the spec, evaluated: one order of 4500, the items A x 2
    and B x 1, the stock of the variant down by one, the cart emptied. *)
Example settle_twice_scenario :
  let '(dbN, replies) :=
    deliver_all sample_stripe "whsec" [("evt_1", "good"); ("evt_1", "good")]
      sample_db in
  replies = [ack_processed; ack_duplicate] ∧
  (o_total_cents <$> orders dbN) = [4500] ∧
  ((λ oi, (oi_product_id oi, oi_quantity oi)) <$> order_items dbN)
    = [("p1", 2); ("p2", 1)] ∧
  (v_stock_qty <$> variants dbN !! "v1") = Some 4 ∧
  cart_items dbN = [].
Proof. vm_compute. done. Qed.

(** ** Signature verification (C7) *)

(** C7. A request whose signature does not verify is rejected with HTTP 400
    before the dedup ledger is read: the database is left exactly as it was,
    so no business state changes and no ProcessedEvent row is recorded, and
    the settlement logic is never entered. *)
Theorem C7_invalid_signature_rejected stripe secret body sig e db :
  constructEventAsync stripe body sig secret = Throw e →
  post_webhooks_stripe stripe secret body sig db =
    (db, Throw (HTTPException 400 ("Webhook error: " +:+ exn_message e))) ∧
  onError (HTTPException 400 ("Webhook error: " +:+ exn_message e)) =
    (400, "Webhook error: " +:+ exn_message e).
Proof.
  intros Hsig. split; [by apply webhook_bad_signature | done].
Qed.

Lemma C7_witness :
  post_webhooks_stripe sample_stripe "whsec" "evt_1" "forged" sample_db =
    (sample_db,
     Throw (HTTPException 400 ("Webhook error: " +:+ exn_message (StripeError
       "No signatures found matching the expected signature for payload")))) ∧
  onError (HTTPException 400 ("Webhook error: " +:+ exn_message (StripeError
       "No signatures found matching the expected signature for payload"))) =
    (400, "Webhook error: " +:+ exn_message (StripeError
       "No signatures found matching the expected signature for payload")).
Proof.
  apply (C7_invalid_signature_rejected sample_stripe "whsec" "evt_1" "forged").
  reflexivity.
Defined.

(** ** A failed event is not retried (C10) *)

(** C10. Once the processing of an event has thrown, the intake has written
    a ProcessedEvent row carrying the error text and answered HTTP 500; every
    later delivery of that event identifier is acknowledged as a duplicate
    and leaves the database as it is, because the dedup check looks only at
    the existence of the row, whatever its outcome. *)
Theorem C10_failed_event_not_retried stripe secret body sig ev reqs db db1 e :
  constructEventAsync stripe body sig secret = Ok ev →
  Forall (redelivers stripe secret (ev_id ev)) reqs →
  stripe_webhook_events db !! ev_id ev = None →
  processStripeEvent stripe ev db = (db1, Throw e) →
  deliver_all stripe secret ((body, sig) :: reqs) db =
    (set_events (insert (ev_id ev) (recorded_failure ev (exn_message e))) db1,
     processing_failed :: replicate (length reqs) ack_duplicate) ∧
  ∀ db2 row, stripe_webhook_events db2 !! ev_id ev = Some row →
    post_webhooks_stripe stripe secret body sig db2 = (db2, ack_duplicate).
Proof.
  intros Hsig Hall Hnew Hproc. split.
  - rewrite (first_then_redeliveries _ _ _ _ _ _ _ Hsig Hall Hnew).
    by rewrite (webhook_first_delivery _ _ _ _ _ _ Hsig Hnew), Hproc.
  - intros db2 row Hrow. by apply (webhook_duplicate _ _ _ _ ev).
Qed.

Lemma C10_witness :
  deliver_all sample_stripe "whsec"
    [("evt_2", "good"); ("evt_2", "good"); ("evt_2", "good")] sample_db =
    (set_events (insert "evt_2" (recorded_failure broken_event
        "null value in column product_id of relation order_items violates not-null constraint"))
       (processStripeEvent sample_stripe broken_event sample_db).1,
     processing_failed :: replicate 2 ack_duplicate) ∧
  ∀ db2 row, stripe_webhook_events db2 !! "evt_2" = Some row →
    post_webhooks_stripe sample_stripe "whsec" "evt_2" "good" db2 =
      (db2, ack_duplicate).
Proof.
  apply (C10_failed_event_not_retried sample_stripe "whsec" "evt_2" "good"
           broken_event [("evt_2", "good"); ("evt_2", "good")] sample_db
           (processStripeEvent sample_stripe broken_event sample_db).1
           (DbError "null value in column product_id of relation order_items violates not-null constraint")).
  - reflexivity.
  - repeat constructor; exists broken_event; split; reflexivity.
  - reflexivity.
  - vm_compute. reflexivity.
Defined.

(** ** Settlement is a sequence of committed statements (C2) *)

(** The intake on the broken checkout event: processing throws at the second
    line item and HTTP 500 is returned, yet the Order, the first OrderItem
    and the stock decrement of the first line item are visible, and the cart
    has not been cleared. *)
Lemma C2_counterexample :
  ∃ db1,
    post_webhooks_stripe sample_stripe "whsec" "evt_2" "good" sample_db =
      (db1, processing_failed) ∧
    orders sample_db = [] ∧
    (o_stripe_session_id <$> orders db1) = [Some "cs_2"] ∧
    order_items sample_db = [] ∧
    (oi_product_id <$> order_items db1) = ["p2"] ∧
    (v_stock_qty <$> variants sample_db !! "v1") = Some 5 ∧
    (v_stock_qty <$> variants db1 !! "v1") = Some 4 ∧
    cart_items db1 = cart_items sample_db ∧
    length (cart_items db1) = 2%nat.
Proof.
  eexists. split; [vm_compute; reflexivity|]. vm_compute. done.
Qed.

(** C2 (amended). For a first delivery of a verified event: when processing
    returns, the intake records a success row and acknowledges, and for a
    completed checkout the Order, all its OrderItems, the stock decrements
    and the cart clearing are then all visible; when processing throws
    partway through, nothing is rolled back: the tables are left as they were
    at the throw, a failure row carrying the error text is recorded instead
    of a success row, and HTTP 500 is surfaced to the caller. *)
Theorem C2_settlement_outcomes stripe secret body sig ev db :
  constructEventAsync stripe body sig secret = Ok ev →
  stripe_webhook_events db !! ev_id ev = None →
  match processStripeEvent stripe ev db with
  | (db1, Ok _) =>
      post_webhooks_stripe stripe secret body sig db =
        (set_events (insert (ev_id ev) (recorded_success ev)) db1, ack_processed) ∧
      ∀ cartId,
        ev_type ev = "checkout.session.completed" →
        truthy (obj_metadata_cart_id (ev_object ev)) = Some cartId →
        ∃ fullSession order new,
          sessions_retrieve stripe (obj_id (ev_object ev)) = Ok fullSession ∧
          orders db1 = orders db ++ [order] ∧
          order_items db1 = order_items db ++ new ∧
          Forall2 (settles (o_id order)) new (default [] fullSession) ∧
          variants db1 = settled_stock (default [] fullSession) (variants db) ∧
          cart_items db1 = filter (λ ci, ci_cart_id ci ≠ cartId) (cart_items db)
  | (db1, Throw e) =>
      ∃ dbF,
        post_webhooks_stripe stripe secret body sig db = (dbF, processing_failed) ∧
        onError (HTTPException 500 "Webhook processing failed")
          = (500, "Webhook processing failed") ∧
        stripe_webhook_events dbF !! ev_id ev =
          Some (recorded_failure ev (exn_message e)) ∧
        orders dbF = orders db1 ∧ order_items dbF = order_items db1 ∧
        variants dbF = variants db1 ∧ cart_items dbF = cart_items db1 ∧
        users dbF = users db1 ∧ carts dbF = carts db1
  end.
Proof.
  intros Hsig Hnew.
  pose proof (webhook_first_delivery _ _ _ _ _ _ Hsig Hnew) as Hfirst.
  destruct (processStripeEvent stripe ev db) as [db1 [[]|e]] eqn:Hproc.
  - split; [done|]. intros cartId Hty Hcart.
    destruct (checkout_completed_Ok _ _ _ _ _ Hty Hcart Hproc)
      as (fs & order & new & ? & ? & ? & ? & ? & ? & ? & _).
    by exists fs, order, new.
  - eexists. split; [done|]. simpl. by rewrite lookup_insert_eq.
Qed.

Lemma C2_witness :
  ∃ dbF,
    post_webhooks_stripe sample_stripe "whsec" "evt_2" "good" sample_db =
      (dbF, processing_failed) ∧
    onError (HTTPException 500 "Webhook processing failed")
      = (500, "Webhook processing failed") ∧
    stripe_webhook_events dbF !! "evt_2" =
      Some (recorded_failure broken_event
        "null value in column product_id of relation order_items violates not-null constraint") ∧
    orders dbF = orders (processStripeEvent sample_stripe broken_event sample_db).1 ∧
    order_items dbF =
      order_items (processStripeEvent sample_stripe broken_event sample_db).1 ∧
    variants dbF = variants (processStripeEvent sample_stripe broken_event sample_db).1 ∧
    cart_items dbF =
      cart_items (processStripeEvent sample_stripe broken_event sample_db).1 ∧
    users dbF = users (processStripeEvent sample_stripe broken_event sample_db).1 ∧
    carts dbF = carts (processStripeEvent sample_stripe broken_event sample_db).1.
Proof.
  pose proof (C2_settlement_outcomes sample_stripe "whsec" "evt_2" "good"
                broken_event sample_db eq_refl eq_refl) as H.
  destruct (processStripeEvent sample_stripe broken_event sample_db)
    as [db1 [[]|e]] eqn:Hproc; vm_compute in Hproc; [discriminate|].
  injection Hproc as <- <-. exact H.
Defined.

(** ** Refunds (C5) *)

(** A refund whose payment intent no order carries: the intake acknowledges
    it and records it as a success, with no error text. *)
Lemma C5_counterexample :
  orders sample_db = [] ∧
  ∃ db1,
    post_webhooks_stripe sample_stripe "whsec" "evt_3" "good" sample_db =
      (db1, ack_processed) ∧
    (we_error <$> stripe_webhook_events db1 !! "evt_3") = Some None ∧
    orders db1 = [].
Proof.
  split; [done|]. eexists. split; [vm_compute; reflexivity|]. vm_compute. done.
Qed.

Lemma processStripeEvent_refunded stripe ev :
  ev_type ev = "charge.refunded" →
  processStripeEvent stripe ev =
    update_order_status (obj_payment_intent (ev_object ev)) refunded.
Proof.
  intros Hty. unfold processStripeEvent. rewrite Hty.
  repeat (case_decide; try discriminate); congruence.
Qed.

(** C5 (amended). For every first delivery of a "charge refunded" event the
    intake sets every Order that carries the charge's payment intent to
    refunded, records the event as a success (no error text) and
    acknowledges, whether or not such an Order exists; when none exists the
    orders are left as they were and the endpoint still returns normally. *)
Theorem C5_refund_recorded_as_success stripe secret body sig ev db :
  constructEventAsync stripe body sig secret = Ok ev →
  stripe_webhook_events db !! ev_id ev = None →
  ev_type ev = "charge.refunded" →
  ∃ dbF,
    post_webhooks_stripe stripe secret body sig db = (dbF, ack_processed) ∧
    stripe_webhook_events dbF !! ev_id ev = Some (recorded_success ev) ∧
    we_error (recorded_success ev) = None ∧
    (∀ o pi, o ∈ orders db → obj_payment_intent (ev_object ev) = Some pi →
             o_stripe_payment_intent_id o = Some pi →
             set_status refunded o ∈ orders dbF) ∧
    (∀ o, o ∈ orders db →
          o_stripe_payment_intent_id o ≠ obj_payment_intent (ev_object ev) →
          o ∈ orders dbF) ∧
    ((∀ o, o ∈ orders db →
           o_stripe_payment_intent_id o ≠ obj_payment_intent (ev_object ev)) →
     orders dbF = orders db).
Proof.
  intros Hsig Hnew Hty.
  rewrite (webhook_first_delivery _ _ _ _ _ _ Hsig Hnew),
    (processStripeEvent_refunded _ _ Hty).
  unfold update_order_status, modify. eexists. split; [done|]. simpl.
  split; [by rewrite lookup_insert_eq|]. split; [done|].
  split; [|split].
  - intros o pi Ho Hpi Hopi. apply list_elem_of_fmap. exists o.
    rewrite decide_True; [done|]. rewrite Hpi. eauto.
  - intros o Ho Hne. apply list_elem_of_fmap. exists o.
    rewrite decide_False; [done|]. intros [_ ?]. done.
  - intros Hnone. rewrite <- (list_fmap_id (orders db)) at 2.
    apply list_fmap_ext. intros i o Ho%list_elem_of_lookup_2.
    rewrite decide_False; [done|]. intros [_ ?]. by apply (Hnone o).
Qed.

Lemma C5_witness :
  ∃ dbF,
    post_webhooks_stripe sample_stripe "whsec" "evt_3" "good" sample_db =
      (dbF, ack_processed) ∧
    stripe_webhook_events dbF !! "evt_3" = Some (recorded_success refund_event) ∧
    we_error (recorded_success refund_event) = None ∧
    (∀ o pi, o ∈ orders sample_db →
             obj_payment_intent (ev_object refund_event) = Some pi →
             o_stripe_payment_intent_id o = Some pi →
             set_status refunded o ∈ orders dbF) ∧
    (∀ o, o ∈ orders sample_db →
          o_stripe_payment_intent_id o ≠ obj_payment_intent (ev_object refund_event) →
          o ∈ orders dbF) ∧
    ((∀ o, o ∈ orders sample_db →
           o_stripe_payment_intent_id o ≠ obj_payment_intent (ev_object refund_event)) →
     orders dbF = orders sample_db).
Proof.
  apply (C5_refund_recorded_as_success sample_stripe "whsec" "evt_3" "good"
           refund_event sample_db); reflexivity.
Defined.

(** The refund of a settled order, evaluated: the order goes from paid to
    refunded and both events are recorded without error text. *)
Example refund_paid_scenario :
  let '(db1, replies) :=
    deliver_all sample_stripe "whsec" [("evt_1", "good"); ("evt_4", "good")]
      sample_db in
  replies = [ack_processed; ack_processed] ∧
  (o_status <$> orders db1) = [refunded] ∧
  (we_error <$> stripe_webhook_events db1 !! "evt_4") = Some None.
Proof. vm_compute. done. Qed.

(** ** The stock floor (C6) *)

Lemma map_Forall_alter_stock (f : variant → variant) k (m : gmap string variant) :
  (∀ v, 0 ≤ v_stock_qty (f v)) →
  map_Forall (λ _ v, 0 ≤ v_stock_qty v) m →
  map_Forall (λ _ v, 0 ≤ v_stock_qty v) (alter f k m).
Proof.
  intros Hf Hm i v Hi. rewrite lookup_alter in Hi.
  case_decide; [|by apply (Hm i)].
  apply fmap_Some in Hi as (w & _ & ->). apply Hf.
Qed.

Lemma decrement_stock_nonneg vid q : stable stock_nonneg (decrement_stock vid q).
Proof.
  unfold decrement_stock. apply stable_modify. intros db H.
  apply map_Forall_alter_stock; [|done]. intros v. simpl. lia.
Qed.

Lemma settle_line_items_nonneg orderId lineItems :
  stable stock_nonneg (settle_line_items orderId lineItems).
Proof.
  induction lineItems as [|li rest IH]; simpl.
  - solve_stable.
  - apply stable_bind; [| intros ?; exact IH].
    unfold settle_line_item, insert_order_item.
    solve_stable; try done. apply decrement_stock_nonneg.
Qed.

Lemma processStripeEvent_nonneg stripe ev :
  stable stock_nonneg (processStripeEvent stripe ev).
Proof.
  unfold processStripeEvent, insert_order, update_user_customer,
    update_order_status.
  solve_stable; try done. apply settle_line_items_nonneg.
Qed.

Lemma post_webhooks_stripe_nonneg stripe secret body sig :
  stable stock_nonneg (post_webhooks_stripe stripe secret body sig).
Proof.
  unfold post_webhooks_stripe, insert_webhook_event, upsert_webhook_event_error.
  solve_stable; try done. apply processStripeEvent_nonneg.
Qed.

Lemma admin_adjustment_nonneg vid a :
  stable stock_nonneg (admin_patch_variant_stock vid None (Some a)).
Proof.
  unfold admin_patch_variant_stock. solve_stable.
  apply map_Forall_alter_stock; [|done]. intros v. simpl. lia.
Qed.

Lemma serve_stock_requests_nonneg stripe secret reqs db :
  stock_nonneg db →
  stock_nonneg (foldl (serve_stock_request stripe secret) db reqs).
Proof.
  revert db. induction reqs as [|r rest IH]; intros db Hinv; [done|].
  simpl. apply IH. destruct r; simpl.
  - by apply post_webhooks_stripe_nonneg.
  - by apply admin_adjustment_nonneg.
Qed.

(** C6. Over every sequence of webhook deliveries (settlement decrements) and
    admin relative adjustments the stored stock of every variant stays
    non-negative; one settlement decrement, or one relative adjustment, that
    would go below zero stores zero. *)
Theorem C6_stock_never_negative stripe secret reqs db vid v q a :
  stock_nonneg db →
  variants db !! vid = Some v →
  stock_nonneg (foldl (serve_stock_request stripe secret) db reqs) ∧
  (v_stock_qty <$> variants (decrement_stock vid q db).1 !! vid) =
    Some (if decide (v_stock_qty v < q) then 0 else v_stock_qty v - q) ∧
  (v_stock_qty <$> variants (admin_patch_variant_stock vid None (Some a) db).1 !! vid) =
    Some (if decide (v_stock_qty v + a < 0) then 0 else v_stock_qty v + a).
Proof.
  intros Hinv Hv. split; [|split].
  - by apply serve_stock_requests_nonneg.
  - simpl. rewrite lookup_alter, decide_True by done. rewrite Hv. simpl.
    f_equal. case_decide; lia.
  - unfold admin_patch_variant_stock. unfold_M. simpl.
    rewrite lookup_alter, decide_True by done. rewrite Hv. simpl.
    rewrite lookup_alter, decide_True by done. rewrite Hv. simpl.
    f_equal. case_decide; lia.
Qed.

Lemma C6_witness :
  stock_nonneg
    (foldl (serve_stock_request sample_stripe "whsec") sample_db
       [WebhookDelivery "evt_1" "good"; AdminAdjustment "v1" (-9);
        WebhookDelivery "evt_2" "good"]) ∧
  (v_stock_qty <$> variants (decrement_stock "v1" 7 sample_db).1 !! "v1") =
    Some (if decide (5 < 7) then 0 else 5 - 7) ∧
  (v_stock_qty <$>
     variants (admin_patch_variant_stock "v1" None (Some (-9)) sample_db).1 !! "v1") =
    Some (if decide (5 + -9 < 0) then 0 else 5 + -9).
Proof.
  apply (C6_stock_never_negative sample_stripe "whsec"
           [WebhookDelivery "evt_1" "good"; AdminAdjustment "v1" (-9);
            WebhookDelivery "evt_2" "good"]
           sample_db "v1"
           {| v_product_id := "p2"; v_name := "Large"; v_price_cents := None;
              v_stock_qty := 5 |} 7 (-9)).
  - apply map_Forall_insert_2; [simpl; lia | apply map_Forall_empty].
  - reflexivity.
Defined.

(** ** Cart resolution *)

Section NoHttp.
Context {A B : Type}.





End NoHttp.







Lemma resolveCart_frame c create db0 :
  stable (same_but_carts db0) (resolveCart c create).
Proof. unfold resolveCart, insert_cart. solve_stable; done. Qed.

(** Without [create], resolution is a read of the carts table. *)
Lemma resolveCart_read c db :
  ∃ r, resolveCart c false db = (db, Ok r) ∧
       ∀ db', carts db' = carts db → resolveCart c false db' = (db', Ok r).
Proof.
  unfold resolveCart. unfold_M.
  destruct (truthy (ctx_userId c)) as [userId|];
    [|destruct (truthy (ctx_cart_token c)) as [token|]].
  - destruct (last _) as [r|] eqn:Hr.
    + exists (Some r). split; [done|]. intros db' ->. by rewrite Hr.
    + exists None. split; [done|]. intros db' ->. by rewrite Hr.
  - destruct (head _) as [r|] eqn:Hr.
    + exists (Some r). split; [done|]. intros db' ->. by rewrite Hr.
    + exists None. split; [done|]. intros db' ->. by rewrite Hr.
  - exists None. done.
Qed.

Lemma getCartWithItems_run cartId db :
  ∃ snap, getCartWithItems cartId db = (db, Ok snap) ∧
    items snap =
      omap (join_line db) (filter (λ ci, ci_cart_id ci = cartId) (cart_items db)).
Proof. unfold getCartWithItems. unfold_M. eauto. Qed.

Lemma set_cart_items_id (f : list cart_item → list cart_item) db :
  f (cart_items db) = cart_items db → set_cart_items f db = db.
Proof. intros H. destruct db. unfold set_cart_items. simpl in *. by rewrite H. Qed.

Lemma filter_id_Forall {A} (P : A → Prop) `{∀ x, Decision (P x)} (l : list A) :
  Forall P l → filter P l = l.
Proof.
  induction 1 as [|x l Hx _ IH]; [done|]. by rewrite filter_cons_True, IH.
Qed.

(** ** removeItem (C8) *)

(** The DELETE on a bound item id: it succeeds whether or not the item is in
    the cart, and a second run changes nothing. *)
Lemma delete_cart_item_idempotent c itemId db cartRow :
  (resolveCart c false db).2 = Ok (Some cartRow) →
  ∃ db1 snap,
    delete_cart_item c itemId db = (db1, Ok (json snap)) ∧
    delete_cart_item c itemId db1 = (db1, Ok (json snap)) ∧
    Forall (λ i, ci_id (cl_item i) ≠ itemId) (items snap) ∧
    (Forall (λ ci, ¬ (ci_id ci = itemId ∧ ci_cart_id ci = cart_id cartRow))
            (cart_items db) → db1 = db).
Proof.
  intros Hres. destruct (resolveCart_read c db) as (r & Hr & Hr').
  rewrite Hr in Hres. simpl in Hres. simplify_eq.
  set (P := λ ci, ¬ (ci_id ci = itemId ∧ ci_cart_id ci = cart_id cartRow)).
  set (db1 := set_cart_items (filter P) db).
  destruct (getCartWithItems_run (cart_id cartRow) db1) as (snap & Hsnap & Hitems).
  assert (delete_cart_item c itemId db = (db1, Ok (json snap))) as H1.
  { unfold delete_cart_item. rewrite (bind_run _ _ _ _ _ Hr).
    unfold_M. fold P. fold db1. by rewrite Hsnap. }
  assert (set_cart_items (filter P) db1 = db1) as Hfix.
  { apply set_cart_items_id. simpl. apply filter_id_Forall.
    apply Forall_forall. intros ci Hci. by apply list_elem_of_filter in Hci as [? _]. }
  exists db1, snap. split; [done|]. split; [|split].
  - unfold delete_cart_item. rewrite (bind_run _ _ _ _ _ (Hr' db1 eq_refl)).
    unfold_M. fold P. rewrite Hfix. by rewrite Hsnap.
  - rewrite Hitems. apply Forall_forall. intros i Hi.
    apply list_elem_of_omap in Hi as (ci & Hci & Hjoin).
    apply list_elem_of_filter in Hci as [Hcart Hci].
    simpl in Hci. apply list_elem_of_filter in Hci as [HP _].
    unfold join_line in Hjoin. destruct (products db1 !! _); simplify_eq/=.
    intros Hid. apply HP. done.
  - intros Hall. apply set_cart_items_id. by apply filter_id_Forall.
Qed.

Lemma delete_cart_items_itemId_read c itemId id db :
  uuid_in itemId = Some id →
  delete_cart_items_itemId c itemId db = delete_cart_item c id db.
Proof.
  intros Hid. unfold delete_cart_items_itemId, delete_cart_item. by rewrite Hid.
Qed.

Lemma delete_cart_items_itemId_refused c itemId db cartRow :
  uuid_in itemId = None →
  (resolveCart c false db).2 = Ok (Some cartRow) →
  delete_cart_items_itemId c itemId db =
    (db, Throw (DbError "invalid input syntax for type uuid")).
Proof.
  intros Hid Hres. destruct (resolveCart_read c db) as (r & Hr & _).
  rewrite Hr in Hres. simpl in Hres. simplify_eq.
  unfold delete_cart_items_itemId. rewrite (bind_run _ _ _ _ _ Hr).
  by rewrite Hid.
Qed.

(** C8, as the claim states it, fails on an item id that is not the text of
    a uuid: the guest of the sample cart asks to remove "not-a-uuid", which
    no cart item carries; the DELETE is refused when its parameter is bound,
    nothing is written and the reply is the generic 500, not a success. *)
Lemma C8_counterexample :
  (resolveCart sample_ctx false uuid_shop).2 = Ok (Some uuid_cart) ∧
  Forall (λ ci, ci_id ci ≠ "not-a-uuid") (cart_items uuid_shop) ∧
  delete_cart_items_itemId sample_ctx "not-a-uuid" uuid_shop =
    (uuid_shop, Throw (DbError "invalid input syntax for type uuid")) ∧
  onError (DbError "invalid input syntax for type uuid") =
    (500, "Internal server error").
Proof.
  split_and!; [reflexivity | by repeat constructor | | reflexivity].
  by apply (delete_cart_items_itemId_refused _ _ _ uuid_cart).
Qed.

(** C8 (amended). For a request that resolves to a cart and an item id that
    is the text of a uuid, DELETE /cart/items/:itemId succeeds whether or
    not the item is in the cart; when it is not, the database is left as it
    was; the returned snapshot no longer holds the item, and a second call
    with the same itemId succeeds with the same snapshot and changes
    nothing. *)
Theorem C8_remove_item_idempotent c itemId id db cartRow :
  uuid_in itemId = Some id →
  (resolveCart c false db).2 = Ok (Some cartRow) →
  ∃ db1 snap,
    delete_cart_items_itemId c itemId db = (db1, Ok (json snap)) ∧
    delete_cart_items_itemId c itemId db1 = (db1, Ok (json snap)) ∧
    Forall (λ i, ci_id (cl_item i) ≠ id) (items snap) ∧
    (Forall (λ ci, ¬ (ci_id ci = id ∧ ci_cart_id ci = cart_id cartRow))
            (cart_items db) → db1 = db).
Proof.
  intros Hid Hres.
  destruct (delete_cart_item_idempotent c id db cartRow Hres)
    as (db1 & snap & H1 & H2 & Hgone & Hsame).
  exists db1, snap.
  by rewrite !(delete_cart_items_itemId_read _ _ _ _ Hid).
Qed.

Lemma C8_witness :
  ∃ db1 snap,
    delete_cart_items_itemId sample_ctx "00000000-0000-4000-8000-0000000000d1"
      uuid_shop = (db1, Ok (json snap)) ∧
    delete_cart_items_itemId sample_ctx "00000000-0000-4000-8000-0000000000d1"
      db1 = (db1, Ok (json snap)) ∧
    Forall (λ i, ci_id (cl_item i) ≠ "00000000-0000-4000-8000-0000000000d1")
           (items snap) ∧
    (Forall (λ ci, ¬ (ci_id ci = "00000000-0000-4000-8000-0000000000d1" ∧
                      ci_cart_id ci = cart_id uuid_cart))
            (cart_items uuid_shop) → db1 = uuid_shop).
Proof.
  apply (C8_remove_item_idempotent sample_ctx
           "00000000-0000-4000-8000-0000000000d1"
           "00000000-0000-4000-8000-0000000000d1" uuid_shop uuid_cart);
    vm_compute; reflexivity.
Defined.

(** The scenario of the spec, evaluated on the bound item id: both calls
    succeed and return the snapshot that holds the other line only. *)
Example remove_twice_scenario :
  let '(db1, r1) := delete_cart_item sample_ctx "i1" sample_db in
  let '(db2, r2) := delete_cart_item sample_ctx "i1" db1 in
  r1 = r2 ∧ db2 = db1 ∧
  ((λ r, (re_status r, ci_id ∘ cl_item <$> items (re_body r), subtotal (re_body r)))
     <$> match r1 with Ok r => Some r | Throw _ => None end)
    = Some (200, ["i2"], 2500).
Proof. vm_compute. done. Qed.

(** The same on the route, with the item id written in upper case and in
    braces: it denotes the stored id, the line is removed, and the second
    call finds nothing to remove. *)
Example remove_twice_by_text_scenario :
  let '(db1, r1) :=
    delete_cart_items_itemId sample_ctx "{00000000-0000-4000-8000-0000000000D1}"
      uuid_shop in
  let '(db2, r2) :=
    delete_cart_items_itemId sample_ctx "{00000000-0000-4000-8000-0000000000D1}"
      db1 in
  r1 = r2 ∧ db2 = db1 ∧ cart_items db1 = [] ∧
  ((λ r, (re_status r, items (re_body r), subtotal (re_body r)))
     <$> match r1 with Ok r => Some r | Throw _ => None end)
    = Some (200, [], 0).
Proof. vm_compute. done. Qed.

(** A line that POST /cart/items has created is removed by the id the
    worker returned for it. *)
Example add_then_remove_scenario :
  let '(db1, r1) :=
    post_cart_items sample_ctx
      {| body_product_id := Some "00000000-0000-4000-8000-0000000000a1";
         body_variant_id := None; body_quantity := Some 3 |} uuid_shop in
  let added := match r1 with
               | Ok rep => ci_id (air_item (re_body rep))
               | Throw _ => ""
               end in
  let '(db2, r2) := delete_cart_items_itemId sample_ctx added db1 in
  added = "00000000-0000-0000-0000-000000000000" ∧
  (ci_quantity <$> cart_items db1) = [2; 3] ∧
  cart_items db2 = cart_items uuid_shop ∧
  (re_status <$> match r2 with Ok rep => Some rep | Throw _ => None end) =
    Some 200.
Proof. vm_compute. done. Qed.

(** ** createSession (C9) *)

Lemma carts_session_recorded (cartRow : cart) sid (l : list cart) :
  Forall (λ r, cart_id r = cart_id cartRow →
               cart_stripe_session_id r = Some sid)
    ((λ r, if decide (cart_id r = cart_id cartRow)
           then set_stripe_session_id (Some sid) r else r) <$> l).
Proof.
  apply Forall_fmap, Forall_forall. intros r _. simpl.
  case_decide; simpl; [done|]. intros ?. done.
Qed.

(** C9. POST /checkout/session never touches cart items, stock counters or
    any table other than carts.  Unless it succeeds it leaves the whole
    database unchanged, and it fails with "Cart is empty" when no cart
    resolves or the resolved cart has no items.  When it succeeds, the one
    change is that the resolved cart now carries the session identifier
    Stripe returned, whatever identifier it carried before. *)
Theorem C9_create_session_frame stripe c success_url cancel_url db :
  let '(db1, r) := post_checkout_session stripe c success_url cancel_url db in
  cart_items db1 = cart_items db ∧ variants db1 = variants db ∧
  products db1 = products db ∧ users db1 = users db ∧
  orders db1 = orders db ∧ order_items db1 = order_items db ∧
  stripe_webhook_events db1 = stripe_webhook_events db ∧
  uuid_counter db1 = uuid_counter db ∧
  match r with
  | Throw e =>
      db1 = db ∧
      ((resolveCart c false db).2 = Ok None ∨
       (∃ cartRow snap, (resolveCart c false db).2 = Ok (Some cartRow) ∧
          (getCartWithItems (cart_id cartRow) db).2 = Ok snap ∧ items snap = [])
       → e = HTTPException 400 "Cart is empty")
  | Ok rep =>
      ∃ cartRow,
        (resolveCart c false db).2 = Ok (Some cartRow) ∧
        re_status rep = 200 ∧
        (∃ params, sessions_create stripe params = Ok (re_body rep)) ∧
        carts db1 =
          (λ r, if decide (cart_id r = cart_id cartRow)
                then set_stripe_session_id (Some (sc_id (re_body rep))) r else r)
            <$> carts db ∧
        Forall (λ r, cart_id r = cart_id cartRow →
                     cart_stripe_session_id r = Some (sc_id (re_body rep)))
               (carts db1)
  end.
Proof.
  unfold post_checkout_session.
  destruct (resolveCart_read c db) as ([cartRow|] & Hr & _);
    rewrite (bind_run _ _ _ _ _ Hr), Hr; simpl.
  2: { unfold throw. repeat split; try done. }
  destruct (getCartWithItems_run (cart_id cartRow) db) as (snap & Hsnap & _).
  rewrite (bind_run _ _ _ _ _ Hsnap). simpl.
  destruct (items snap) as [|i rest] eqn:Hitems.
  { unfold throw. repeat split; try done. }
  assert (∀ e : exn,
    Ok (Some cartRow) = Ok None ∨
    (∃ cr sn, Ok (Some cartRow) = Ok (Some cr) ∧
       (getCartWithItems (cart_id cr) db).2 = Ok sn ∧ items sn = []) →
    e = HTTPException 400 "Cart is empty") as Hnonempty.
  { intros e [?|(cr & sn & Hcr & Hsn & Hnil)]; [done|].
    injection Hcr as <-. rewrite Hsnap in Hsn. simpl in Hsn. congruence. }
  unfold_M.
  destruct (truthy (ctx_userId c)) as [userId|];
    destruct (sessions_create stripe _) as [session|e] eqn:Hcreate;
    cbn [fst snd re_status re_body json carts set_carts cart_items variants
         products users orders order_items stripe_webhook_events uuid_counter].
  all: split_and!; try done; try apply Hnonempty.
  all: exists cartRow; split_and!; try done; eauto using carts_session_recorded.
Qed.

(** Checking out the sample cart records the session on it and changes
    nothing else; checking out with an unknown cart token fails. *)
Example create_session_scenario :
  let '(db1, r) :=
    post_checkout_session sample_stripe sample_ctx "https://shop/ok" "https://shop/no"
      sample_db in
  (sc_id ∘ re_body <$> match r with Ok rep => Some rep | Throw _ => None end)
    = Some "cs_1" ∧
  (cart_stripe_session_id <$> carts db1) = [Some "cs_1"] ∧
  cart_items db1 = sample_cart_items ∧
  post_checkout_session sample_stripe sample_ctx "https://shop/ok" "https://shop/no"
      empty_shop = (empty_shop, Throw (HTTPException 400 "Cart is empty")).
Proof. vm_compute. done. Qed.

(** ** addItem and stock (C3) *)


Lemma bind_gets {A B} (f : Db → A) (k : A → M B) db :
  (gets f ≫= k) db = k (f db) db.
Proof. reflexivity. Qed.





(** The scenario of the spec, evaluated: with no stock at all, adding one
    piece fails and no row is written. *)
Example add_out_of_stock_scenario :
  let db := set_variants (insert "v1"
    {| v_product_id := "p2"; v_name := "Large"; v_price_cents := None;
       v_stock_qty := 0 |}) empty_shop in
  post_cart_items sample_ctx
    {| body_product_id := Some "p2"; body_variant_id := Some "v1";
       body_quantity := None |} db
  = (db, Throw (HTTPException 400 "Insufficient stock")).
Proof. vm_compute. reflexivity. Qed.

(** ** One row per line (C4) *)

(** C4, evaluated where the code leaves the claim: two successful adds of
    product A without a variant, by one client, write two rows for the line
    (cart, A, no variant), of quantities 1 and 2, not one row of quantity 3. *)
Theorem C4_no_variant_adds_duplicate_rows :
  ∃ dbN,
    add_items sample_ctx (Some "p1") None
      [(sample_products, sample_variants, 1);
       (sample_products, sample_variants, 2)] empty_shop = Some dbN ∧
    (cart_id <$> carts dbN) = ["uuid-0"] ∧
    ((λ ci, (ci_quantity ci, ci_price_cents ci))
       <$> line_rows "uuid-0" "p1" None dbN) = [(1, 1000); (2, 1000)].
Proof. eexists. split; [vm_compute; reflexivity|]. vm_compute. done. Qed.

(** With a variant, the adds of one line merge into one row. *)

Lemma truthy_Some s : s ≠ "" → truthy (Some s) = Some s.
Proof. by destruct s. Qed.

Lemma resolveCart_found c db r :
  (resolveCart c false db).2 = Ok (Some r) →
  resolveCart c true db = (db, Ok (Some r)).
Proof.
  unfold resolveCart. unfold_M.
  destruct (truthy (ctx_userId c)); [|destruct (truthy (ctx_cart_token c))];
    simpl; try discriminate.
  - destruct (last _); simpl; [congruence|discriminate].
  - destruct (head _); simpl; [congruence|discriminate].
Qed.

Lemma conflicts_line cartId productId vid ci :
  conflicts cartId productId (Some vid) ci ↔
  ci_cart_id ci = cartId ∧ ci_product_id ci = productId ∧
  ci_variant_id ci = Some vid.
Proof.
  unfold conflicts. split; [intros (? & ? & ? & ?) | intros (? & ? & ?)]; eauto.
Qed.

Lemma line_rows_conflicts cartId productId vid db :
  line_rows cartId productId (Some vid) db =
  filter (conflicts cartId productId (Some vid)) (cart_items db).
Proof.
  unfold line_rows. apply list_filter_iff. intros ci.
  by rewrite conflicts_line.
Qed.

Lemma filter_bump cartId productId variantId q (l : list cart_item) :
  filter (conflicts cartId productId variantId)
    ((λ ci, if decide (conflicts cartId productId variantId ci)
            then bump_quantity q ci else ci) <$> l) =
  bump_quantity q <$> filter (conflicts cartId productId variantId) l.
Proof.
  induction l as [|ci l IH]; [done|]. rewrite fmap_cons.
  destruct (decide (conflicts cartId productId variantId ci)) as [Hc|Hc].
  - rewrite !filter_cons_True by done. by rewrite fmap_cons, IH.
  - by rewrite !filter_cons_False, IH by done.
Qed.

Lemma add_item_variant_step c pid vid q db db1 rep cartRow :
  pid ≠ "" → vid ≠ "" →
  (resolveCart c false db).2 = Ok (Some cartRow) →
  post_cart_items c
    {| body_product_id := Some pid; body_variant_id := Some vid;
       body_quantity := Some q |} db = (db1, Ok rep) →
  carts db1 = carts db ∧
  ∃ price,
    unit_price (products db) (variants db) pid vid = Some price ∧
    match line_rows (cart_id cartRow) pid (Some vid) db with
    | [] => ∃ row, line_rows (cart_id cartRow) pid (Some vid) db1 = [row] ∧
                   ci_quantity row = q ∧ ci_price_cents row = price
    | rows => line_rows (cart_id cartRow) pid (Some vid) db1 =
              bump_quantity q <$> rows
    end.
Proof.
  intros Hpid Hvid Hres. apply resolveCart_found in Hres.
  unfold post_cart_items, unit_price.
  cbn [body_product_id body_variant_id body_quantity].
  rewrite (truthy_Some _ Hpid), !(truthy_Some _ Hvid), bind_gets.
  destruct (products db !! pid) as [p|]; [|discriminate].
  destruct (p_is_active p); [|discriminate].
  match goal with |- context [ (?m ≫= _) db ] => set (price := m) end.
  assert (price db =
    match variants db !! vid with
    | Some v =>
        if decide (v_stock_qty v < q)
        then (db, Throw (HTTPException 400 "Insufficient stock"))
        else (db, Ok (default (p_price_cents p) (v_price_cents v)))
    | None => (db, Throw (HTTPException 404 "Variant not found"))
    end) as Hprice.
  { subst price. rewrite bind_gets. change (default 1 (Some q)) with q.
    destruct (variants db !! vid) as [v|]; [|done].
    destruct (decide (v_stock_qty v < q)); done. }
  destruct (variants db !! vid) as [v|];
    [|rewrite (bind_Throw _ _ _ _ _ Hprice); discriminate].
  case_decide; [rewrite (bind_Throw _ _ _ _ _ Hprice); discriminate|].
  rewrite (bind_run _ _ _ _ _ Hprice). change (default 1 (Some q)) with q.
  rewrite (bind_run _ _ _ _ _ Hres).
  unfold upsert_cart_item. case_decide; [discriminate|].
  rewrite !line_rows_conflicts.
  unfold gen_uuid, getCartWithItems. unfold_M.
  cbn [fst snd head]. cbv beta.
  destruct (filter _ (cart_items db)) as [|old rows] eqn:Hrows;
    cbn [head]; intros Hrun; injection Hrun as <- _;
    cbn [carts cart_items set_cart_items set_uuid_counter].
  - split; [done|]. eexists. split; [done|].
    rewrite filter_app, Hrows. rewrite filter_cons_True by (by apply conflicts_line).
    eexists. split; [done|]. done.
  - split; [done|]. eexists. split; [done|].
    by rewrite filter_bump, Hrows.
Qed.

Lemma resolveCart_same_carts c db db' :
  carts db' = carts db →
  (resolveCart c false db').2 = (resolveCart c false db).2.
Proof.
  intros Hc. destruct (resolveCart_read c db) as (r & Hr & Hr').
  by rewrite Hr, (Hr' db' Hc).
Qed.

Lemma add_items_variant_merge c pid vid steps db dbN cartRow row0 :
  pid ≠ "" → vid ≠ "" →
  (resolveCart c false db).2 = Ok (Some cartRow) →
  line_rows (cart_id cartRow) pid (Some vid) db = [row0] →
  add_items c (Some pid) (Some vid) steps db = Some dbN →
  ∃ row,
    line_rows (cart_id cartRow) pid (Some vid) dbN = [row] ∧
    ci_quantity row = ci_quantity row0 + total_quantity steps ∧
    ci_price_cents row = ci_price_cents row0.
Proof.
  intros Hpid Hvid. revert db row0.
  induction steps as [|[[ps vs] q] rest IH]; intros db row0 Hres Hrows Hrun.
  - simpl in Hrun. simplify_eq. exists row0. split; [done|].
    unfold total_quantity. simpl. split; [lia|done].
  - simpl in Hrun.
    destruct (post_cart_items _ _ (set_catalog ps vs db)) as [db1 [rep|e]] eqn:Hadd;
      [|discriminate].
    assert ((resolveCart c false (set_catalog ps vs db)).2 = Ok (Some cartRow))
      as Hres0 by (by rewrite (resolveCart_same_carts _ db)).
    destruct (add_item_variant_step _ _ _ _ _ _ _ _ Hpid Hvid Hres0 Hadd)
      as (Hcarts & price & _ & Hline).
    change (line_rows (cart_id cartRow) pid (Some vid) (set_catalog ps vs db))
      with (line_rows (cart_id cartRow) pid (Some vid) db) in Hline.
    rewrite Hrows in Hline. simpl in Hline.
    destruct (IH db1 (bump_quantity q row0)) as (row & Hrow & Hq & Hp);
      [by rewrite (resolveCart_same_carts _ db) | done | done |].
    exists row. split; [done|]. simpl in Hq, Hp.
    unfold total_quantity in *. simpl. split; [lia|done].
Qed.

(** With a variant given, every sequence of successful adds of one line by a
    client whose cart exists leaves exactly one row for the line, whose
    quantity is the sum of the requested quantities and whose price is the
    unit price of the catalog as it was at the first add, however the
    catalog is edited between the adds. *)
Theorem add_items_variant_single_row c pid vid ps vs q rest db dbN cartRow :
  pid ≠ "" → vid ≠ "" →
  (resolveCart c false db).2 = Ok (Some cartRow) →
  line_rows (cart_id cartRow) pid (Some vid) db = [] →
  add_items c (Some pid) (Some vid) ((ps, vs, q) :: rest) db = Some dbN →
  ∃ row price,
    line_rows (cart_id cartRow) pid (Some vid) dbN = [row] ∧
    ci_quantity row = total_quantity ((ps, vs, q) :: rest) ∧
    unit_price ps vs pid vid = Some price ∧
    ci_price_cents row = price.
Proof.
  intros Hpid Hvid Hres Hrows Hrun. simpl in Hrun.
  destruct (post_cart_items _ _ (set_catalog ps vs db)) as [db1 [rep|e]] eqn:Hadd;
    [|discriminate].
  assert ((resolveCart c false (set_catalog ps vs db)).2 = Ok (Some cartRow))
    as Hres0 by (by rewrite (resolveCart_same_carts _ db)).
  destruct (add_item_variant_step _ _ _ _ _ _ _ _ Hpid Hvid Hres0 Hadd)
    as (Hcarts & price & Hprice & Hline).
  change (line_rows (cart_id cartRow) pid (Some vid) (set_catalog ps vs db))
    with (line_rows (cart_id cartRow) pid (Some vid) db) in Hline.
  rewrite Hrows in Hline. destruct Hline as (row1 & Hrow1 & Hq1 & Hp1).
  destruct (add_items_variant_merge _ _ _ _ _ _ cartRow row1 Hpid Hvid
              ltac:(by rewrite (resolveCart_same_carts _ db)) Hrow1 Hrun)
    as (row & Hrow & Hq & Hp).
  exists row, price. split; [done|]. split; [|split; [exact Hprice | congruence]].
  unfold total_quantity in *. simpl. lia.
Qed.

Lemma add_items_variant_single_row_witness :
  ∃ row price,
    line_rows "c1" "p2" (Some "v1")
      (default sample_db
         (add_items sample_ctx (Some "p2") (Some "v1")
            [(sample_products, sample_variants, 2);
             (<["p2" := {| p_slug := "b"; p_name := "B"; p_price_cents := 9900;
                           p_image := None; p_is_active := true |}]> sample_products,
              sample_variants, 3)]
            (set_cart_items (λ _, []) sample_db))) = [row] ∧
    ci_quantity row =
      total_quantity
        [(sample_products, sample_variants, 2);
         (<["p2" := {| p_slug := "b"; p_name := "B"; p_price_cents := 9900;
                       p_image := None; p_is_active := true |}]> sample_products,
          sample_variants, 3)] ∧
    unit_price sample_products sample_variants "p2" "v1" = Some price ∧
    ci_price_cents row = price.
Proof.
  apply (add_items_variant_single_row sample_ctx "p2" "v1" sample_products
           sample_variants 2 _ (set_cart_items (λ _, []) sample_db) _ sample_cart).
  - discriminate.
  - discriminate.
  - reflexivity.
  - reflexivity.
  - vm_compute. reflexivity.
Defined.

(** The adds of the sample line, evaluated: the row keeps the price 2500 of
    the first add although the product costs 9900 at the second. *)
Example add_twice_scenario :
  (λ db, (λ ci, (ci_quantity ci, ci_price_cents ci))
           <$> line_rows "c1" "p2" (Some "v1") db)
    <$> add_items sample_ctx (Some "p2") (Some "v1")
          [(sample_products, sample_variants, 2);
           (<["p2" := {| p_slug := "b"; p_name := "B"; p_price_cents := 9900;
                         p_image := None; p_is_active := true |}]> sample_products,
            sample_variants, 3)]
          (set_cart_items (λ _, []) sample_db)
  = Some [(5, 2500)].
Proof. vm_compute. reflexivity. Qed.

(** ** Cart mutations leave the stock alone *)

Lemma post_cart_items_stock vs c b :
  stable (λ d, variants d = vs) (post_cart_items c b).
Proof.
  unfold post_cart_items, resolveCart, insert_cart, upsert_cart_item,
    getCartWithItems.
  solve_stable; done.
Qed.

Lemma patch_cart_item_stock vs c itemId quantity :
  stable (λ d, variants d = vs) (patch_cart_item c itemId quantity).
Proof.
  unfold patch_cart_item, resolveCart, insert_cart, getCartWithItems.
  solve_stable; done.
Qed.

Lemma delete_cart_item_stock vs c itemId :
  stable (λ d, variants d = vs) (delete_cart_item c itemId).
Proof.
  unfold delete_cart_item, resolveCart, insert_cart, getCartWithItems.
  solve_stable; done.
Qed.

(** No cart route writes the variants table: the stock counters after
    addItem, updateQuantity or removeItem are the ones before, whether the
    request succeeds or fails. *)
Theorem cart_mutations_keep_stock c b itemId quantity db :
  variants (post_cart_items c b db).1 = variants db ∧
  variants (patch_cart_item c itemId quantity db).1 = variants db ∧
  variants (delete_cart_item c itemId db).1 = variants db.
Proof.
  split; [|split].
  - by apply post_cart_items_stock.
  - by apply patch_cart_item_stock.
  - by apply delete_cart_item_stock.
Qed.

(** ** Event kinds the engine does not know *)

(** A first delivery of an event whose kind is none of the three the engine
    handles changes nothing but the ledger, where it is recorded as a
    success, and is acknowledged. *)
Theorem unknown_event_kind_acknowledged stripe secret body sig ev db :
  constructEventAsync stripe body sig secret = Ok ev →
  stripe_webhook_events db !! ev_id ev = None →
  ev_type ev ≠ "checkout.session.completed" →
  ev_type ev ≠ "payment_intent.payment_failed" →
  ev_type ev ≠ "charge.refunded" →
  post_webhooks_stripe stripe secret body sig db =
    (set_events (insert (ev_id ev) (recorded_success ev)) db, ack_processed).
Proof.
  intros Hsig Hnew H1 H2 H3.
  rewrite (webhook_first_delivery _ _ _ _ _ _ Hsig Hnew).
  unfold processStripeEvent. by rewrite !decide_False by done.
Qed.

Lemma unknown_event_kind_witness :
  post_webhooks_stripe
    {| constructEventAsync body sig secret :=
         Ok {| ev_id := "evt_9"; ev_type := "customer.created";
               ev_object := sample_session "cs_9" |};
       sessions_retrieve := sessions_retrieve sample_stripe;
       sessions_create := sessions_create sample_stripe |}
    "whsec" "evt_9" "good" sample_db =
    (set_events (insert "evt_9" (recorded_success
       {| ev_id := "evt_9"; ev_type := "customer.created";
          ev_object := sample_session "cs_9" |})) sample_db, ack_processed).
Proof.
  apply (unknown_event_kind_acknowledged _ "whsec" "evt_9" "good"
           {| ev_id := "evt_9"; ev_type := "customer.created";
              ev_object := sample_session "cs_9" |} sample_db);
    [reflexivity | reflexivity | discriminate | discriminate | discriminate].
Defined.

(** * More of the worker *)

(** ** What each route leaves alone *)

Lemma stable_frame {A T} (X : Db → T) (Q : T → Prop) (m : M A) :
  (∀ x, stable (λ d, X d = x) m) → stable (λ d, Q (X d)) m.
Proof. intros H db HQ. by rewrite (H (X db) db eq_refl). Qed.

Lemma get_cart_reads c db : (get_cart c db).1 = db.
Proof.
  unfold get_cart. destruct (resolveCart_read c db) as ([r|] & Hr & _);
    rewrite (bind_run _ _ _ _ _ Hr); [|done].
  destruct (getCartWithItems_run (cart_id r) db) as (snap & Hsnap & _).
  by rewrite (bind_run _ _ _ _ _ Hsnap).
Qed.

Lemma get_orders_reads userId db : (get_orders userId db).1 = db.
Proof. reflexivity. Qed.

Lemma get_order_reads userId orderId db : (get_order userId orderId db).1 = db.
Proof.
  unfold get_order. rewrite bind_gets. by destruct (head _).
Qed.

Lemma post_cart_items_frame db0 c b :
  stable (same_outside_cart db0) (post_cart_items c b).
Proof.
  unfold post_cart_items, resolveCart, insert_cart, upsert_cart_item,
    getCartWithItems.
  solve_stable; done.
Qed.

Lemma patch_cart_item_frame db0 c itemId quantity :
  stable (same_outside_cart db0) (patch_cart_item c itemId quantity).
Proof.
  unfold patch_cart_item, resolveCart, insert_cart, getCartWithItems.
  solve_stable; done.
Qed.

Lemma delete_cart_item_frame db0 c itemId :
  stable (same_outside_cart db0) (delete_cart_item c itemId).
Proof.
  unfold delete_cart_item, resolveCart, insert_cart, getCartWithItems.
  solve_stable; done.
Qed.

Lemma post_checkout_session_frame db0 stripe c su cu :
  stable (same_but_carts db0) (post_checkout_session stripe c su cu).
Proof.
  unfold post_checkout_session, resolveCart, insert_cart, getCartWithItems.
  solve_stable; done.
Qed.

Lemma admin_patch_variant_stock_frame {T} (X : Db → T) x vid sq adj :
  (∀ f db, X (set_variants f db) = X db) →
  stable (λ d, X d = x) (admin_patch_variant_stock vid sq adj).
Proof.
  intros HX. unfold admin_patch_variant_stock.
  solve_stable; by rewrite ?HX.
Qed.

Lemma same_outside_cart_refl db : same_outside_cart db db.
Proof. by repeat split. Qed.

Lemma same_but_carts_refl db : same_but_carts db db.
Proof. by repeat split. Qed.

(** Every route but the webhook and the admin stock patch writes the carts
    and the cart items only. *)
Lemma serve_bound_cart_side stripe secret db r :
  match r with StripeWebhook _ _ | AdminStock _ _ _ => False | _ => True end →
  same_outside_cart db (serve_bound stripe secret db r).
Proof.
  destruct r; simpl; intros Hr; try done.
  - rewrite get_cart_reads. apply same_outside_cart_refl.
  - apply post_cart_items_frame, same_outside_cart_refl.
  - apply patch_cart_item_frame, same_outside_cart_refl.
  - apply delete_cart_item_frame, same_outside_cart_refl.
  - destruct (post_checkout_session_frame db stripe c success_url cancel_url db
                (same_but_carts_refl db)) as (? & ? & ? & ? & ? & ? & ?).
    by repeat split.
  - rewrite get_order_reads. apply same_outside_cart_refl.
Qed.

Ltac cart_side :=
  match goal with
  | |- context [ serve_bound ?stripe ?secret ?db ?r ] =>
      destruct (serve_bound_cart_side stripe secret db r I) as (? & ? & ? & ? & ? & ?)
  end.

Lemma patch_cart_items_itemId_read c itemId id quantity db :
  uuid_in itemId = Some id →
  int4 quantity →
  patch_cart_items_itemId c itemId quantity db = patch_cart_item c id quantity db.
Proof.
  intros Hid Hq. unfold patch_cart_items_itemId, patch_cart_item.
  rewrite Hid. by destruct (decide (int4 quantity)).
Qed.

(** A request as it is sent is refused when its parameters are bound, and
    then writes nothing, or is served as the request on the values read. *)
Lemma patch_cart_items_itemId_db c itemId quantity db :
  (patch_cart_items_itemId c itemId quantity db).1 = db ∨
  ∃ id, (patch_cart_items_itemId c itemId quantity db).1 =
        (patch_cart_item c id quantity db).1.
Proof.
  destruct (decide (int4 quantity)) as [Hq|Hq];
    [destruct (uuid_in itemId) as [id|] eqn:Hid|].
  - right. exists id. by rewrite (patch_cart_items_itemId_read _ _ _ _ _ Hid Hq).
  - left. unfold patch_cart_items_itemId. case_decide; [done|].
    destruct (resolveCart_read c db) as ([r|] & Hr & _);
      rewrite (bind_run _ _ _ _ _ Hr); [|done].
    rewrite decide_True by done. by rewrite Hid.
  - left. unfold patch_cart_items_itemId. case_decide; [done|].
    destruct (resolveCart_read c db) as ([r|] & Hr & _);
      rewrite (bind_run _ _ _ _ _ Hr); [|done].
    by rewrite decide_False by done.
Qed.

Lemma delete_cart_items_itemId_db c itemId db :
  (delete_cart_items_itemId c itemId db).1 = db ∨
  ∃ id, (delete_cart_items_itemId c itemId db).1 = (delete_cart_item c id db).1.
Proof.
  destruct (uuid_in itemId) as [id|] eqn:Hid.
  - right. exists id. by rewrite (delete_cart_items_itemId_read _ _ _ _ Hid).
  - left. unfold delete_cart_items_itemId.
    destruct (resolveCart_read c db) as ([r|] & Hr & _);
      rewrite (bind_run _ _ _ _ _ Hr); [|done].
    by rewrite Hid.
Qed.

Lemma get_orders_id_reads userId orderId db :
  (get_orders_id userId orderId db).1 = db.
Proof.
  unfold get_orders_id. destruct (uuid_in orderId) as [id|]; [|done].
  rewrite bind_gets. by destruct (head _).
Qed.

Lemma patch_admin_variants_id_stock_db variantId stock_qty adjustment db :
  (patch_admin_variants_id_stock variantId stock_qty adjustment db).1 = db ∨
  ∃ id, (patch_admin_variants_id_stock variantId stock_qty adjustment db).1 =
        (admin_patch_variant_stock id stock_qty adjustment db).1.
Proof.
  unfold patch_admin_variants_id_stock, admin_patch_variant_stock.
  destruct stock_qty as [q|]; [|destruct adjustment as [a|]]; [| |by left].
  - destruct (decide (int4 q)); [|by left].
    destruct (uuid_in variantId) as [id|]; [|by left].
    right. exists id. unfold_M. simpl.
    destruct (variants db !! id) as [v|]; [|done].
    by destruct (decide (q < 0)).
  - destruct (decide (int4 a)); [|by left].
    destruct (uuid_in variantId) as [id|]; [|by left].
    unfold_M. simpl. destruct (variants db !! id) as [v|] eqn:Hv.
    + destruct (decide (int4 (v_stock_qty v + a))); [|by left].
      right. exists id. simpl. rewrite lookup_alter_eq, Hv. simpl.
      destruct db. unfold set_variants. simpl in *. f_equal.
      apply map_eq. intros k. destruct (decide (k = id)) as [->|Hk].
      * by rewrite lookup_alter_eq, lookup_insert_eq, Hv.
      * by rewrite lookup_alter_ne, lookup_insert_ne.
    + by left.
Qed.

Lemma serve_cases stripe secret db r :
  serve stripe secret db r = db ∨
  ∃ r', serve stripe secret db r = serve_bound stripe secret db r'.
Proof.
  destruct r; simpl.
  - right. by exists (GetCart c).
  - right. by exists (AddItem c b).
  - destruct (patch_cart_items_itemId_db c itemId quantity db) as [H|[id H]];
      [by left|]. right. by exists (UpdateItem c id quantity).
  - destruct (delete_cart_items_itemId_db c itemId db) as [H|[id H]];
      [by left|]. right. by exists (RemoveItem c id).
  - right. by exists (CreateSession c success_url cancel_url).
  - right. by exists (GetOrders userId).
  - left. apply get_orders_id_reads.
  - right. by exists (StripeWebhook body sig).
  - destruct (patch_admin_variants_id_stock_db variantId stock_qty adjustment db)
      as [H|[id H]]; [by left|].
    right. by exists (AdminStock id stock_qty adjustment).
Qed.

(** ** The schema's checks hold after every request *)

Lemma admin_patch_variant_stock_nonneg vid sq adj :
  stable stock_nonneg (admin_patch_variant_stock vid sq adj).
Proof.
  unfold admin_patch_variant_stock. solve_stable.
  - apply map_Forall_insert_2; [simpl; lia | done].
  - apply map_Forall_alter_stock; [|done]. intros v. simpl. lia.
Qed.

Lemma serve_bound_stock_nonneg stripe secret db r :
  stock_nonneg db → stock_nonneg (serve_bound stripe secret db r).
Proof.
  intros H.
  destruct r;
    first
      [ by apply post_webhooks_stripe_nonneg
      | by apply admin_patch_variant_stock_nonneg
      | match goal with
        | |- stock_nonneg (serve_bound _ _ _ ?r) =>
            destruct (serve_bound_cart_side stripe secret db r I) as (_ & _ & Hv & _)
        end;
        unfold stock_nonneg; by rewrite Hv ].
Qed.

Lemma Forall_filter_keep {A} (P Q : A → Prop) `{∀ x, Decision (Q x)} (l : list A) :
  Forall P l → Forall P (filter Q l).
Proof.
  rewrite !Forall_forall. intros HP x Hx.
  apply list_elem_of_filter in Hx as [_ Hx]. by apply HP.
Qed.

Lemma upsert_cart_item_positive cartId productId variantId quantity price :
  stable quantities_positive
    (upsert_cart_item cartId productId variantId quantity price).
Proof.
  unfold upsert_cart_item, quantities_positive. solve_stable; simpl.
  - apply Forall_fmap. eapply Forall_impl; [done|]. intros ci Hci. simpl in *.
    destruct (decide (conflicts cartId productId variantId ci)); simpl; lia.
  - done.
  - apply Forall_app. split; [done|]. apply Forall_singleton. simpl. lia.
Qed.

Lemma resolveCart_positive c create :
  stable quantities_positive (resolveCart c create).
Proof.
  unfold resolveCart, insert_cart, quantities_positive. solve_stable; done.
Qed.

Lemma post_cart_items_positive c b :
  stable quantities_positive (post_cart_items c b).
Proof.
  unfold post_cart_items, getCartWithItems.
  repeat first [ apply upsert_cart_item_positive | apply resolveCart_positive
               | stable_step ].
Qed.

Lemma patch_cart_item_positive c itemId quantity :
  stable quantities_positive (patch_cart_item c itemId quantity).
Proof.
  unfold patch_cart_item, getCartWithItems.
  repeat first [ apply resolveCart_positive | stable_step ].
  unfold quantities_positive in *. simpl.
  apply Forall_fmap. eapply Forall_impl; [done|]. intros ci Hci. simpl in *.
  destruct (decide (ci_id ci = itemId ∧ ci_cart_id ci = cart_id c0)); simpl; lia.
Qed.

Lemma delete_cart_item_positive c itemId :
  stable quantities_positive (delete_cart_item c itemId).
Proof.
  unfold delete_cart_item, getCartWithItems.
  repeat first [ apply resolveCart_positive | stable_step ].
  unfold quantities_positive in *. simpl. by apply Forall_filter_keep.
Qed.

Lemma settle_line_items_positive orderId lineItems :
  stable quantities_positive (settle_line_items orderId lineItems).
Proof.
  induction lineItems as [|li rest IH]; simpl.
  - solve_stable.
  - apply stable_bind; [| intros ?; exact IH].
    unfold settle_line_item, insert_order_item, decrement_stock.
    solve_stable; done.
Qed.

Lemma post_webhooks_stripe_positive stripe secret body sig :
  stable quantities_positive (post_webhooks_stripe stripe secret body sig).
Proof.
  unfold post_webhooks_stripe, insert_webhook_event, upsert_webhook_event_error,
    processStripeEvent, insert_order, update_user_customer, update_order_status.
  repeat first [ apply settle_line_items_positive | stable_step ]; try done.
  unfold quantities_positive in *. simpl. by apply Forall_filter_keep.
Qed.

Lemma serve_bound_quantities_positive stripe secret db r :
  quantities_positive db → quantities_positive (serve_bound stripe secret db r).
Proof.
  intros H. destruct r; simpl.
  - by rewrite get_cart_reads.
  - by apply post_cart_items_positive.
  - by apply patch_cart_item_positive.
  - by apply delete_cart_item_positive.
  - destruct (post_checkout_session_frame db stripe c success_url cancel_url db
                (same_but_carts_refl db)) as (_ & _ & _ & Hci & _).
    unfold quantities_positive. by rewrite Hci.
  - done.
  - by rewrite get_order_reads.
  - by apply post_webhooks_stripe_positive.
  - unfold quantities_positive.
    by rewrite (admin_patch_variant_stock_frame cart_items (cart_items db)
                  variantId stock_qty adjustment (λ _ _, eq_refl) db eq_refl).
Qed.

Lemma settle_line_items_keeps {T} (X : Db → T) x orderId lineItems :
  (∀ f db, X (set_order_items f db) = X db) →
  (∀ f db, X (set_variants f db) = X db) →
  (∀ f db, X (set_uuid_counter f db) = X db) →
  stable (λ d, X d = x) (settle_line_items orderId lineItems).
Proof.
  intros H1 H2 H3. induction lineItems as [|li rest IH]; simpl.
  - solve_stable.
  - apply stable_bind; [| intros ?; exact IH].
    unfold settle_line_item, insert_order_item, decrement_stock.
    solve_stable; try done; by rewrite ?H1, ?H2, ?H3.
Qed.

Lemma insert_order_sessions userId session :
  stable sessions_unique (insert_order userId session).
Proof.
  intros db H. unfold insert_order, gen_uuid, sessions_unique in *.
  unfold_M. simpl. repeat case_decide; simpl; try done.
  rewrite omap_app. simpl. apply NoDup_app. split; [done|]. split.
  - intros sid Hin Hsid. apply list_elem_of_singleton in Hsid as ->.
    apply list_elem_of_omap in Hin as (o & Ho & Hs).
    match goal with Hex : ¬ Exists _ _ |- _ => apply Hex end.
    apply Exists_exists. eauto.
  - apply NoDup_singleton.
Qed.

Lemma omap_session_status (g : order → order) (l : list order) :
  (∀ o, o_stripe_session_id (g o) = o_stripe_session_id o) →
  omap o_stripe_session_id (g <$> l) = omap o_stripe_session_id l.
Proof.
  intros Hg. induction l as [|o l IH]; [done|].
  csimpl. by rewrite Hg, IH.
Qed.

Lemma update_order_status_sessions pi s :
  stable sessions_unique (update_order_status pi s).
Proof.
  intros db H. unfold update_order_status, sessions_unique in *. simpl.
  rewrite omap_session_status; [done|]. intros o. by case_decide.
Qed.

Lemma processStripeEvent_sessions stripe ev :
  stable sessions_unique (processStripeEvent stripe ev).
Proof.
  unfold processStripeEvent, update_user_customer.
  repeat first
    [ apply insert_order_sessions | apply update_order_status_sessions
    | apply (stable_frame orders (λ l, NoDup (omap o_stripe_session_id l)));
      intros ?; by apply settle_line_items_keeps
    | stable_step ]; done.
Qed.

Lemma post_webhooks_stripe_sessions stripe secret body sig :
  stable sessions_unique (post_webhooks_stripe stripe secret body sig).
Proof.
  unfold post_webhooks_stripe, insert_webhook_event, upsert_webhook_event_error.
  repeat first [ apply processStripeEvent_sessions | stable_step ]; done.
Qed.

Lemma serve_bound_sessions_unique stripe secret db r :
  sessions_unique db → sessions_unique (serve_bound stripe secret db r).
Proof.
  intros H.
  assert (∀ d, orders d = orders db → sessions_unique d) as Hsame.
  { intros d Hd. unfold sessions_unique in *. by rewrite Hd. }
  destruct r; try (apply Hsame; by cart_side).
  - by apply post_webhooks_stripe_sessions.
  - apply Hsame.
    by apply (admin_patch_variant_stock_frame orders (orders db)).
Qed.

Lemma serve_stock_nonneg stripe secret db r :
  stock_nonneg db → stock_nonneg (serve stripe secret db r).
Proof.
  intros H. destruct (serve_cases stripe secret db r) as [->|[r' ->]];
    [done | by apply serve_bound_stock_nonneg].
Qed.

Lemma serve_quantities_positive stripe secret db r :
  quantities_positive db → quantities_positive (serve stripe secret db r).
Proof.
  intros H. destruct (serve_cases stripe secret db r) as [->|[r' ->]];
    [done | by apply serve_bound_quantities_positive].
Qed.

Lemma serve_sessions_unique stripe secret db r :
  sessions_unique db → sessions_unique (serve stripe secret db r).
Proof.
  intros H. destruct (serve_cases stripe secret db r) as [->|[r' ->]];
    [done | by apply serve_bound_sessions_unique].
Qed.

(** The schema's checks on stock counters, cart quantities and order
    sessions hold after every sequence of requests to the routes of the
    worker, answered or failed, if they held before: no variant's stock is
    negative, no cart item's quantity is below one, and no two orders carry
    the same checkout session. *)
Theorem worker_keeps_schema_checks stripe secret rs db :
  stock_nonneg db → quantities_positive db → sessions_unique db →
  stock_nonneg (serve_all stripe secret db rs) ∧
  quantities_positive (serve_all stripe secret db rs) ∧
  sessions_unique (serve_all stripe secret db rs).
Proof.
  unfold serve_all. revert db.
  induction rs as [|r rs IH]; intros db H1 H2 H3; [done|]. simpl.
  apply IH.
  - by apply serve_stock_nonneg.
  - by apply serve_quantities_positive.
  - by apply serve_sessions_unique.
Qed.

Lemma worker_keeps_schema_checks_witness :
  stock_nonneg
    (serve_all sample_stripe "whsec" sample_db
       [AddItem sample_ctx {| body_product_id := Some "p2";
                              body_variant_id := Some "v1";
                              body_quantity := Some 0 |};
        UpdateItem sample_ctx "i1" 7;
        StripeWebhook "evt_1" "good";
        AdminStock "v1" (Some (-3)) None;
        AdminStock "v1" None (Some (-30));
        StripeWebhook "evt_2" "good"]) ∧
  quantities_positive
    (serve_all sample_stripe "whsec" sample_db
       [AddItem sample_ctx {| body_product_id := Some "p2";
                              body_variant_id := Some "v1";
                              body_quantity := Some 0 |};
        UpdateItem sample_ctx "i1" 7;
        StripeWebhook "evt_1" "good";
        AdminStock "v1" (Some (-3)) None;
        AdminStock "v1" None (Some (-30));
        StripeWebhook "evt_2" "good"]) ∧
  sessions_unique
    (serve_all sample_stripe "whsec" sample_db
       [AddItem sample_ctx {| body_product_id := Some "p2";
                              body_variant_id := Some "v1";
                              body_quantity := Some 0 |};
        UpdateItem sample_ctx "i1" 7;
        StripeWebhook "evt_1" "good";
        AdminStock "v1" (Some (-3)) None;
        AdminStock "v1" None (Some (-30));
        StripeWebhook "evt_2" "good"]).
Proof.
  apply (worker_keeps_schema_checks sample_stripe "whsec").
  - apply map_Forall_insert_2; [simpl; lia | apply map_Forall_empty].
  - repeat constructor.
  - constructor.
Defined.

(** ** Orders change in their status only *)

Lemma set_status_same o : set_status (o_status o) o = o.
Proof. by destruct o. Qed.

Lemma orders_evolve_refl l : orders_evolve l l.
Proof.
  exists l, []. split; [by rewrite app_nil_r|].
  induction l as [|o l IH]; constructor; [|done].
  exists (o_status o). by rewrite set_status_same.
Qed.

Lemma orders_evolve_append l l' row :
  orders_evolve l l' → orders_evolve l (l' ++ [row]).
Proof.
  intros (kept & new & -> & Hk). exists kept, (new ++ [row]).
  by rewrite app_assoc.
Qed.

Lemma orders_evolve_status l l' (P : order → Prop) `{∀ o, Decision (P o)} s :
  orders_evolve l l' →
  orders_evolve l ((λ o, if decide (P o) then set_status s o else o) <$> l').
Proof.
  intros (kept & new & -> & Hk). rewrite fmap_app.
  eexists _, _. split; [done|].
  apply Forall2_fmap_r. eapply Forall2_impl; [exact Hk|].
  intros o o' (s' & ->). simpl. case_decide; eauto.
Qed.

Lemma orders_evolve_trans l1 l2 l3 :
  orders_evolve l1 l2 → orders_evolve l2 l3 → orders_evolve l1 l3.
Proof.
  intros (k1 & n1 & -> & H1) (k2 & n2 & -> & H2).
  apply Forall2_app_inv_l in H2 as (k2a & k2b & Ha & Hb & ->).
  exists k2a, (k2b ++ n2). split; [by rewrite app_assoc|].
  revert k2a Ha. induction H1 as [|o o' l k (s & ->) _ IH]; intros k2a Ha.
  - apply Forall2_nil_inv_l in Ha as ->. constructor.
  - apply Forall2_cons_inv_l in Ha as (o'' & k' & (s' & ->) & Hk' & ->).
    constructor; [by exists s'|]. by apply IH.
Qed.

Lemma insert_order_evolve l0 userId session :
  stable (λ d, orders_evolve l0 (orders d)) (insert_order userId session).
Proof.
  intros db H. unfold insert_order, gen_uuid. unfold_M. simpl.
  repeat case_decide; simpl; try done. by apply orders_evolve_append.
Qed.

Lemma update_order_status_evolve l0 pi s :
  stable (λ d, orders_evolve l0 (orders d)) (update_order_status pi s).
Proof.
  intros db H. unfold update_order_status. simpl.
  by apply (orders_evolve_status _ _
              (λ o, is_Some pi ∧ o_stripe_payment_intent_id o = pi)).
Qed.

Lemma post_webhooks_stripe_evolve l0 stripe secret body sig :
  stable (λ d, orders_evolve l0 (orders d))
    (post_webhooks_stripe stripe secret body sig).
Proof.
  unfold post_webhooks_stripe, insert_webhook_event, upsert_webhook_event_error,
    processStripeEvent, update_user_customer.
  repeat first
    [ apply insert_order_evolve | apply update_order_status_evolve
    | apply (stable_frame orders (orders_evolve l0));
      intros ?; by apply settle_line_items_keeps
    | stable_step ]; done.
Qed.

Lemma serve_bound_orders_evolve stripe secret db r :
  orders_evolve (orders db) (orders (serve_bound stripe secret db r)).
Proof.
  destruct r;
    try (cart_side;
         match goal with H : orders _ = _ |- _ => rewrite H end;
         apply orders_evolve_refl).
  - apply (post_webhooks_stripe_evolve (orders db)), orders_evolve_refl.
  - simpl.
    rewrite (admin_patch_variant_stock_frame orders (orders db) variantId
               stock_qty adjustment (λ _ _, eq_refl) db eq_refl).
    apply orders_evolve_refl.
Qed.

Lemma serve_orders_evolve stripe secret db r :
  orders_evolve (orders db) (orders (serve stripe secret db r)).
Proof.
  destruct (serve_cases stripe secret db r) as [->|[r' ->]];
    [apply orders_evolve_refl | apply serve_bound_orders_evolve].
Qed.

(** An Order is immutable after creation except for its status: whatever
    requests the worker serves, the orders that existed are all still there,
    in the same order and equal to what they were in every column but the
    status, followed by the orders created since. *)
Theorem orders_only_change_status stripe secret rs db :
  orders_evolve (orders db) (orders (serve_all stripe secret db rs)).
Proof.
  unfold serve_all. revert db.
  induction rs as [|r rs IH]; intros db; [apply orders_evolve_refl|]. simpl.
  eapply orders_evolve_trans; [apply serve_orders_evolve | apply IH].
Qed.

(** ** The catalog: stock counters are all that changes *)

Lemma stock_only_refl vs : stock_only vs vs.
Proof. intros k. destruct (vs !! k) as [v|]; [by destruct v | done]. Qed.

Lemma stock_only_trans vs1 vs2 vs3 :
  stock_only vs1 vs2 → stock_only vs2 vs3 → stock_only vs1 vs3.
Proof.
  intros H1 H2 k. specialize (H1 k). specialize (H2 k).
  destruct (vs1 !! k) as [v1|], (vs2 !! k) as [v2|], (vs3 !! k) as [v3|];
    try done.
  rewrite H2, H1. done.
Qed.

Lemma stock_only_alter vs vs' (g : variant → Z) k :
  stock_only vs vs' →
  stock_only vs (alter (λ v, set_stock_qty (g v) v) k vs').
Proof.
  intros H i. specialize (H i). rewrite lookup_alter.
  case_decide; [subst i|done].
  destruct (vs !! k) as [v|], (vs' !! k) as [v'|]; simpl; try done.
  rewrite H. done.
Qed.

Lemma settle_line_items_catalog vs0 ps0 orderId lineItems :
  stable (λ d, stock_only vs0 (variants d) ∧ products d = ps0)
    (settle_line_items orderId lineItems).
Proof.
  induction lineItems as [|li rest IH]; simpl.
  - solve_stable.
  - apply stable_bind; [| intros ?; exact IH].
    unfold settle_line_item, insert_order_item, decrement_stock.
    solve_stable; try done.
    match goal with H : _ ∧ _ |- _ => destruct H as [Hs Hp] end.
    split; [|done]. simpl.
    by apply (stock_only_alter _ _
                (λ v, Z.max 0 (v_stock_qty v - default 1 (li_quantity li)))).
Qed.

Lemma post_webhooks_stripe_catalog vs0 ps0 stripe secret body sig :
  stable (λ d, stock_only vs0 (variants d) ∧ products d = ps0)
    (post_webhooks_stripe stripe secret body sig).
Proof.
  unfold post_webhooks_stripe, insert_webhook_event, upsert_webhook_event_error,
    processStripeEvent, insert_order, update_user_customer, update_order_status.
  repeat first [ apply settle_line_items_catalog | stable_step ]; done.
Qed.

Lemma admin_patch_variant_stock_catalog vs0 ps0 vid sq adj :
  stable (λ d, stock_only vs0 (variants d) ∧ products d = ps0)
    (admin_patch_variant_stock vid sq adj).
Proof.
  intros db [Hs Hp]. unfold admin_patch_variant_stock. unfold_M.
  destruct sq as [q|]; [|destruct adj as [a|]]; simpl; [| |done].
  - destruct (variants db !! vid) as [v|] eqn:Hv; simpl; [|done].
    case_decide; simpl; [done|]. split; [|done].
    replace (<[vid:=set_stock_qty q v]> (variants db))
      with (alter (λ v, set_stock_qty q v) vid (variants db)).
    + by apply (stock_only_alter _ _ (λ _, q)).
    + apply map_eq. intros i. rewrite lookup_alter, lookup_insert.
      case_decide; [subst i; by rewrite Hv | done].
  - destruct (alter _ vid (variants db) !! vid); simpl; split; try done;
      by apply (stock_only_alter _ _ (λ v, Z.max 0 (v_stock_qty v + a))).
Qed.

Lemma serve_bound_catalog stripe secret db r :
  stock_only (variants db) (variants (serve_bound stripe secret db r)) ∧
  products (serve_bound stripe secret db r) = products db.
Proof.
  destruct r;
    try (cart_side;
         match goal with
         | Hv : variants _ = _, Hp : products _ = _ |- _ => rewrite Hv, Hp
         end; split; [apply stock_only_refl | done]).
  - apply (post_webhooks_stripe_catalog (variants db) (products db)).
    split; [apply stock_only_refl | done].
  - apply (admin_patch_variant_stock_catalog (variants db) (products db)).
    split; [apply stock_only_refl | done].
Qed.

Lemma serve_catalog stripe secret db r :
  stock_only (variants db) (variants (serve stripe secret db r)) ∧
  products (serve stripe secret db r) = products db.
Proof.
  destruct (serve_cases stripe secret db r) as [->|[r' ->]];
    [split; [apply stock_only_refl | done] | apply serve_bound_catalog].
Qed.

(** No route modelled here creates or deletes a variant or changes a
    variant's price, name or product, and none writes the products table:
    after any sequence of requests every variant is what it was but for its
    stock counter, and the products are what they were. *)
Theorem catalog_changes_in_stock_only stripe secret rs db :
  stock_only (variants db) (variants (serve_all stripe secret db rs)) ∧
  products (serve_all stripe secret db rs) = products db.
Proof.
  unfold serve_all. revert db.
  induction rs as [|r rs IH]; intros db; [split; [apply stock_only_refl|done]|].
  simpl. destruct (serve_catalog stripe secret db r) as [Hs Hp].
  destruct (IH (serve stripe secret db r)) as [Hs' Hp'].
  split; [by eapply stock_only_trans | congruence].
Qed.

(** ** More event kinds and edge cases of the intake *)

Lemma processStripeEvent_payment_failed stripe ev :
  ev_type ev = "payment_intent.payment_failed" →
  processStripeEvent stripe ev =
    update_order_status (Some (obj_id (ev_object ev))) pending.
Proof.
  intros Hty. unfold processStripeEvent. rewrite Hty.
  repeat (case_decide; try discriminate); congruence.
Qed.

(** A first delivery of a "payment failed" event sets every order that
    carries the failed payment intent to pending, an order already paid
    included, leaves the other orders as they are, records the event without
    error text and acknowledges it. *)
Theorem payment_failed_sets_pending stripe secret body sig ev db :
  constructEventAsync stripe body sig secret = Ok ev →
  stripe_webhook_events db !! ev_id ev = None →
  ev_type ev = "payment_intent.payment_failed" →
  ∃ dbF,
    post_webhooks_stripe stripe secret body sig db = (dbF, ack_processed) ∧
    stripe_webhook_events dbF !! ev_id ev = Some (recorded_success ev) ∧
    orders dbF =
      (λ o, if decide (o_stripe_payment_intent_id o = Some (obj_id (ev_object ev)))
            then set_status pending o else o) <$> orders db ∧
    (∀ o, o ∈ orders db →
          o_stripe_payment_intent_id o = Some (obj_id (ev_object ev)) →
          set_status pending o ∈ orders dbF) ∧
    order_items dbF = order_items db ∧ variants dbF = variants db ∧
    cart_items dbF = cart_items db.
Proof.
  intros Hsig Hnew Hty.
  rewrite (webhook_first_delivery _ _ _ _ _ _ Hsig Hnew),
    (processStripeEvent_payment_failed _ _ Hty).
  unfold update_order_status, modify. eexists. split; [done|]. simpl.
  split; [by rewrite lookup_insert_eq|].
  assert (∀ o, (if decide (is_Some (Some (obj_id (ev_object ev))) ∧
                           o_stripe_payment_intent_id o = Some (obj_id (ev_object ev)))
                then set_status pending o else o) =
               (if decide (o_stripe_payment_intent_id o = Some (obj_id (ev_object ev)))
                then set_status pending o else o)) as Hsame.
  { intros o. repeat case_decide; try done; exfalso; intuition eauto. }
  split; [|split; [|done]].
  - apply list_fmap_ext. intros i o _. apply Hsame.
  - intros o Ho Hpi. apply list_elem_of_fmap. exists o.
    rewrite decide_True; [done|]. eauto.
Qed.

Lemma payment_failed_sets_pending_witness :
  ∃ dbF,
    post_webhooks_stripe (stripe_sending payment_failed_event) "whsec" "b" "s"
      paid_db = (dbF, ack_processed) ∧
    stripe_webhook_events dbF !! "evt_5" =
      Some (recorded_success payment_failed_event) ∧
    orders dbF =
      (λ o, if decide (o_stripe_payment_intent_id o = Some "pi_cs_1")
            then set_status pending o else o) <$> orders paid_db ∧
    (∀ o, o ∈ orders paid_db →
          o_stripe_payment_intent_id o = Some "pi_cs_1" →
          set_status pending o ∈ orders dbF) ∧
    order_items dbF = order_items paid_db ∧ variants dbF = variants paid_db ∧
    cart_items dbF = cart_items paid_db.
Proof.
  apply (payment_failed_sets_pending (stripe_sending payment_failed_event)
           "whsec" "b" "s" payment_failed_event paid_db);
    [reflexivity | vm_compute; reflexivity | reflexivity].
Defined.

(** A paid order whose payment intent is later reported as failed,
    evaluated: it goes back to pending. *)
Example payment_failed_scenario :
  (o_status <$> orders paid_db) = [paid] ∧
  (o_status <$> orders
     (post_webhooks_stripe (stripe_sending payment_failed_event) "whsec" "b" "s"
        paid_db).1) = [pending].
Proof. vm_compute. done. Qed.

(** A first delivery of a completed checkout whose session metadata holds no
    cart identifier is acknowledged and recorded as a success although
    nothing is settled: no order, no order item, no stock decrement, no cart
    clearing, and Stripe is not asked for the line items. *)
Theorem checkout_without_cart_settles_nothing stripe secret body sig ev db :
  constructEventAsync stripe body sig secret = Ok ev →
  stripe_webhook_events db !! ev_id ev = None →
  ev_type ev = "checkout.session.completed" →
  truthy (obj_metadata_cart_id (ev_object ev)) = None →
  post_webhooks_stripe stripe secret body sig db =
    (set_events (insert (ev_id ev) (recorded_success ev)) db, ack_processed) ∧
  orders (post_webhooks_stripe stripe secret body sig db).1 = orders db ∧
  variants (post_webhooks_stripe stripe secret body sig db).1 = variants db ∧
  cart_items (post_webhooks_stripe stripe secret body sig db).1 = cart_items db.
Proof.
  intros Hsig Hnew Hty Hcart.
  rewrite (webhook_first_delivery _ _ _ _ _ _ Hsig Hnew).
  unfold processStripeEvent. rewrite decide_True by done. by rewrite Hcart.
Qed.

Lemma checkout_without_cart_witness :
  post_webhooks_stripe (stripe_sending foreign_event) "whsec" "b" "s" sample_db =
    (set_events (insert "evt_7" (recorded_success foreign_event)) sample_db,
     ack_processed) ∧
  orders (post_webhooks_stripe (stripe_sending foreign_event) "whsec" "b" "s"
            sample_db).1 = orders sample_db ∧
  variants (post_webhooks_stripe (stripe_sending foreign_event) "whsec" "b" "s"
              sample_db).1 = variants sample_db ∧
  cart_items (post_webhooks_stripe (stripe_sending foreign_event) "whsec" "b" "s"
                sample_db).1 = cart_items sample_db.
Proof.
  apply (checkout_without_cart_settles_nothing (stripe_sending foreign_event)
           "whsec" "b" "s" foreign_event sample_db); reflexivity.
Defined.

(** A first delivery of a completed checkout whose session already has an
    order (a second event, with an identifier of its own, for the same
    session) creates no second order: the order insert is the first write of
    the settlement and it fails, so nothing but the ledger changes: the event
    is recorded with the error text and HTTP 500 is returned. *)
Theorem second_event_for_session_rejected
    stripe secret body sig ev db cartId fullSession :
  constructEventAsync stripe body sig secret = Ok ev →
  stripe_webhook_events db !! ev_id ev = None →
  ev_type ev = "checkout.session.completed" →
  truthy (obj_metadata_cart_id (ev_object ev)) = Some cartId →
  sessions_retrieve stripe (obj_id (ev_object ev)) = Ok fullSession →
  Exists (λ o, o_stripe_session_id o = Some (obj_id (ev_object ev))) (orders db) →
  ∃ message,
    post_webhooks_stripe stripe secret body sig db =
      (set_events (insert (ev_id ev) (recorded_failure ev message)) db,
       processing_failed).
Proof.
  intros Hsig Hnew Hty Hcart Hret Hex.
  rewrite (webhook_first_delivery _ _ _ _ _ _ Hsig Hnew).
  assert (∃ message, processStripeEvent stripe ev db = (db, Throw (DbError message)))
    as (message & ->).
  { unfold processStripeEvent. rewrite decide_True by done. rewrite Hcart.
    unfold lift_result, insert_order. unfold_M. rewrite Hret. simpl.
    case_decide; [by eexists|]. rewrite decide_True by done. by eexists. }
  by exists message.
Qed.

Lemma second_event_for_session_witness :
  ∃ message,
    post_webhooks_stripe (stripe_sending second_event) "whsec" "b" "s" paid_db =
      (set_events (insert "evt_6" (recorded_failure second_event message)) paid_db,
       processing_failed).
Proof.
  apply (second_event_for_session_rejected (stripe_sending second_event)
           "whsec" "b" "s" second_event paid_db "c1" (Some sample_line_items));
    [reflexivity | vm_compute; reflexivity | reflexivity | reflexivity
    | reflexivity |].
  vm_compute. apply Exists_cons_hd. reflexivity.
Defined.

(** ** From the cart to the order *)






(** ** Stock accounting of a settlement *)






(** ** updateQuantity *)

Lemma set_quantity_twice q (P : cart_item → Prop) `{∀ ci, Decision (P ci)}
    (l : list cart_item) :
  (∀ ci, P (set_quantity q ci) ↔ P ci) →
  (λ ci, if decide (P ci) then set_quantity q ci else ci) <$>
    ((λ ci, if decide (P ci) then set_quantity q ci else ci) <$> l) =
  (λ ci, if decide (P ci) then set_quantity q ci else ci) <$> l.
Proof.
  intros HP. rewrite <- list_fmap_compose. apply list_fmap_ext.
  intros _ ci _. simpl. destruct (decide (P ci)) as [Hci|Hci].
  - rewrite decide_True by by apply HP. by destruct ci.
  - by rewrite decide_False.
Qed.

Lemma join_after_set_quantity db db1 q (P : cart_item → Prop)
    `{∀ ci, Decision (P ci)} cartId (l : list cart_item) :
  products db1 = products db → variants db1 = variants db →
  (λ i, (ci_id (cl_item i), ci_product_id (cl_item i),
         ci_variant_id (cl_item i), ci_price_cents (cl_item i)))
    <$> omap (join_line db1)
          (filter (λ ci, ci_cart_id ci = cartId)
             ((λ ci, if decide (P ci) then set_quantity q ci else ci) <$> l)) =
  (λ i, (ci_id (cl_item i), ci_product_id (cl_item i),
         ci_variant_id (cl_item i), ci_price_cents (cl_item i)))
    <$> omap (join_line db) (filter (λ ci, ci_cart_id ci = cartId) l).
Proof.
  intros Hp Hv.
  set (g := λ ci, if decide (P ci) then set_quantity q ci else ci).
  assert (∀ ci, ci_cart_id (g ci) = ci_cart_id ci) as Hc
    by (intros ci; unfold g; by destruct (decide (P ci))).
  assert (∀ ci, (λ i, (ci_id (cl_item i), ci_product_id (cl_item i),
                       ci_variant_id (cl_item i), ci_price_cents (cl_item i)))
                  <$> join_line db1 (g ci) =
                (λ i, (ci_id (cl_item i), ci_product_id (cl_item i),
                       ci_variant_id (cl_item i), ci_price_cents (cl_item i)))
                  <$> join_line db ci) as Hj.
  { intros ci. unfold join_line. rewrite Hp, Hv.
    replace (ci_product_id (g ci)) with (ci_product_id ci)
      by (unfold g; by destruct (decide (P ci))).
    destruct (products db !! ci_product_id ci); [|done]. simpl.
    unfold g. by destruct (decide (P ci)). }
  induction l as [|ci l IH]; [done|].
  rewrite fmap_cons.
  destruct (decide (ci_cart_id ci = cartId)) as [Hin|Hout].
  - rewrite !filter_cons_True by (rewrite ?Hc; congruence). csimpl.
    specialize (Hj ci).
    destruct (join_line db1 (g ci)), (join_line db ci); simplify_eq/=;
      [|exact IH].
    rewrite IH. f_equal. congruence.
  - rewrite !filter_cons_False by (rewrite ?Hc; congruence). apply IH.
Qed.

(** The UPDATE on bound values: for a quantity of at least one it succeeds
    whatever the stock is, keeps the lines and their prices, and is
    idempotent. *)
Lemma patch_cart_item_run c itemId quantity db cartRow :
  1 ≤ quantity →
  (resolveCart c false db).2 = Ok (Some cartRow) →
  ∃ db1 snap before,
    patch_cart_item c itemId quantity db = (db1, Ok (json snap)) ∧
    patch_cart_item c itemId quantity db1 = (db1, Ok (json snap)) ∧
    Forall (λ i, ci_id (cl_item i) = itemId → ci_quantity (cl_item i) = quantity)
           (items snap) ∧
    (getCartWithItems (cart_id cartRow) db).2 = Ok before ∧
    (λ i, (ci_id (cl_item i), ci_product_id (cl_item i),
           ci_variant_id (cl_item i), ci_price_cents (cl_item i)))
      <$> items snap =
    (λ i, (ci_id (cl_item i), ci_product_id (cl_item i),
           ci_variant_id (cl_item i), ci_price_cents (cl_item i)))
      <$> items before ∧
    (Forall (λ ci, ¬ (ci_id ci = itemId ∧ ci_cart_id ci = cart_id cartRow))
            (cart_items db) → db1 = db).
Proof.
  intros Hq Hres. destruct (resolveCart_read c db) as (r & Hr & Hr').
  rewrite Hr in Hres. simpl in Hres. simplify_eq.
  set (P := λ ci, ci_id ci = itemId ∧ ci_cart_id ci = cart_id cartRow).
  set (g := λ ci, if decide (P ci) then set_quantity quantity ci else ci).
  set (db1 := set_cart_items (fmap g) db).
  destruct (getCartWithItems_run (cart_id cartRow) db1) as (snap & Hsnap & Hitems).
  destruct (getCartWithItems_run (cart_id cartRow) db) as (before & Hbefore & Hb).
  assert (patch_cart_item c itemId quantity db = (db1, Ok (json snap))) as H1.
  { unfold patch_cart_item. rewrite decide_False by lia.
    rewrite (bind_run _ _ _ _ _ Hr). unfold_M.
    change (set_cart_items _ db) with db1. by rewrite Hsnap. }
  assert (set_cart_items (fmap g) db1 = db1) as Hfix.
  { apply set_cart_items_id. simpl. apply set_quantity_twice.
    intros ci. unfold P. by destruct ci. }
  exists db1, snap, before. split_and!.
  - done.
  - unfold patch_cart_item. rewrite decide_False by lia.
    rewrite (bind_run _ _ _ _ _ (Hr' db1 eq_refl)).
    unfold_M. change (set_cart_items _ db1) with (set_cart_items (fmap g) db1).
    rewrite Hfix. by rewrite Hsnap.
  - rewrite Hitems. apply Forall_forall. intros i Hi.
    apply list_elem_of_omap in Hi as (ci & Hci & Hjoin).
    apply list_elem_of_filter in Hci as [Hcart Hci].
    simpl in Hci. apply list_elem_of_fmap in Hci as (ci0 & -> & _).
    unfold join_line in Hjoin. destruct (products db1 !! _); simplify_eq/=.
    intros Hid. unfold g in *. destruct (decide (P ci0)) as [|Hn]; [done|].
    destruct Hn. done.
  - by rewrite Hbefore.
  - rewrite Hitems, Hb. simpl. by apply join_after_set_quantity.
  - intros Hall. apply set_cart_items_id.
    rewrite <- (list_fmap_id (cart_items db)) at 2. apply list_fmap_ext.
    intros i ci Hci. apply list_elem_of_lookup_2 in Hci.
    rewrite Forall_forall in Hall. unfold g. by rewrite decide_False by by apply Hall.
Qed.

Lemma patch_cart_items_itemId_refused c itemId quantity db cartRow :
  1 ≤ quantity →
  (resolveCart c false db).2 = Ok (Some cartRow) →
  ¬ (int4 quantity ∧ is_Some (uuid_in itemId)) →
  ∃ message,
    patch_cart_items_itemId c itemId quantity db = (db, Throw (DbError message)).
Proof.
  intros Hq Hres Hbad. destruct (resolveCart_read c db) as (r & Hr & _).
  rewrite Hr in Hres. simpl in Hres. simplify_eq.
  unfold patch_cart_items_itemId. rewrite decide_False by lia.
  rewrite (bind_run _ _ _ _ _ Hr).
  destruct (decide (int4 quantity)) as [Hint|Hint]; [|by eexists].
  destruct (uuid_in itemId) as [id|]; [|by eexists].
  destruct Hbad. eauto.
Qed.

(** PATCH /cart/items/:itemId with a quantity of at least one, for a request
    that resolves to a cart.  When the quantity fits an INT column and the
    item id is the text of a uuid, the call succeeds whatever the stock of
    the variant is: the reply lists the lines the cart had, with the
    product, the variant and the price snapshot they had, and the line with
    the given id carries the new quantity; a second call with the same
    arguments gives the same reply and changes nothing; an id that is not
    in the caller's cart leaves the database as it was and is answered with
    the cart all the same.  Otherwise the database refuses the UPDATE and
    nothing is written. *)
Theorem patch_cart_item_sets_quantity c itemId quantity db cartRow :
  1 ≤ quantity →
  (resolveCart c false db).2 = Ok (Some cartRow) →
  if decide (int4 quantity ∧ is_Some (uuid_in itemId)) then
    ∃ id db1 snap before,
      uuid_in itemId = Some id ∧
      patch_cart_items_itemId c itemId quantity db = (db1, Ok (json snap)) ∧
      patch_cart_items_itemId c itemId quantity db1 = (db1, Ok (json snap)) ∧
      Forall (λ i, ci_id (cl_item i) = id → ci_quantity (cl_item i) = quantity)
             (items snap) ∧
      (getCartWithItems (cart_id cartRow) db).2 = Ok before ∧
      (λ i, (ci_id (cl_item i), ci_product_id (cl_item i),
             ci_variant_id (cl_item i), ci_price_cents (cl_item i)))
        <$> items snap =
      (λ i, (ci_id (cl_item i), ci_product_id (cl_item i),
             ci_variant_id (cl_item i), ci_price_cents (cl_item i)))
        <$> items before ∧
      (Forall (λ ci, ¬ (ci_id ci = id ∧ ci_cart_id ci = cart_id cartRow))
              (cart_items db) → db1 = db)
  else
    ∃ message,
      patch_cart_items_itemId c itemId quantity db =
        (db, Throw (DbError message)) ∧
      onError (DbError message) = (500, "Internal server error").
Proof.
  intros Hq Hres. case_decide as Hok.
  - destruct Hok as [Hint [id Hid]].
    destruct (patch_cart_item_run c id quantity db cartRow Hq Hres)
      as (db1 & snap & before & H1 & H2 & Hset & Hbefore & Hlines & Hsame).
    exists id, db1, snap, before.
    by rewrite !(patch_cart_items_itemId_read _ _ _ _ _ Hid Hint).
  - destruct (patch_cart_items_itemId_refused _ _ _ _ _ Hq Hres Hok) as [m Hm].
    by exists m.
Qed.

Lemma patch_cart_item_sets_quantity_witness :
  ∃ id db1 snap before,
    uuid_in "00000000-0000-4000-8000-0000000000d1" = Some id ∧
    patch_cart_items_itemId sample_ctx "00000000-0000-4000-8000-0000000000d1" 9
      uuid_shop = (db1, Ok (json snap)) ∧
    patch_cart_items_itemId sample_ctx "00000000-0000-4000-8000-0000000000d1" 9
      db1 = (db1, Ok (json snap)) ∧
    Forall (λ i, ci_id (cl_item i) = id → ci_quantity (cl_item i) = 9)
           (items snap) ∧
    (getCartWithItems (cart_id uuid_cart) uuid_shop).2 = Ok before ∧
    (λ i, (ci_id (cl_item i), ci_product_id (cl_item i),
           ci_variant_id (cl_item i), ci_price_cents (cl_item i)))
      <$> items snap =
    (λ i, (ci_id (cl_item i), ci_product_id (cl_item i),
           ci_variant_id (cl_item i), ci_price_cents (cl_item i)))
      <$> items before ∧
    (Forall (λ ci, ¬ (ci_id ci = id ∧ ci_cart_id ci = cart_id uuid_cart))
            (cart_items uuid_shop) → db1 = uuid_shop).
Proof.
  pose proof (patch_cart_item_sets_quantity sample_ctx
                "00000000-0000-4000-8000-0000000000d1" 9 uuid_shop uuid_cart
                ltac:(lia) eq_refl) as H.
  rewrite decide_True in H; [exact H|].
  split; [unfold int4; lia | vm_compute; eauto].
Defined.

(** Nine of a variant with five in stock is accepted; a quantity beyond INT
    and an id that is no uuid are refused by the database. *)
Example patch_scenarios :
  (ci_quantity <$>
     cart_items (patch_cart_items_itemId sample_ctx
                   "00000000-0000-4000-8000-0000000000d1" 9 uuid_shop).1) = [9] ∧
  patch_cart_items_itemId sample_ctx "00000000-0000-4000-8000-0000000000d1"
      2147483648 uuid_shop =
    (uuid_shop, Throw (DbError "value out of range for type integer")) ∧
  patch_cart_items_itemId sample_ctx "d1" 9 uuid_shop =
    (uuid_shop, Throw (DbError "invalid input syntax for type uuid")).
Proof. split_and!; vm_compute; reflexivity. Qed.

(** ** Whose cart a request reaches *)

Lemma resolveCart_owner c db r :
  (resolveCart c false db).2 = Ok (Some r) → r ∈ carts db ∧ callers_cart c r.
Proof.
  unfold resolveCart, callers_cart. unfold_M.
  destruct (truthy (ctx_userId c)) as [userId|];
    [|destruct (truthy (ctx_cart_token c)) as [token|]]; simpl; try discriminate.
  - destruct (last _) as [r'|] eqn:Hr; simpl; [|discriminate].
    intros [= ->]. apply last_Some_elem_of, list_elem_of_filter in Hr. tauto.
  - destruct (head _) as [r'|] eqn:Hr; simpl; [|discriminate].
    intros [= ->]. apply head_Some_elem_of, list_elem_of_filter in Hr. tauto.
Qed.

(** The cart routes reach the caller's cart only.  A cart item of a cart the
    request has no claim to (no cart row with the item's cart id belongs to
    the request's identity or, for a guest, carries the request's cart
    token) is still in the table, unchanged, after a PATCH or a DELETE of
    any item id by that request, also its own id, and no line of a GET /cart
    reply shows it. *)
Theorem cart_routes_reach_callers_cart_only c itemId quantity db ci :
  ci ∈ cart_items db →
  Forall (λ r, cart_id r = ci_cart_id ci → ¬ callers_cart c r) (carts db) →
  ci ∈ cart_items (patch_cart_item c itemId quantity db).1 ∧
  ci ∈ cart_items (delete_cart_item c itemId db).1 ∧
  match (get_cart c db).2 with
  | Ok rep => Forall (λ i, ci_cart_id (cl_item i) ≠ ci_cart_id ci)
                     (items (cr_data (re_body rep)))
  | Throw _ => False
  end.
Proof.
  intros Hci Hother. rewrite Forall_forall in Hother.
  destruct (resolveCart_read c db) as (r & Hr & _).
  assert (∀ r', r = Some r' → cart_id r' ≠ ci_cart_id ci) as Hne.
  { intros r' -> Heq.
    destruct (resolveCart_owner c db r') as [Hin Hown]; [by rewrite Hr|].
    by apply (Hother r'). }
  split_and!.
  - unfold patch_cart_item. destruct (decide (quantity < 1)); [done|].
    rewrite (bind_run _ _ _ _ _ Hr). destruct r as [r|]; [|done].
    destruct (getCartWithItems_run (cart_id r)
                (set_cart_items (fmap (λ ci,
                   if decide (ci_id ci = itemId ∧ ci_cart_id ci = cart_id r)
                   then set_quantity quantity ci else ci)) db))
      as (snap & Hsnap & _).
    unfold_M. rewrite Hsnap. simpl.
    apply list_elem_of_fmap. exists ci. split; [|done].
    rewrite decide_False; [done|]. intros [_ Heq]. by apply (Hne r).
  - unfold delete_cart_item.
    rewrite (bind_run _ _ _ _ _ Hr). destruct r as [r|]; [|done].
    destruct (getCartWithItems_run (cart_id r)
                (set_cart_items (filter (λ ci,
                   ¬ (ci_id ci = itemId ∧ ci_cart_id ci = cart_id r))) db))
      as (snap & Hsnap & _).
    unfold_M. rewrite Hsnap. simpl.
    apply list_elem_of_filter. split; [|done].
    intros [_ Heq]. by apply (Hne r).
  - unfold get_cart. rewrite (bind_run _ _ _ _ _ Hr).
    destruct r as [r|]; [|by constructor].
    destruct (getCartWithItems_run (cart_id r) db) as (snap & Hsnap & Hitems).
    rewrite (bind_run _ _ _ _ _ Hsnap). simpl. rewrite Hitems.
    apply Forall_forall. intros i Hi.
    apply list_elem_of_omap in Hi as (ci' & Hci' & Hjoin).
    apply list_elem_of_filter in Hci' as [Hcart _].
    unfold join_line in Hjoin. destruct (products db !! _); simplify_eq/=.
    rewrite Hcart. by apply Hne.
Qed.

Lemma cart_routes_reach_callers_cart_only_witness :
  other_item ∈ cart_items (patch_cart_item sample_ctx "i3" 8 two_carts_db).1 ∧
  other_item ∈ cart_items (delete_cart_item sample_ctx "i3" two_carts_db).1 ∧
  match (get_cart sample_ctx two_carts_db).2 with
  | Ok rep => Forall (λ i, ci_cart_id (cl_item i) ≠ ci_cart_id other_item)
                     (items (cr_data (re_body rep)))
  | Throw _ => False
  end.
Proof.
  apply (cart_routes_reach_callers_cart_only sample_ctx "i3" 8 two_carts_db
           other_item).
  - vm_compute. do 2 apply list_elem_of_further. apply list_elem_of_here.
  - vm_compute. repeat constructor; intros; discriminate.
Defined.

(** ** The orders routes *)

(** The orders routes show a user their own orders only.  GET /orders is
    always answered, with at most fifty summaries, each of an order whose
    [user_id] is the caller's; while the caller has no more than fifty
    orders, all of them are listed.  GET /orders/:id is answered with an
    order that has the id the path parameter denotes and the caller's
    [user_id], and with the order items of that order only.  For a
    parameter that is the text of a uuid it is refused with 404 exactly when
    no such order is stored, so an order placed by a guest or by another
    user is reported as not found; for any other text the database refuses
    the SELECT and the reply is the generic 500. *)
Theorem orders_routes_show_own_orders_only userId orderId db :
  (∃ rows,
     (get_orders userId db).2 = Ok (json rows) ∧
     (length rows ≤ 50)%nat ∧
     Forall (λ s, ∃ o, o ∈ orders db ∧ o_user_id o = Some userId ∧ s = summary o)
            rows ∧
     ((length (filter (λ o, o_user_id o = Some userId) (orders db)) ≤ 50)%nat →
      Forall (λ o, o_user_id o = Some userId → summary o ∈ rows) (orders db))) ∧
  (get_orders_id userId orderId db).1 = db ∧
  match (get_orders_id userId orderId db).2 with
  | Ok rep =>
      od_order (re_body rep) ∈ orders db ∧
      uuid_in orderId = Some (o_id (od_order (re_body rep))) ∧
      o_user_id (od_order (re_body rep)) = Some userId ∧
      od_items (re_body rep) =
        filter (λ oi, oi_order_id oi = o_id (od_order (re_body rep)))
               (order_items db)
  | Throw e =>
      match uuid_in orderId with
      | Some id =>
          e = HTTPException 404 "Order not found" ∧
          Forall (λ o, ¬ (o_id o = id ∧ o_user_id o = Some userId)) (orders db)
      | None =>
          e = DbError "invalid input syntax for type uuid" ∧
          onError e = (500, "Internal server error")
      end
  end.
Proof.
  split; [|split].
  - eexists. split; [reflexivity|]. split_and!.
    + rewrite length_fmap, length_take. lia.
    + apply Forall_fmap, Forall_forall. intros o Ho. simpl.
      apply elem_of_take in Ho as (i & Ho%list_elem_of_lookup_2 & _).
      apply elem_of_reverse, list_elem_of_filter in Ho.
      exists o. tauto.
    + intros Hlen. apply Forall_forall. intros o Ho Hu.
      apply list_elem_of_fmap_2.
      rewrite take_ge by (rewrite length_reverse; lia).
      apply elem_of_reverse, list_elem_of_filter. done.
  - unfold get_orders_id. destruct (uuid_in orderId) as [id|]; [|done].
    rewrite bind_gets. by destruct (head _).
  - unfold get_orders_id. destruct (uuid_in orderId) as [id|]; [|done].
    rewrite bind_gets.
    destruct (head _) as [o|] eqn:Hhead.
    + rewrite bind_gets. simpl.
      apply head_Some_elem_of, list_elem_of_filter in Hhead as [[<- Hu] Hin].
      done.
    + simpl. split; [done|]. apply head_None in Hhead.
      apply Forall_forall. intros o Ho HP.
      assert (o ∈ filter (λ o, o_id o = id ∧ o_user_id o = Some userId)
                (orders db)) as Hin by by apply list_elem_of_filter.
      rewrite Hhead in Hin. by apply elem_of_nil in Hin.
Qed.

(** The member reads their order by its id, however the id is written; the
    same id under another user, and an id no order has, are not found; text
    that is no uuid is refused by the database. *)
Example get_order_scenarios :
  (o_id ∘ od_order ∘ re_body <$>
     match (get_orders_id "00000000-0000-4000-8000-0000000000b1"
              "00000000-0000-4000-8000-0000000000E1" uuid_shop).2 with
     | Ok rep => Some rep
     | Throw _ => None
     end) = Some "00000000-0000-4000-8000-0000000000e1" ∧
  (get_orders_id "00000000-0000-4000-8000-0000000000b2"
     "00000000-0000-4000-8000-0000000000e1" uuid_shop).2 =
    Throw (HTTPException 404 "Order not found") ∧
  (get_orders_id "00000000-0000-4000-8000-0000000000b1"
     "00000000-0000-4000-8000-0000000000e2" uuid_shop).2 =
    Throw (HTTPException 404 "Order not found") ∧
  (get_orders_id "00000000-0000-4000-8000-0000000000b1" "not-a-uuid"
     uuid_shop).2 = Throw (DbError "invalid input syntax for type uuid").
Proof. split_and!; vm_compute; reflexivity. Qed.

(** ** The admin stock patch *)

(** The outcomes of PATCH /admin/variants/:id/stock.  When it is answered,
    the path parameter denotes a variant that existed, the reply carries the
    row as it is now stored, every other variant is as it was, and the new
    stock is the absolute value when one is given (the adjustment is then
    ignored) and the old stock plus the adjustment, floored at zero,
    otherwise; it is neither negative nor beyond INT.  When it is refused
    the database is as it was: with 400 when neither number is given; by the
    database (the generic 500) when the number used is outside INT or the
    path parameter is not the text of a uuid; with 404 when no variant has
    that id; and by the database again when the absolute value is negative
    or the sum overflows INT. *)
Theorem admin_stock_patch_outcomes variantId stock_qty adjustment db :
  match patch_admin_variants_id_stock variantId stock_qty adjustment db with
  | (db1, Ok rep) =>
      ∃ id v,
        uuid_in variantId = Some id ∧
        variants db !! id = Some v ∧
        re_body rep =
          (id,
           set_stock_qty
             match stock_qty with
             | Some q => q
             | None => Z.max 0 (v_stock_qty v + default 0 adjustment)
             end v) ∧
        variants db1 = <[id := (re_body rep).2]> (variants db) ∧
        0 ≤ v_stock_qty (re_body rep).2 ≤ 2147483647 ∧
        set_variants (λ _, variants db) db1 = db
  | (db1, Throw e) =>
      db1 = db ∧
      match (if stock_qty is Some _ then stock_qty else adjustment) with
      | None =>
          e = HTTPException 400 "Provide stock_qty (absolute) or adjustment (relative)"
      | Some n =>
          if decide (int4 n) then
            match uuid_in variantId with
            | Some id =>
                match variants db !! id with
                | Some v =>
                    (∃ message, e = DbError message) ∧
                    if stock_qty is Some q then q < 0
                    else ¬ int4 (v_stock_qty v + n)
                | None => e = HTTPException 404 "Variant not found"
                end
            | None => e = DbError "invalid input syntax for type uuid"
            end
          else e = DbError "value out of range for type integer"
      end
  end.
Proof.
  unfold patch_admin_variants_id_stock.
  destruct stock_qty as [q|]; [|destruct adjustment as [a|]];
    cbn [default]; [| |done].
  - destruct (decide (int4 q)) as [Hq|Hq]; [|done].
    destruct (uuid_in variantId) as [id|]; [|done].
    unfold_M. simpl. destruct (variants db !! id) as [v|] eqn:Hv; [|done].
    destruct (decide (q < 0)) as [Hneg|Hneg]; simpl; [eauto|].
    exists id, v. unfold int4 in Hq. split_and!; try done; [lia..|].
    destruct db. unfold set_variants. simpl in *. f_equal.
  - destruct (decide (int4 a)) as [Ha|Ha]; [|done].
    destruct (uuid_in variantId) as [id|]; [|done].
    unfold_M. simpl. destruct (variants db !! id) as [v|] eqn:Hv; [|done].
    destruct (decide (int4 (v_stock_qty v + a))) as [Hsum|Hsum]; simpl;
      [|eauto].
    exists id, v. unfold int4 in Hsum. split_and!; try done; [lia..|].
    destruct db. unfold set_variants. simpl in *. f_equal.
Qed.

Lemma admin_adjust_run variantId id a v db :
  uuid_in variantId = Some id →
  variants db !! id = Some v →
  int4 a →
  int4 (v_stock_qty v + a) →
  patch_admin_variants_id_stock variantId None (Some a) db =
    (set_variants
       (insert id (set_stock_qty (Z.max 0 (v_stock_qty v + a)) v)) db,
     Ok (json (id, set_stock_qty (Z.max 0 (v_stock_qty v + a)) v))).
Proof.
  intros Hid Hv Ha Hsum. unfold patch_admin_variants_id_stock.
  rewrite decide_True by done. rewrite Hid.
  unfold_M. simpl. rewrite Hv. by rewrite decide_True by done.
Qed.

(** Relative stock adjustments and the floor at zero.  For a variant whose
    stock is not negative and an amount [a >= 0] that the stock can take
    without leaving INT, adding [a] and then taking [a] off again restores
    the database; taking [a] off first and adding it back does so only
    while [a] does not exceed the stock: the floor forgets the shortfall,
    and the stock ends at the larger of [a] and the old stock. *)
Theorem admin_stock_adjustment_round_trip variantId id a v db :
  uuid_in variantId = Some id →
  variants db !! id = Some v →
  0 ≤ v_stock_qty v →
  0 ≤ a →
  v_stock_qty v + a ≤ 2147483647 →
  (patch_admin_variants_id_stock variantId None (Some (- a))
     (patch_admin_variants_id_stock variantId None (Some a) db).1).1 = db ∧
  variants
    (patch_admin_variants_id_stock variantId None (Some a)
       (patch_admin_variants_id_stock variantId None (Some (- a)) db).1).1
    !! id = Some (set_stock_qty (Z.max a (v_stock_qty v)) v).
Proof.
  intros Hid Hv Hs Ha Hfit. split.
  - rewrite (admin_adjust_run _ _ _ _ _ Hid Hv) by (unfold int4; lia).
    cbn [fst].
    erewrite (admin_adjust_run _ _ _ _ _ Hid)
      by (try (simpl; apply lookup_insert_eq); unfold int4; simpl; lia).
    cbn [fst].
    destruct db. unfold set_variants. simpl in *. f_equal.
    rewrite insert_insert_eq. apply insert_id. rewrite Hv. f_equal.
    destruct v. unfold set_stock_qty. simpl in *. f_equal. lia.
  - rewrite (admin_adjust_run _ _ _ _ _ Hid Hv) by (unfold int4; lia).
    cbn [fst].
    erewrite (admin_adjust_run _ _ _ _ _ Hid)
      by (try (simpl; apply lookup_insert_eq); unfold int4; simpl; lia).
    cbn [fst].
    simpl. rewrite lookup_insert_eq. f_equal.
    unfold set_stock_qty. simpl. f_equal. lia.
Qed.

Lemma admin_stock_adjustment_round_trip_witness :
  (patch_admin_variants_id_stock "00000000-0000-4000-8000-0000000000a2" None
     (Some (- 7))
     (patch_admin_variants_id_stock "00000000-0000-4000-8000-0000000000a2" None
        (Some 7) uuid_shop).1).1 = uuid_shop ∧
  variants
    (patch_admin_variants_id_stock "00000000-0000-4000-8000-0000000000a2" None
       (Some 7)
       (patch_admin_variants_id_stock "00000000-0000-4000-8000-0000000000a2"
          None (Some (- 7)) uuid_shop).1).1
    !! "00000000-0000-4000-8000-0000000000a2" =
    Some (set_stock_qty (Z.max 7 (v_stock_qty uuid_variant)) uuid_variant).
Proof.
  apply (admin_stock_adjustment_round_trip
           "00000000-0000-4000-8000-0000000000a2"
           "00000000-0000-4000-8000-0000000000a2" 7 uuid_variant uuid_shop);
    [vm_compute; reflexivity | reflexivity | simpl; lia | lia | simpl; lia].
Defined.

(** At the edge of INT: with five in stock, adding 2147483647 is refused and
    leaves five, so taking it off afterwards leaves zero, not five; an
    absolute value beyond INT and a path parameter that is no uuid are
    refused before any row is looked for. *)
Example admin_stock_edge_scenarios :
  patch_admin_variants_id_stock "00000000-0000-4000-8000-0000000000a2" None
      (Some 2147483647) uuid_shop =
    (uuid_shop, Throw (DbError "integer out of range")) ∧
  (v_stock_qty <$>
     variants
       (patch_admin_variants_id_stock "00000000-0000-4000-8000-0000000000a2"
          None (Some (- 2147483647)) uuid_shop).1
     !! "00000000-0000-4000-8000-0000000000a2") = Some 0 ∧
  patch_admin_variants_id_stock "00000000-0000-4000-8000-0000000000a2"
      (Some 2147483648) None uuid_shop =
    (uuid_shop, Throw (DbError "value out of range for type integer")) ∧
  patch_admin_variants_id_stock "a2" (Some 3) None uuid_shop =
    (uuid_shop, Throw (DbError "invalid input syntax for type uuid")).
Proof. split_and!; vm_compute; reflexivity. Qed.

(** ** What a checkout session charges *)

Lemma foldl_frozen (lines : list cart_line) acc :
  foldl (λ s sl, s + sl_unit_amount sl * sl_quantity sl) acc
        (freeze_line <$> lines) =
  foldl (λ s i, s + ci_price_cents (cl_item i) * ci_quantity (cl_item i)) acc
        lines.
Proof.
  revert acc. induction lines as [|i lines IH]; intros acc; [done|].
  rewrite fmap_cons. simpl. apply IH.
Qed.

(** A checkout session that is created charges the cart as it was priced
    when the items were added.  The parameters handed to Stripe name the
    caller's cart and the caller's identity ("anonymous" for a guest), hold
    one line per line of the cart, with its product, its quantity and the
    price snapshot of the cart item (not the catalog price of the moment),
    so that the amounts add up to the subtotal that GET /cart shows, and ask
    Stripe to create a customer exactly when the user has none on record. *)
Theorem checkout_session_charges_cart_snapshot
    stripe c success_url cancel_url db rep :
  (post_checkout_session stripe c success_url cancel_url db).2 = Ok rep →
  ∃ cartRow snap params,
    (resolveCart c false db).2 = Ok (Some cartRow) ∧
    (getCartWithItems (cart_id cartRow) db).2 = Ok snap ∧
    sessions_create stripe params = Ok (re_body rep) ∧
    sp_cart_id params = cart_id cartRow ∧
    sp_user_id params = default "anonymous" (ctx_userId c) ∧
    sp_line_items params ≠ [] ∧
    (λ sl, (sl_product_id sl, sl_quantity sl, sl_unit_amount sl))
      <$> sp_line_items params =
    (λ i, (ci_product_id (cl_item i), ci_quantity (cl_item i),
           ci_price_cents (cl_item i))) <$> items snap ∧
    foldl (λ s sl, s + sl_unit_amount sl * sl_quantity sl) 0
          (sp_line_items params) = subtotal snap ∧
    (sp_customer_creation params = Some "always" ↔ sp_customer params = None).
Proof.
  unfold post_checkout_session.
  destruct (resolveCart_read c db) as ([cartRow|] & Hr & _);
    rewrite (bind_run _ _ _ _ _ Hr), Hr; simpl; [|discriminate].
  destruct (getCartWithItems_run (cart_id cartRow) db) as (snap & Hsnap & _).
  rewrite (bind_run _ _ _ _ _ Hsnap). simpl.
  destruct (items snap) as [|i rest] eqn:Hitems; [discriminate|].
  assert (subtotal snap =
          foldl (λ s i, s + ci_price_cents (cl_item i) * ci_quantity (cl_item i))
                0 (items snap)) as Hsub.
  { unfold getCartWithItems in Hsnap. unfold_M. by injection Hsnap as <-. }
  unfold_M.
  destruct (truthy (ctx_userId c)) as [userId|];
    destruct (sessions_create stripe _) as [session|e] eqn:Hcreate;
    cbn [fst snd]; try discriminate; intros [= <-].
  all: exists cartRow, snap; eexists.
  all: split_and!;
    [done
    | change ((getCartWithItems (cart_id cartRow) db).2 = Ok snap);
      by rewrite Hsnap
    | exact Hcreate | done | done | done
                   | | | ]; cbn [sp_line_items sp_customer sp_customer_creation].
  all: rewrite <- ?Hitems, ?foldl_frozen, <- ?list_fmap_compose; try done.
  all: try by destruct (match users db !! userId with
                        | Some u => truthy (u_stripe_customer_id u)
                        | None => None end).
Qed.

Lemma checkout_session_charges_cart_snapshot_witness :
  ∃ cartRow snap params,
    (resolveCart sample_ctx false sample_db).2 = Ok (Some cartRow) ∧
    (getCartWithItems (cart_id cartRow) sample_db).2 = Ok snap ∧
    sessions_create sample_stripe params =
      Ok {| sc_id := "cs_1";
            sc_url := Some "https://checkout.stripe.com/c/pay/cs_1" |} ∧
    sp_cart_id params = cart_id cartRow ∧
    sp_user_id params = default "anonymous" (ctx_userId sample_ctx) ∧
    sp_line_items params ≠ [] ∧
    (λ sl, (sl_product_id sl, sl_quantity sl, sl_unit_amount sl))
      <$> sp_line_items params =
    (λ i, (ci_product_id (cl_item i), ci_quantity (cl_item i),
           ci_price_cents (cl_item i))) <$> items snap ∧
    foldl (λ s sl, s + sl_unit_amount sl * sl_quantity sl) 0
          (sp_line_items params) = subtotal snap ∧
    (sp_customer_creation params = Some "always" ↔ sp_customer params = None).
Proof.
  apply (checkout_session_charges_cart_snapshot sample_stripe sample_ctx
           "https://shop/ok" "https://shop/no" sample_db
           (json {| sc_id := "cs_1";
                    sc_url := Some "https://checkout.stripe.com/c/pay/cs_1" |})).
  vm_compute. reflexivity.
Defined.

(** * The storefront client *)

Lemma upsert_cart_item_Ok cartId productId variantId quantity price db db1 item :
  upsert_cart_item cartId productId variantId quantity price db = (db1, Ok item) →
  item ∈ cart_items db1 ∧ ci_cart_id item = cartId ∧
  ci_product_id item = productId ∧
  carts db1 = carts db ∧ products db1 = products db.
Proof.
  unfold upsert_cart_item. case_decide; [discriminate|]. rewrite bind_gets.
  destruct (head _) as [old|] eqn:Hhit.
  - unfold_M. intros [= <- <-]. simpl.
    apply head_Some_elem_of, list_elem_of_filter in Hhit as [Hc Hin].
    split_and!; try done; try apply Hc.
    apply list_elem_of_fmap. exists old. by rewrite decide_True.
  - unfold gen_uuid. unfold_M. intros [= <- <-]. simpl.
    split_and!; try done. apply elem_of_app. right. apply list_elem_of_here.
Qed.

Lemma post_cart_items_Ok c b db db1 rep :
  post_cart_items c b db = (db1, Ok rep) →
  ∃ db' cartRow productId p,
    truthy (body_product_id b) = Some productId ∧
    products db !! productId = Some p ∧
    resolveCart c true db = (db', Ok (Some cartRow)) ∧
    products db' = products db ∧
    getCartWithItems (cart_id cartRow) db1 = (db1, Ok (air_data (re_body rep))) ∧
    carts db1 = carts db' ∧ products db1 = products db ∧
    air_item (re_body rep) ∈ cart_items db1 ∧
    ci_cart_id (air_item (re_body rep)) = cart_id cartRow ∧
    ci_product_id (air_item (re_body rep)) = productId ∧
    re_headers rep =
      match truthy (cart_session_token cartRow) with
      | Some t => [("X-Cart-Token", t)]
      | None => []
      end.
Proof.
  unfold post_cart_items.
  destruct (truthy (body_product_id b)) as [productId|]; [|discriminate].
  rewrite bind_gets.
  destruct (products db !! productId) as [p|] eqn:Hp; [|discriminate].
  destruct (p_is_active p); [|discriminate].
  intros H. apply bind_Ok in H as (db2 & price & Hprice & H).
  assert (db2 = db) as ->.
  { destruct (truthy (body_variant_id b)); [|by injection Hprice].
    rewrite bind_gets in Hprice.
    destruct (variants db !! _); [|discriminate].
    case_decide; [discriminate|]. by injection Hprice. }
  apply bind_Ok in H as (db3 & [cartRow|] & Hres & H); [|discriminate].
  apply bind_Ok in H as (db4 & item & Hups & H).
  apply bind_Ok in H as (db5 & data & Hget & H).
  injection H as <- <-.
  destruct (getCartWithItems_run (cart_id cartRow) db4) as (snap & Hsnap & _).
  rewrite Hsnap in Hget. injection Hget as <- <-.
  assert (products db3 = products db) as Hp3.
  { pose proof (resolveCart_frame c true db db (same_but_carts_refl db)) as Hf.
    rewrite Hres in Hf. apply Hf. }
  assert (upsert_cart_item (cart_id cartRow) productId
            (truthy (body_variant_id b)) (default 1 (body_quantity b)) price db3 =
          (db4, Ok item)) as Hups'.
  { by destruct (truthy (body_variant_id b)). }
  apply upsert_cart_item_Ok in Hups' as (Hin & Hc & Hpid & Hcarts & Hprod).
  exists db3, cartRow, productId, p. simpl.
  split_and!; try done. congruence.
Qed.

Lemma foldl_filter_nil {A} (P : A → Prop) `{∀ x, Decision (P x)} (l : list A) :
  Forall (λ x, ¬ P x) l → filter P l = [].
Proof.
  induction 1 as [|x l Hx _ IH]; [done|]. by rewrite filter_cons_False.
Qed.

(** The anonymous cart survives between calls through the cart token.  When
    a visitor without a stored token adds an item and the call succeeds, the
    worker has created a cart with a token of its own making, the client has
    stored that token, and the cart holds a line for the product.  As long as
    no older cart carries the same token, the next GET /cart sent from that
    storage is answered with that cart: the same lines, subtotal and count
    that the add reported, and nothing is written. *)
Theorem guest_cart_token_round_trip
    identify productId variantId quantity db db1 st1 data :
  cartApi_addItem identify productId variantId quantity new_visitor db =
    (db1, st1, Resolved data) →
  Forall (λ r, cart_session_token r ≠ Some ("uuid-" +:+ pretty (uuid_counter db)))
         (carts db) →
  ∃ token cartId,
    st1 = setCartToken token new_visitor ∧
    carts db1 =
      carts db ++ [{| cart_id := cartId; cart_user_id := None;
                      cart_session_token := Some token;
                      cart_stripe_session_id := None |}] ∧
    Exists (λ i, ci_cart_id (cl_item i) = cartId ∧
                 ci_product_id (cl_item i) = productId) (cs_items data) ∧
    cartApi_get identify st1 db1 =
      (db1, st1,
       Resolved {| cs_cart_id := Some cartId; cs_session_token := Some token;
                   cs_items := cs_items data; cs_subtotal := cs_subtotal data;
                   cs_item_count := cs_item_count data |}).
Proof.
  unfold cartApi_addItem, apiFetch. intros Hadd Hfresh.
  destruct (post_cart_items _ _ db) as [db2 [rep|e]] eqn:Hpost; [|discriminate].
  injection Hadd as -> <- <-.
  apply post_cart_items_Ok in Hpost
    as (db' & cartRow & pid & p & Hpid & Hp & Hres & Hp' & Hget & Hcarts & Hprod
        & Hin & Hcart & Hprodid & Hheaders).
  cbn [body_product_id] in Hpid.
  assert (pid = productId) as ->.
  { destruct productId as [|a s]; [discriminate|]. by injection Hpid. }
  set (token := "uuid-" +:+ pretty (uuid_counter db)) in *.
  set (cartId := "uuid-" +:+ pretty (N.succ (uuid_counter db))).
  assert (cartRow = {| cart_id := cartId; cart_user_id := None;
                       cart_session_token := Some token;
                       cart_stripe_session_id := None |} ∧
          carts db' = carts db ++ [cartRow]) as [HcartRow Hcarts'].
  { unfold resolveCart, insert_cart, gen_uuid in Hres. unfold_M.
    cbn in Hres. injection Hres as <- <-. done. }
  assert (truthy (Some token) = Some token) as Htoken by done.
  exists token, cartId. rewrite Hheaders.
  replace (cart_session_token cartRow) with (Some token) by by rewrite HcartRow.
  rewrite Htoken. cbn [headers_get filter head fmap].
  split_and!.
  - done.
  - by rewrite Hcarts, Hcarts', HcartRow.
  - cbn [fetched_map state_of_snapshot cs_items].
    destruct (getCartWithItems_run (cart_id cartRow) db1) as (snap & Hsnap & Hitems).
    rewrite Hget in Hsnap. injection Hsnap as <-. rewrite Hitems.
    apply Exists_exists.
    exists {| cl_item := air_item (re_body rep); cl_product_name := p_name p;
              cl_product_slug := p_slug p; cl_image := p_image p;
              cl_variant_name :=
                match ci_variant_id (air_item (re_body rep)) with
                | Some v => v_name <$> variants db1 !! v
                | None => None
                end |}.
    split; [|cbn [cl_item]; by rewrite Hcart, HcartRow].
    apply list_elem_of_omap. exists (air_item (re_body rep)). split.
    + by apply list_elem_of_filter.
    + unfold join_line. by rewrite Hprodid, Hprod, Hp.
  - unfold cartApi_get, apiFetch, get_cart.
    assert (resolveCart (request_ctx identify true (setCartToken token new_visitor))
              false db1 = (db1, Ok (Some cartRow))) as Hres1.
    { unfold resolveCart, request_ctx. cbn [auth_token cart_token setCartToken
        new_visitor ctx_userId ctx_cart_token].
      change (truthy (truthy None ≫= identify)) with (@None string).
      rewrite Htoken, Htoken. rewrite bind_gets.
      rewrite Hcarts, Hcarts', filter_app, foldl_filter_nil.
      - rewrite filter_cons_True by by rewrite HcartRow. done.
      - eapply Forall_impl; [exact Hfresh|]. intros r Hr. exact Hr. }
    rewrite (bind_run _ _ _ _ _ Hres1), (bind_run _ _ _ _ _ Hget).
    by rewrite HcartRow.
Qed.

Lemma guest_cart_token_round_trip_witness :
  ∃ db1 st1 data,
    cartApi_addItem (λ _, None) "p1" None 2 new_visitor sample_db =
      (db1, st1, Resolved data) ∧
    ∃ token cartId,
      st1 = setCartToken token new_visitor ∧
      carts db1 =
        carts sample_db ++ [{| cart_id := cartId; cart_user_id := None;
                               cart_session_token := Some token;
                               cart_stripe_session_id := None |}] ∧
      Exists (λ i, ci_cart_id (cl_item i) = cartId ∧
                   ci_product_id (cl_item i) = "p1") (cs_items data) ∧
      cartApi_get (λ _, None) st1 db1 =
        (db1, st1,
         Resolved {| cs_cart_id := Some cartId; cs_session_token := Some token;
                     cs_items := cs_items data; cs_subtotal := cs_subtotal data;
                     cs_item_count := cs_item_count data |}).
Proof.
  do 3 eexists. split; [vm_compute; reflexivity|].
  apply (guest_cart_token_round_trip (λ _, None) "p1" None 2 sample_db).
  - vm_compute. reflexivity.
  - vm_compute. repeat constructor. discriminate.
Defined.

(** ** Signed-in requests *)

Lemma resolveCart_ignores_token c token create userId :
  truthy (ctx_userId c) = Some userId →
  resolveCart (with_cart_token token c) create = resolveCart c create.
Proof.
  intros Hu. unfold resolveCart, with_cart_token. cbn [ctx_userId].
  by rewrite Hu.
Qed.

(** For a request with a verified identity the cart token counts for
    nothing: every cart route and the checkout do to the database, and
    reply, what they would with any other token or with none.  The cart a
    visitor filled before signing in is therefore not the cart they see
    afterwards, although the client keeps sending its token. *)
Theorem signed_in_request_ignores_cart_token
    stripe c token b itemId quantity success_url cancel_url userId db :
  truthy (ctx_userId c) = Some userId →
  get_cart (with_cart_token token c) db = get_cart c db ∧
  post_cart_items (with_cart_token token c) b db = post_cart_items c b db ∧
  patch_cart_item (with_cart_token token c) itemId quantity db =
    patch_cart_item c itemId quantity db ∧
  delete_cart_item (with_cart_token token c) itemId db =
    delete_cart_item c itemId db ∧
  post_checkout_session stripe (with_cart_token token c) success_url cancel_url db =
    post_checkout_session stripe c success_url cancel_url db.
Proof.
  intros Hu.
  unfold get_cart, post_cart_items, patch_cart_item, delete_cart_item,
    post_checkout_session.
  rewrite !(resolveCart_ignores_token c token _ userId Hu).
  done.
Qed.

Lemma signed_in_request_ignores_cart_token_witness :
  get_cart (with_cart_token None member_ctx) member_db =
    get_cart member_ctx member_db ∧
  post_cart_items (with_cart_token None member_ctx)
      {| body_product_id := Some "p1"; body_variant_id := None;
         body_quantity := None |} member_db =
    post_cart_items member_ctx
      {| body_product_id := Some "p1"; body_variant_id := None;
         body_quantity := None |} member_db ∧
  patch_cart_item (with_cart_token None member_ctx) "i1" 3 member_db =
    patch_cart_item member_ctx "i1" 3 member_db ∧
  delete_cart_item (with_cart_token None member_ctx) "i1" member_db =
    delete_cart_item member_ctx "i1" member_db ∧
  post_checkout_session sample_stripe (with_cart_token None member_ctx)
      "https://shop/ok" "https://shop/no" member_db =
    post_checkout_session sample_stripe member_ctx
      "https://shop/ok" "https://shop/no" member_db.
Proof.
  apply (signed_in_request_ignores_cart_token sample_stripe member_ctx None
           {| body_product_id := Some "p1"; body_variant_id := None;
              body_quantity := None |} "i1" 3 "https://shop/ok" "https://shop/no"
           "u1" member_db).
  reflexivity.
Defined.

(** Signed in, the member sees no cart where the guest cart with the token
    they still send holds two lines. *)
Example signed_in_hides_guest_cart :
  (cs_items <$> match cartApi_get (λ _, None)
                        {| auth_token := None; cart_token := Some "tok" |}
                        member_db with
                | (_, _, Resolved data) => Some data
                | _ => None
                end) = Some (omap (join_line member_db) sample_cart_items) ∧
  (cs_items <$> match cartApi_get (λ _, Some "u1")
                        {| auth_token := Some "jwt"; cart_token := Some "tok" |}
                        member_db with
                | (_, _, Resolved data) => Some data
                | _ => None
                end) = Some [].
Proof. split; vm_compute; reflexivity. Qed.

(** ** The optimistic removal *)

Lemma foldl_sum_Z {A} (f : A → Z) (l : list A) acc :
  foldl (λ s i, s + f i) acc l = acc + sum_Z (f <$> l).
Proof.
  unfold sum_Z. revert acc. induction l as [|x l IH]; intros acc; csimpl.
  - lia.
  - rewrite IH. lia.
Qed.

Lemma sum_Z_split {A} (f : A → Z) (P : A → Prop) `{∀ x, Decision (P x)}
    (l : list A) :
  sum_Z (f <$> l) =
  sum_Z (f <$> filter P l) + sum_Z (f <$> filter (λ x, ¬ P x) l).
Proof.
  unfold sum_Z. induction l as [|x l IH]; [done|].
  destruct (decide (P x)) as [Hx|Hx].
  - rewrite filter_cons_True, (filter_cons_False (λ x, ¬ P x)) by tauto.
    csimpl. lia.
  - rewrite filter_cons_False, (filter_cons_True (λ x, ¬ P x)) by tauto.
    csimpl. lia.
Qed.

Lemma getCartWithItems_totals cartId db snap :
  (getCartWithItems cartId db).2 = Ok snap →
  subtotal snap =
    sum_Z ((λ i, ci_price_cents (cl_item i) * ci_quantity (cl_item i))
           <$> items snap) ∧
  item_count snap = sum_Z (ci_quantity ∘ cl_item <$> items snap).
Proof.
  unfold getCartWithItems. unfold_M. cbn [snd]. intros [= <-].
  cbn [subtotal item_count items].
  rewrite (foldl_sum_Z (λ i, ci_price_cents (cl_item i) * ci_quantity (cl_item i))).
  rewrite (foldl_sum_Z (λ i, ci_quantity (cl_item i))). split; [lia|].
  rewrite Z.add_0_l. done.
Qed.

Lemma join_after_delete db db1 itemId cartId (l : list cart_item) :
  products db1 = products db → variants db1 = variants db →
  omap (join_line db1)
    (filter (λ ci, ci_cart_id ci = cartId)
       (filter (λ ci, ¬ (ci_id ci = itemId ∧ ci_cart_id ci = cartId)) l)) =
  filter (λ i, ci_id (cl_item i) ≠ itemId)
    (omap (join_line db) (filter (λ ci, ci_cart_id ci = cartId) l)).
Proof.
  intros Hp Hv.
  assert (∀ ci, join_line db1 ci = join_line db ci) as Hj
    by (intros ci; unfold join_line; by rewrite Hp, Hv).
  assert (∀ ci i, join_line db ci = Some i → cl_item i = ci) as Hitem.
  { intros ci i. unfold join_line.
    destruct (products db !! ci_product_id ci); [|done]. by intros [= <-]. }
  induction l as [|ci l IH]; [done|].
  destruct (decide (ci_cart_id ci = cartId)) as [Hin|Hout].
  - rewrite (filter_cons_True (λ ci, ci_cart_id ci = cartId)) by done. csimpl.
    destruct (decide (ci_id ci = itemId)) as [Hid|Hid].
    + rewrite filter_cons_False by tauto. rewrite IH.
      destruct (join_line db ci) as [i|] eqn:Hjoin; [|done].
      rewrite filter_cons_False; [done|]. rewrite (Hitem _ _ Hjoin). tauto.
    + rewrite filter_cons_True by tauto.
      rewrite filter_cons_True by done. csimpl. rewrite Hj, IH.
      destruct (join_line db ci) as [i|] eqn:Hjoin; [|done].
      rewrite filter_cons_True; [done|]. by rewrite (Hitem _ _ Hjoin).
  - rewrite (filter_cons_False (λ ci, ci_cart_id ci = cartId)) by done.
    rewrite filter_cons_True by tauto.
    rewrite filter_cons_False by done. apply IH.
Qed.

(** The optimistic removal against the worker's answer.  For a cart context
    that shows the caller's cart as the worker holds it, removing an item
    ends with the cart the worker replies with, no error, and the loading
    flag untouched.  The lines shown in the meantime are the final ones;
    the count shown in the meantime is one less than before, which is the
    final count only when the removed quantity is one, and the subtotal
    shown in the meantime is the old one, which the reply then lowers by the
    amount of the removed lines. *)
Theorem optimistic_removal_against_reply
    identify itemId state st db cartRow snap :
  (resolveCart (request_ctx identify true st) false db).2 = Ok (Some cartRow) →
  (getCartWithItems (cart_id cartRow) db).2 = Ok snap →
  cs_items (st_cart state) = items snap →
  cs_subtotal (st_cart state) = subtotal snap →
  cs_item_count (st_cart state) = item_count snap →
  ∃ db1 final,
    useCart_removeItem identify itemId state st db = (db1, st, final) ∧
    st_error final = None ∧
    st_loading final = st_loading state ∧
    cs_items (st_cart final) = cs_items (optimistic itemId (st_cart state)) ∧
    cs_item_count (st_cart final) =
      cs_item_count (optimistic itemId (st_cart state)) + 1
      - quantity_of itemId (items snap) ∧
    cs_subtotal (st_cart final) =
      cs_subtotal (optimistic itemId (st_cart state))
      - amount_of itemId (items snap).
Proof.
  intros Hres Hsnap Hitems Hsub Hcount.
  destruct (resolveCart_read (request_ctx identify true st) db) as (r & Hr & _).
  rewrite Hr in Hres. simpl in Hres. simplify_eq.
  set (P := λ ci, ¬ (ci_id ci = itemId ∧ ci_cart_id ci = cart_id cartRow)).
  set (db1 := set_cart_items (filter P) db).
  destruct (getCartWithItems_run (cart_id cartRow) db1) as (data & Hdata & Hd).
  destruct (getCartWithItems_run (cart_id cartRow) db) as (snap' & Hsnap' & Hs).
  rewrite Hsnap' in Hsnap. simpl in Hsnap. simplify_eq.
  assert (delete_cart_item (request_ctx identify true st) itemId db =
          (db1, Ok (json data))) as Hdel.
  { unfold delete_cart_item. rewrite (bind_run _ _ _ _ _ Hr). unfold_M.
    change (set_cart_items _ db) with db1. by rewrite Hdata. }
  assert (items data =
          filter (λ i, ci_id (cl_item i) ≠ itemId) (items snap)) as Hfinal.
  { rewrite Hd, Hs. by apply join_after_delete. }
  destruct (getCartWithItems_totals (cart_id cartRow) db1 data) as [Hsub1 Hcount1];
    [by rewrite Hdata|].
  destruct (getCartWithItems_totals (cart_id cartRow) db snap) as [Hsub0 Hcount0];
    [by rewrite Hsnap'|].
  exists db1. eexists.
  unfold useCart_removeItem, cartApi_removeItem, apiFetch. rewrite Hdel.
  cbn [json re_headers re_body headers_get filter head fmap truthy fetched_map
       reducer st_cart st_error st_loading state_of_snapshot optimistic
       cs_items cs_item_count cs_subtotal option_fmap option_map].
  split_and!; [reflexivity | reflexivity | reflexivity | | | ];
    cbn [st_cart state_of_snapshot cs_items cs_item_count cs_subtotal].
  - by rewrite Hfinal, Hitems.
  - rewrite Hcount, Hcount1, Hcount0, Hfinal. unfold quantity_of.
    rewrite (sum_Z_split (ci_quantity ∘ cl_item)
               (λ i, ci_id (cl_item i) = itemId) (items snap)). lia.
  - rewrite Hsub, Hsub1, Hsub0, Hfinal. unfold amount_of.
    rewrite (sum_Z_split (λ i, ci_price_cents (cl_item i) * ci_quantity (cl_item i))
               (λ i, ci_id (cl_item i) = itemId) (items snap)). lia.
Qed.

Lemma optimistic_removal_against_reply_witness :
  ∃ db1 final,
    useCart_removeItem (λ _, None) "i1" sample_state sample_storage sample_db =
      (db1, sample_storage, final) ∧
    st_error final = None ∧
    st_loading final = st_loading sample_state ∧
    cs_items (st_cart final) = cs_items (optimistic "i1" (st_cart sample_state)) ∧
    cs_item_count (st_cart final) =
      cs_item_count (optimistic "i1" (st_cart sample_state)) + 1
      - quantity_of "i1" (cs_items (st_cart sample_state)) ∧
    cs_subtotal (st_cart final) =
      cs_subtotal (optimistic "i1" (st_cart sample_state))
      - amount_of "i1" (cs_items (st_cart sample_state)).
Proof.
  apply (optimistic_removal_against_reply (λ _, None) "i1" sample_state
           sample_storage sample_db sample_cart
           {| items := cs_items (st_cart sample_state);
              subtotal := cs_subtotal (st_cart sample_state);
              item_count := cs_item_count (st_cart sample_state) |});
    vm_compute; reflexivity.
Defined.

(** The sample cart holds two A and one B: removing the line of the two A
    shows a count of two until the worker's reply corrects it to one. *)
Example optimistic_count_scenario :
  cs_item_count (optimistic "i1" (st_cart sample_state)) = 2 ∧
  (cs_item_count ∘ st_cart <$>
     match useCart_removeItem (λ _, None) "i1" sample_state sample_storage
             sample_db with
     | (_, _, final) => Some final
     end) = Some 1.
Proof. split; vm_compute; reflexivity. Qed.

(** ** Refusals as the shopper sees them *)

(** Adding more of a variant than is in stock, through the cart context: the
    worker refuses before it resolves or creates a cart, so the database and
    the stored tokens are as they were, and the context keeps the cart it
    showed, is no longer loading and carries the worker's message. *)
Theorem add_beyond_stock_shows_message
    identify productId variantId qty state st db p v :
  productId ≠ "" →
  variantId ≠ "" →
  products db !! productId = Some p →
  p_is_active p = true →
  variants db !! variantId = Some v →
  v_stock_qty v < default 1 qty →
  useCart_addItem identify productId (Some variantId) qty state st db =
    (db, st,
     {| st_cart := st_cart state; st_loading := false;
        st_error := Some "Insufficient stock" |}).
Proof.
  intros Hpid Hvid Hp Hactive Hv Hstock.
  unfold useCart_addItem, guarded, cartApi_addItem, apiFetch, post_cart_items.
  cbn [body_product_id body_variant_id body_quantity default].
  rewrite (truthy_Some _ Hpid), bind_gets, Hp, Hactive.
  rewrite (truthy_Some _ Hvid).
  rewrite (bind_Throw _ _ db db (HTTPException 400 "Insufficient stock")).
  - reflexivity.
  - rewrite bind_gets, Hv. by rewrite decide_True.
Qed.

Lemma add_beyond_stock_shows_message_witness :
  useCart_addItem (λ _, None) "p2" (Some "v1") (Some 6) sample_state
      sample_storage sample_db =
    (sample_db, sample_storage,
     {| st_cart := st_cart sample_state; st_loading := false;
        st_error := Some "Insufficient stock" |}).
Proof.
  apply (add_beyond_stock_shows_message (λ _, None) "p2" "v1" (Some 6)
           sample_state sample_storage sample_db
           {| p_slug := "b"; p_name := "B"; p_price_cents := 2500;
              p_image := None; p_is_active := true |}
           {| v_product_id := "p2"; v_name := "Large"; v_price_cents := None;
              v_stock_qty := 5 |});
    [discriminate | discriminate | reflexivity | reflexivity | reflexivity
    | simpl; lia].
Defined.

(** An add that the database refuses still creates a cart.  For a visitor
    without a stored token, adding an active product with a quantity of zero
    or less passes the handler's own checks, creates a cart with a new
    token, and then fails on the quantity check of cart_items: the reply is
    the generic 500, it carries no token, so the client stores none, and the
    new cart row stays behind, empty. *)
Theorem refused_add_leaves_cart identify productId qty db p :
  productId ≠ "" →
  products db !! productId = Some p →
  p_is_active p = true →
  qty ≤ 0 →
  ∃ db1 token cartId,
    cartApi_addItem identify productId None qty new_visitor db =
      (db1, new_visitor,
       Rejected {| err_message := "Internal server error"; err_status := 500 |}) ∧
    carts db1 =
      carts db ++ [{| cart_id := cartId; cart_user_id := None;
                      cart_session_token := Some token;
                      cart_stripe_session_id := None |}] ∧
    cart_items db1 = cart_items db.
Proof.
  intros Hpid Hp Hactive Hqty.
  unfold cartApi_addItem, apiFetch, post_cart_items.
  cbn [body_product_id body_variant_id body_quantity default].
  rewrite (truthy_Some _ Hpid), bind_gets, Hp, Hactive.
  unfold resolveCart, insert_cart, upsert_cart_item, gen_uuid.
  unfold_M. cbn. destruct (decide True) as [_|]; [|done].
  cbn. destruct (decide (qty ≤ 0)) as [_|]; [|lia].
  cbn. do 3 eexists. split_and!; reflexivity.
Qed.

Lemma refused_add_leaves_cart_witness :
  ∃ db1 token cartId,
    cartApi_addItem (λ _, None) "p1" None 0 new_visitor sample_db =
      (db1, new_visitor,
       Rejected {| err_message := "Internal server error"; err_status := 500 |}) ∧
    carts db1 =
      carts sample_db ++ [{| cart_id := cartId; cart_user_id := None;
                             cart_session_token := Some token;
                             cart_stripe_session_id := None |}] ∧
    cart_items db1 = cart_items sample_db.
Proof.
  apply (refused_add_leaves_cart (λ _, None) "p1" 0 sample_db
           {| p_slug := "a"; p_name := "A"; p_price_cents := 1000;
              p_image := None; p_is_active := true |});
    [discriminate | reflexivity | reflexivity | lia].
Defined.
